(** * DevFlow AI agent core: a shallow embedding of [src/agent/graph.py]

    The development follows the Python module function by function:
    the response classifier, the natural-time resolver, the tool-call
    validator, the model node with its routing edge, the effort
    aggregator with its report, and the [run_agent] entry point.

    Conventions of the embedding.
    - A Python [str] is a [string] holding its UTF-8 bytes.  Substring
      tests on UTF-8 bytes agree with substring tests on code points.
      Case mapping, whitespace and digit classes are the ASCII ones; bytes
      above 127 are left alone by [lower] and are neither space nor digit.
    - A finite Python [float] is represented by the rational it denotes
      ([Q]); comparisons are then exact, as they are on doubles.  Sums and
      products are taken in [Q], so the rounding of float arithmetic is
      not represented.
    - Code that can raise returns an [outcome]; [try]/[except] is a match
      on it.
    - A [dict] with string keys is a [gmap string _].
    - [datetime.now()] is the argument [now] of the functions that read
      the clock; one turn of the agent works with one reading.
    - [int], [timedelta] and [datetime] have the limits of CPython 3.11:
      4300 digits in a decimal string, 999999999 days held in a C [int],
      and the years 1 to 9999. *)

From Stdlib Require Import ZArith QArith Qround Lia Lqa.
From stdpp Require Import base option list gmap strings.
From Stdlib Require Import Ascii String.

Local Open Scope string_scope.
Local Open Scope Z_scope.

(** ** Exceptions and the error monad *)

Inductive exn_kind :=
  | ValueError | TypeError | AttributeError | OverflowError | IndexError
  | KeyError | RuntimeError.

Record exn := PyExn { exn_class : exn_kind; exn_msg : string }.

Inductive outcome (A : Type) :=
  | Ok (a : A)
  | Raise (e : exn).
Arguments Ok {A} a.
Arguments Raise {A} e.

#[global] Instance result_ret : MRet outcome := fun A a => Ok a.

#[global] Instance result_bind : MBind outcome := fun A B k r =>
  match r with
  | Ok a => k a
  | Raise e => Raise e
  end.

Definition raises {A} (r : outcome A) : bool :=
  match r with Ok _ => false | Raise _ => true end.

(** ** Python strings *)

Module PyStr.

Definition is_upper (c : ascii) : bool :=
  let n := nat_of_ascii c in (65 <=? n)%nat && (n <=? 90)%nat.

Definition is_lower (c : ascii) : bool :=
  let n := nat_of_ascii c in (97 <=? n)%nat && (n <=? 122)%nat.

Definition is_digit (c : ascii) : bool :=
  let n := nat_of_ascii c in (48 <=? n)%nat && (n <=? 57)%nat.

(** [str.isspace] on the ASCII range: TAB..CR, FS..US and SPACE. *)
Definition is_space (c : ascii) : bool :=
  let n := nat_of_ascii c in
  ((9 <=? n)%nat && (n <=? 13)%nat) || ((28 <=? n)%nat && (n <=? 32)%nat).

Definition lower_char (c : ascii) : ascii :=
  if is_upper c then ascii_of_nat (nat_of_ascii c + 32) else c.

Definition upper_char (c : ascii) : ascii :=
  if is_lower c then ascii_of_nat (nat_of_ascii c - 32) else c.

Fixpoint lower (s : string) : string :=
  match s with
  | EmptyString => EmptyString
  | String c s' => String (lower_char c) (lower s')
  end.

Fixpoint upper (s : string) : string :=
  match s with
  | EmptyString => EmptyString
  | String c s' => String (upper_char c) (upper s')
  end.

Fixpoint lstrip (s : string) : string :=
  match s with
  | EmptyString => EmptyString
  | String c s' => if is_space c then lstrip s' else s
  end.

(** [rstrip] drops the trailing run of whitespace: a character is kept
    when something after it is kept or when it is not a space. *)
Fixpoint rstrip (s : string) : string :=
  match s with
  | EmptyString => EmptyString
  | String c s' =>
      match rstrip s' with
      | EmptyString => if is_space c then EmptyString else String c EmptyString
      | r => String c r
      end
  end.

Definition strip (s : string) : string := rstrip (lstrip s).

Fixpoint starts_with (p s : string) : bool :=
  match p, s with
  | EmptyString, _ => true
  | String _ _, EmptyString => false
  | String a p', String b s' => Ascii.eqb a b && starts_with p' s'
  end.

(** [contains p s] is Python's [p in s]. *)
Fixpoint contains (p s : string) : bool :=
  starts_with p s ||
  match s with
  | EmptyString => false
  | String _ s' => contains p s'
  end.

Fixpoint drop (n : nat) (s : string) : string :=
  match n, s with
  | O, _ => s
  | S _, EmptyString => EmptyString
  | S n', String _ s' => drop n' s'
  end.

(** The maximal prefix of characters satisfying [p], and the rest. *)
Fixpoint span (p : ascii -> bool) (s : string) : string * string :=
  match s with
  | EmptyString => (EmptyString, EmptyString)
  | String c s' =>
      if p c then let '(a, b) := span p s' in (String c a, b)
      else (EmptyString, s)
  end.

(** [s.split(sep)] for a one-character separator. *)
Fixpoint split_on (sep : ascii) (s : string) : list string :=
  match s with
  | EmptyString => [EmptyString]
  | String c s' =>
      if Ascii.eqb c sep then EmptyString :: split_on sep s'
      else match split_on sep s' with
           | [] => [String c EmptyString]
           | w :: ws => String c w :: ws
           end
  end.

(** [s.count(p)] for a non-empty [p]: non-overlapping occurrences, scanning
    left to right.
    The scan is structural on [s] with a skip counter for the characters
    of an occurrence already counted. *)
Fixpoint count_from (p : string) (skip : nat) (s : string) : nat :=
  match s with
  | EmptyString => O
  | String _ s' =>
      match skip with
      | S k => count_from p k s'
      | O => if starts_with p s
             then S (count_from p (String.length p - 1) s')
             else count_from p O s'
      end
  end.

Definition count (p s : string) : nat := count_from p O s.

(** [s.replace(a, b)] for one-character [a] and [b]. *)
Fixpoint replace_char (a b : ascii) (s : string) : string :=
  match s with
  | EmptyString => EmptyString
  | String c s' => String (if Ascii.eqb c a then b else c) (replace_char a b s')
  end.

Definition is_alpha (c : ascii) : bool := is_upper c || is_lower c.

(** [s.title()]: a letter is upper-cased after a non-letter and
    lower-cased after a letter. *)
Fixpoint title_from (prev_alpha : bool) (s : string) : string :=
  match s with
  | EmptyString => EmptyString
  | String c s' =>
      String (if prev_alpha then lower_char c else upper_char c)
             (title_from (is_alpha c) s')
  end.

Definition title (s : string) : string := title_from false s.

Definition digit_val (c : ascii) : Z := Z.of_nat (nat_of_ascii c) - 48.

(** [int(s)] for a string of decimal digits. *)
Fixpoint int_of_digits_acc (acc : Z) (s : string) : Z :=
  match s with
  | EmptyString => acc
  | String c s' => int_of_digits_acc (10 * acc + digit_val c) s'
  end.

Definition int_of_digits (s : string) : Z := int_of_digits_acc 0 s.

Definition digit_char (d : Z) : ascii := ascii_of_nat (Z.to_nat (48 + d)).

(** Decimal rendering of a non-negative integer, by fuel on the number of
    digits. *)
Fixpoint digits_fuel (fuel : nat) (n : Z) (acc : string) : string :=
  match fuel with
  | O => acc
  | S f =>
      let acc' := String (digit_char (n mod 10)) acc in
      if n <? 10 then acc' else digits_fuel f (n / 10) acc'
  end.

Definition str_of_nonneg (n : Z) : string :=
  digits_fuel (S (Z.to_nat (Z.log2 n))) n EmptyString.

Definition str_of_int (n : Z) : string :=
  if n <? 0 then String "-" (str_of_nonneg (- n)) else str_of_nonneg n.

(** [f"{n:0{w}d}"] for non-negative [n]. *)
Fixpoint zeros (k : nat) : string :=
  match k with O => EmptyString | S k' => String "0" (zeros k') end.

Definition pad0 (w : nat) (n : Z) : string :=
  let s := str_of_nonneg n in zeros (w - String.length s) ++ s.

End PyStr.

(** ** Python values

    The values a tool-call argument can take once the model's JSON reply
    has been decoded. *)

Inductive pyfloat :=
  | FFin (q : Q)
  | FInf (negative : bool)
  | FNan.

#[local] Set Warnings "-register-all".

Inductive pyval :=
  | VNone
  | VBool (b : bool)
  | VInt (z : Z)
  | VFloat (f : pyfloat)
  | VStr (s : string)
  | VList (l : list pyval)
  | VDict (d : list (string * pyval)).

(** Truth value of an object, as [not x] and [if x] use it. *)
Definition truthy (v : pyval) : bool :=
  match v with
  | VNone => false
  | VBool b => b
  | VInt z => negb (z =? 0)
  | VFloat (FFin q) => negb (Qeq_bool q 0)
  | VFloat _ => true
  | VStr s => negb (String.eqb s "")
  | VList l => match l with [] => false | _ => true end
  | VDict d => match d with [] => false | _ => true end
  end.

(** [x < y] and [x > y] on floats: every comparison with NaN is false. *)
Definition flt (x y : pyfloat) : bool :=
  match x, y with
  | FNan, _ | _, FNan => false
  | FFin a, FFin b => negb (Qle_bool b a)
  | FFin _, FInf neg => negb neg
  | FInf neg, FFin _ => neg
  | FInf n1, FInf n2 => n1 && negb n2
  end.

Definition fgt (x y : pyfloat) : bool := flt y x.

(** ** Action records and the response classifier *)

(** One entry of [state["tool_calls"]]: the dict built in [call_model]. *)
Record ActionRecord := {
  tool : string;
  args : gmap string pyval;
  status : string;
  error : option string
}.

Definition error_patterns : list string :=
  [ "error"; "failed"; "could not"; "couldn't"; "unable to";
    "not found"; "invalid"; "incorrect"; "❌"; "cannot";
    "exception"; "crashed"; "broken" ].

Definition warning_patterns : list string :=
  [ "blocked"; "overdue"; "high priority"; "urgent"; "pending";
    "attention"; "⚠️"; "limited"; "quota"; "exceeded";
    "missing"; "incomplete" ].

Definition success_patterns : list string :=
  [ "created"; "scheduled"; "completed"; "updated"; "deleted";
    "✅"; "successfully"; "done"; "finished"; "saved";
    "confirmed"; "added" ].

(** [any(pattern in text for pattern in patterns)] *)
Definition any_in (patterns : list string) (text : string) : bool :=
  existsb (fun pattern => PyStr.contains pattern text) patterns.

(** [sum(1 for pattern in patterns if pattern in text)] *)
Definition count_in (patterns : list string) (text : string) : nat :=
  List.length (List.filter (fun pattern => PyStr.contains pattern text) patterns).

Definition nonempty {A} (l : list A) : bool :=
  match l with [] => false | _ => true end.

Definition with_status (s : string) (tool_calls : list ActionRecord) : list ActionRecord :=
  List.filter (fun tc => String.eqb (status tc) s) tool_calls.

Definition classify_output (response : string) (tool_calls : list ActionRecord) : string :=
  let response_lower := PyStr.lower response in
  if any_in error_patterns response_lower then "error"
  else if nonempty tool_calls && nonempty (with_status "invalid" tool_calls) then "error"
  else if any_in warning_patterns response_lower
          && (2 <=? count_in warning_patterns response_lower)%nat then "warning"
  else if any_in success_patterns response_lower then "success"
  else if nonempty tool_calls && nonempty (with_status "valid" tool_calls) then "success"
  else "info".

(** The cascade as the specification words it: an ordered list of rules,
    the first one that matches decides, and "info" when none does. *)
Definition rule := (bool * string)%type.

Fixpoint first_match (rules : list rule) (default : string) : string :=
  match rules with
  | [] => default
  | (matches, tag) :: rest => if matches then tag else first_match rest default
  end.

Definition distinct_matches (keywords : list string) (text : string) : nat :=
  List.length (List.filter (fun k => PyStr.contains k text) (remove_dups keywords)).

Definition classifier_cascade (response : string) (records : list ActionRecord) : string :=
  let text := PyStr.lower response in
  first_match
    [ (any_in error_patterns text, "error");
      (existsb (fun r => String.eqb (status r) "invalid") records, "error");
      ((2 <=? distinct_matches warning_patterns text)%nat, "warning");
      (any_in success_patterns text, "success");
      (existsb (fun r => String.eqb (status r) "valid") records, "success") ]
    "info".

(** ** Naive datetimes

    [datetime] values as the standard library keeps them: a proleptic
    Gregorian day number ([toordinal()], day 1 is 0001-01-01) and the
    time-of-day fields. *)

Module Datetime.

Record datetime := {
  ordinal : Z;
  hour : Z;
  minute : Z;
  second : Z;
  microsecond : Z
}.

Definition MAXORDINAL : Z := 3652059.

Definition valid (dt : datetime) : Prop :=
  1 <= ordinal dt <= MAXORDINAL /\ 0 <= hour dt < 24 /\ 0 <= minute dt < 60
  /\ 0 <= second dt < 60 /\ 0 <= microsecond dt < 1000000.

Definition in_range (lo hi x : Z) : bool := (lo <=? x) && (x <=? hi).

(** [dt.replace(hour=h, minute=m, second=0, microsecond=0)] *)
Definition replace_time (dt : datetime) (h m : Z) : outcome datetime :=
  if negb (in_range 0 23 h) then Raise (PyExn ValueError "hour must be in 0..23")
  else if negb (in_range 0 59 m) then Raise (PyExn ValueError "minute must be in 0..59")
  else Ok {| ordinal := ordinal dt; hour := h; minute := m; second := 0; microsecond := 0 |}.

(** [dt + timedelta(seconds=secs)]; [OverflowError] when the day leaves
    the supported range. *)
Definition add_seconds (dt : datetime) (secs : Z) : outcome datetime :=
  let total := hour dt * 3600 + minute dt * 60 + second dt + secs in
  let day := ordinal dt + total / 86400 in
  let rest := total mod 86400 in
  if in_range 1 MAXORDINAL day
  then Ok {| ordinal := day; hour := rest / 3600; minute := (rest mod 3600) / 60;
             second := rest mod 60; microsecond := microsecond dt |}
  else Raise (PyExn OverflowError "date value out of range").

(** [timedelta(hours=h)] and [timedelta(minutes=m)], as the length in
    seconds: CPython keeps the days of a [timedelta] in a C [int] and
    refuses more than 999999999 of them. *)
Definition MAX_DELTA_DAYS : Z := 999999999.

Definition timedelta (secs : Z) : outcome Z :=
  let days := secs / 86400 in
  if negb (in_range (- 2 ^ 31) (2 ^ 31 - 1) days)
  then Raise (PyExn OverflowError "Python int too large to convert to C int")
  else if negb (in_range (- MAX_DELTA_DAYS) MAX_DELTA_DAYS days)
  then Raise (PyExn OverflowError
                ("days=" ++ PyStr.str_of_int days ++ "; must have magnitude <= 999999999"))
  else Ok secs.

(** The constant offsets of the lookup table are well inside the range
    of [timedelta]; they are added directly. *)
Definition add_days (dt : datetime) (d : Z) : outcome datetime := add_seconds dt (d * 86400).
Definition add_hours (dt : datetime) (h : Z) : outcome datetime := add_seconds dt (h * 3600).

Definition key (dt : datetime) : list Z :=
  [ordinal dt; hour dt; minute dt; second dt; microsecond dt].

Fixpoint lex_lt (a b : list Z) : bool :=
  match a, b with
  | x :: a', y :: b' => (x <? y) || ((x =? y) && lex_lt a' b')
  | [], _ :: _ => true
  | _, [] => false
  end.

(** [a < b] *)
Definition dt_lt (a b : datetime) : bool := lex_lt (key a) (key b).

Definition days_before_year (year : Z) : Z :=
  let y := year - 1 in y * 365 + y / 4 - y / 100 + y / 400.

Definition is_leap (year : Z) : bool :=
  (year mod 4 =? 0) && (negb (year mod 100 =? 0) || (year mod 400 =? 0)).

Definition DAYS_IN_MONTH : list Z := [31; 28; 31; 30; 31; 30; 31; 31; 30; 31; 30; 31].

Definition month_entry (table : list Z) (month : Z) : Z :=
  nth (Z.to_nat (month - 1)) table 0.

Definition DAYS_BEFORE_MONTH : list Z :=
  [0; 31; 59; 90; 120; 151; 181; 212; 243; 273; 304; 334].

Definition b2z (b : bool) : Z := if b then 1 else 0.

Definition ymd2ord (year month day : Z) : Z :=
  days_before_year year
  + (month_entry DAYS_BEFORE_MONTH month + b2z ((2 <? month) && is_leap year))
  + day.

(** The inverse of [ymd2ord], by the 400/100/4/1-year cycle decomposition. *)
Definition ord2ymd (ord : Z) : Z * Z * Z :=
  let n := ord - 1 in
  let n400 := n / 146097 in
  let n := n mod 146097 in
  let n100 := n / 36524 in
  let n := n mod 36524 in
  let n4 := n / 1461 in
  let n := n mod 1461 in
  let n1 := n / 365 in
  let n := n mod 365 in
  let year := n400 * 400 + 1 + n100 * 100 + n4 * 4 + n1 in
  if (n1 =? 4) || (n100 =? 4) then (year - 1, 12, 31)
  else
    let leapyear := (n1 =? 3) && (negb (n4 =? 24) || (n100 =? 3)) in
    let month := Z.shiftr (n + 50) 5 in
    let preceding :=
      month_entry DAYS_BEFORE_MONTH month + b2z ((2 <? month) && leapyear) in
    if n <? preceding
    then
      let month' := month - 1 in
      let preceding' :=
        preceding - (month_entry DAYS_IN_MONTH month' + b2z ((month' =? 2) && leapyear)) in
      (year, month', n - preceding' + 1)
    else (year, month, n - preceding + 1).

(** [dt.isoformat()] *)
Definition isoformat (dt : datetime) : string :=
  let '(y, m, d) := ord2ymd (ordinal dt) in
  PyStr.pad0 4 y ++ "-" ++ PyStr.pad0 2 m ++ "-" ++ PyStr.pad0 2 d ++ "T"
  ++ PyStr.pad0 2 (hour dt) ++ ":" ++ PyStr.pad0 2 (minute dt) ++ ":"
  ++ PyStr.pad0 2 (second dt)
  ++ (if microsecond dt =? 0 then "" else "." ++ PyStr.pad0 6 (microsecond dt)).

(** [datetime(y, m, d, hh, mm)] *)
Definition make (y m d hh mm : Z) : datetime :=
  {| ordinal := ymd2ord y m d; hour := hh; minute := mm; second := 0; microsecond := 0 |}.

End Datetime.

Import Datetime.

(** ** The natural-time resolver *)

(** The lookup table is a dict literal: every value is computed before the
    lookup, so an overflow in any of them raises whatever the phrase. *)
Definition time_mapping (now : datetime) : outcome (list (string * datetime)) :=
  in_an_hour ← add_hours now 1;
  in_2_hours ← add_hours now 2;
  after_lunch ← replace_time now 13 0;
  lunch ← replace_time now 12 0;
  morning ← replace_time now 9 0;
  afternoon ← replace_time now 14 0;
  evening ← replace_time now 18 0;
  tonight ← replace_time now 19 0;
  tomorrow ← add_days now 1 ≫= (fun d => replace_time d 9 0);
  tomorrow_morning ← add_days now 1 ≫= (fun d => replace_time d 9 0);
  tomorrow_afternoon ← add_days now 1 ≫= (fun d => replace_time d 14 0);
  next_week ← add_days now 7 ≫= (fun d => replace_time d 9 0);
  mret
    [ ("now", now);
      ("in an hour", in_an_hour);
      ("in 2 hours", in_2_hours);
      ("after lunch", after_lunch);
      ("lunch", lunch);
      ("morning", morning);
      ("afternoon", afternoon);
      ("evening", evening);
      ("tonight", tonight);
      ("tomorrow", tomorrow);
      ("tomorrow morning", tomorrow_morning);
      ("tomorrow afternoon", tomorrow_afternoon);
      ("next week", next_week) ].

Fixpoint dict_get {V} (k : string) (d : list (string * V)) : option V :=
  match d with
  | [] => None
  | (k', v) :: d' => if String.eqb k k' then Some v else dict_get k d'
  end.

Inductive period := AM | PM.

(** A match of [at (\d{1,2})(?::(\d{2}))?\s*(am|pm)?]: groups 1, 2, 3. *)
Record at_groups := {
  at_hour : string;
  at_minute : option string;
  at_period : option period
}.

(** The match anchored at the head of [s].  Everything after the first
    digit is optional and each quantifier is greedy, so the first path
    the matcher tries is the one it returns. *)
Definition match_at_here (s : string) : option at_groups :=
  if PyStr.starts_with "at " s then
    match PyStr.drop 3 s with
    | String c1 r1 =>
        if PyStr.is_digit c1 then
          let '(g1, r2) :=
            match r1 with
            | String c2 r2 =>
                if PyStr.is_digit c2 then (String c1 (String c2 ""), r2)
                else (String c1 "", r1)
            | EmptyString => (String c1 "", r1)
            end in
          let '(g2, r3) :=
            match r2 with
            | String colon (String d1 (String d2 r3)) =>
                if Ascii.eqb colon ":" && PyStr.is_digit d1 && PyStr.is_digit d2
                then (Some (String d1 (String d2 "")), r3)
                else (None, r2)
            | _ => (None, r2)
            end in
          let r4 := PyStr.lstrip r3 in
          let g3 :=
            if PyStr.starts_with "am" r4 then Some AM
            else if PyStr.starts_with "pm" r4 then Some PM
            else None in
          Some {| at_hour := g1; at_minute := g2; at_period := g3 |}
        else None
    | EmptyString => None
    end
  else None.

(** [re.search]: the leftmost position at which the pattern matches. *)
Fixpoint search_at (s : string) : option at_groups :=
  match match_at_here s with
  | Some g => Some g
  | None =>
      match s with
      | EmptyString => None
      | String _ s' => search_at s'
      end
  end.

Inductive unit_of_time := Hour | Minute.

(** A match of [in (\d+)\s*(hour|minute)s?]: groups 1 and 2.  A digit is
    neither a space nor a letter, so only the maximal run of digits (and
    then of spaces) can be followed by the unit. *)
Definition match_in_here (s : string) : option (string * unit_of_time) :=
  if PyStr.starts_with "in " s then
    let '(digits, r1) := PyStr.span PyStr.is_digit (PyStr.drop 3 s) in
    if String.eqb digits "" then None
    else
      let r2 := PyStr.lstrip r1 in
      if PyStr.starts_with "hour" r2 then Some (digits, Hour)
      else if PyStr.starts_with "minute" r2 then Some (digits, Minute)
      else None
  else None.

Fixpoint search_in (s : string) : option (string * unit_of_time) :=
  match match_in_here s with
  | Some g => Some g
  | None =>
      match s with
      | EmptyString => None
      | String _ s' => search_in s'
      end
  end.

(** [int(s)] on a run of decimal digits.  CPython (3.11, and every
    release since 3.10.7) refuses a string of more than 4300 digits,
    leading zeros included. *)
Definition MAX_STR_DIGITS : Z := 4300.

Definition int_of_str (s : string) : outcome Z :=
  let n := Z.of_nat (String.length s) in
  if MAX_STR_DIGITS <? n
  then Raise (PyExn ValueError
                ("Exceeds the limit (4300 digits) for integer string conversion: value has "
                 ++ PyStr.str_of_int n
                 ++ " digits; use sys.set_int_max_str_digits() to increase the limit"))
  else Ok (PyStr.int_of_digits s).

(** The 12-hour adjustment of the "at" branch. *)
Definition adjust_hour (hour : Z) (p : option period) : Z :=
  match p with
  | Some PM => if hour <? 12 then hour + 12 else hour
  | Some AM => if hour =? 12 then 0 else hour
  | None => hour
  end.

Definition parse_natural_time (time_str : string) (now : datetime) : outcome string :=
  let time_str := PyStr.strip (PyStr.lower time_str) in
  table ← time_mapping now;
  match dict_get time_str table with
  | Some dt => Ok (isoformat dt)
  | None =>
      match search_at time_str with
      | Some g =>
          (* groups 1 and 2 have at most two digits: [int] cannot fail *)
          let hour := PyStr.int_of_digits (at_hour g) in
          let minute := match at_minute g with
                        | Some m => PyStr.int_of_digits m
                        | None => 0
                        end in
          let hour := adjust_hour hour (at_period g) in
          target_time ← replace_time now hour minute;
          target_time ← (if dt_lt target_time now then add_days target_time 1
                         else Ok target_time);
          Ok (isoformat target_time)
      | None =>
          match search_in time_str with
          | Some (digits, unit) =>
              amount ← int_of_str digits;
              target_time ← match unit with
                            | Hour => timedelta (amount * 3600) ≫= add_seconds now
                            | Minute => timedelta (amount * 60) ≫= add_seconds now
                            end;
              Ok (isoformat target_time)
          | None => Ok time_str
          end
      end
  end.

(** ** Messages, tool calls and the conversation state *)

(** A tool call proposed by the model: [tc["name"]], [tc["args"]], [tc["id"]]. *)
Record ToolCall := {
  name : string;
  tc_args : gmap string pyval;
  tc_id : string
}.

Inductive Message :=
  | HumanMessage (content : string)
  | SystemMessage (content : string)
  | AIMessage (content : string) (tool_calls : list ToolCall)
  | ToolMessage (content : string) (tool_call_id : string).

Definition content_of (m : Message) : string :=
  match m with
  | HumanMessage c | SystemMessage c | AIMessage c _ | ToolMessage c _ => c
  end.

Definition set_content (m : Message) (c : string) : Message :=
  match m with
  | HumanMessage _ => HumanMessage c
  | SystemMessage _ => SystemMessage c
  | AIMessage _ tcs => AIMessage c tcs
  | ToolMessage _ i => ToolMessage c i
  end.

(** [getattr(m, "tool_calls")] when [hasattr(m, "tool_calls")]. *)
Definition tool_calls_attr (m : Message) : option (list ToolCall) :=
  match m with
  | AIMessage _ tcs => Some tcs
  | _ => None
  end.

(** ** Records of the aggregator and the state dict *)

(** What [get_github_workload] returns. *)
Record GhIssue := {
  gi_number : Z;
  gi_title : string;
  gi_repo : string;
  gi_labels : list string
}.

Record GhPull := {
  gp_number : Z;
  gp_title : string;
  gp_repo : string
}.

Record GithubData := {
  total_issues : Z;
  total_prs : Z;
  assigned_issues : list (GhIssue * string);
  my_prs : list GhPull;
  estimated_hours : Q;
  gh_error : option string
}.

Record Analysis := {
  an_summary : string;
  an_utilization : string;
  an_breakdown : list (string * string);
  an_recommendations : list string
}.

(** What [calculate_schedule_effort] returns. *)
Record Snapshot := {
  effort_level : string;
  total_hours : pyfloat;
  scheduled_hours : pyfloat;
  pending_hours : pyfloat;
  github_hours : pyfloat;
  utilization_percent : pyfloat;
  analysis : Analysis;
  github_data : option GithubData
}.

(** What [get_daily_work_summary] returns. *)
Record DailySummary := {
  events_today : Z;
  tasks_pending : Z;
  github_issues : Z;
  github_prs : Z;
  ds_github_data : GithubData;
  tasks_data : option string;
  events_data : option string;
  ds_summary : string
}.

(** The state dict: the keys of [AgentState], and the keys [run_agent]
    adds to its result ([None] while a key is absent). *)
Record AgentState := {
  messages : list Message;
  current_task : option string;
  tasks : list pyval;
  sessions : list pyval;
  reflection : option string;
  st_tool_calls : list ActionRecord;
  user_context : list (string * pyval);
  classification : option string;
  st_github_data : option GithubData;
  daily_summary : option DailySummary;
  effort_analysis : option Snapshot
}.

Definition with_messages (st : AgentState) (ms : list Message) : AgentState :=
  {| messages := ms; current_task := current_task st; tasks := tasks st;
     sessions := sessions st; reflection := reflection st;
     st_tool_calls := st_tool_calls st; user_context := user_context st;
     classification := classification st; st_github_data := st_github_data st;
     daily_summary := daily_summary st; effort_analysis := effort_analysis st |}.

Definition with_tool_calls (st : AgentState) (rs : list ActionRecord) : AgentState :=
  {| messages := messages st; current_task := current_task st; tasks := tasks st;
     sessions := sessions st; reflection := reflection st;
     st_tool_calls := rs; user_context := user_context st;
     classification := classification st; st_github_data := st_github_data st;
     daily_summary := daily_summary st; effort_analysis := effort_analysis st |}.

Definition with_classification (st : AgentState) (c : string) : AgentState :=
  {| messages := messages st; current_task := current_task st; tasks := tasks st;
     sessions := sessions st; reflection := reflection st;
     st_tool_calls := st_tool_calls st; user_context := user_context st;
     classification := Some c; st_github_data := st_github_data st;
     daily_summary := daily_summary st; effort_analysis := effort_analysis st |}.

Definition with_summary (st : AgentState) (s : DailySummary) : AgentState :=
  {| messages := messages st; current_task := current_task st; tasks := tasks st;
     sessions := sessions st; reflection := reflection st;
     st_tool_calls := st_tool_calls st; user_context := user_context st;
     classification := classification st; st_github_data := Some (ds_github_data s);
     daily_summary := Some s; effort_analysis := effort_analysis st |}.

Definition with_effort (st : AgentState) (e : Snapshot) : AgentState :=
  {| messages := messages st; current_task := current_task st; tasks := tasks st;
     sessions := sessions st; reflection := reflection st;
     st_tool_calls := st_tool_calls st; user_context := user_context st;
     classification := classification st; st_github_data := st_github_data st;
     daily_summary := daily_summary st; effort_analysis := Some e |}.

(** The state [run_agent] starts from when the caller passes none. *)
Definition empty_state : AgentState :=
  {| messages := []; current_task := None; tasks := []; sessions := [];
     reflection := None; st_tool_calls := []; user_context := [];
     classification := None; st_github_data := None; daily_summary := None;
     effort_analysis := None |}.

(** ** Sample collaborators

    Concrete stand-ins for the runtime and the services, used to run the
    definitions on examples.  [decimal_float] reads a plain decimal
    literal (digits with at most one dot) as the rational it writes;
    [show] renders strings, integers, booleans and [None] as [str] does.
    A sample world holds the scripted replies of the model, the answers
    of the three sources and the log of the tool calls that were run. *)

Module Sample.

Definition decimal_float (s : string) : option pyfloat :=
  let '(whole, r) := PyStr.span PyStr.is_digit s in
  match r with
  | EmptyString =>
      if String.eqb whole "" then None
      else Some (FFin (inject_Z (PyStr.int_of_digits whole)))
  | String c frac =>
      let '(digits, r') := PyStr.span PyStr.is_digit frac in
      if Ascii.eqb c "." && String.eqb r' "" && negb (String.eqb (whole ++ digits) "")
      then Some (FFin (Qred (inject_Z (PyStr.int_of_digits (whole ++ digits))
                             / inject_Z (10 ^ Z.of_nat (String.length digits)))))
      else None
  end.

Definition show (v : pyval) : string :=
  match v with
  | VNone => "None"
  | VBool b => if b then "True" else "False"
  | VInt z => PyStr.str_of_int z
  | VStr s => s
  | VFloat _ => "<float>"
  | VList _ => "<list>"
  | VDict _ => "<dict>"
  end.

Record world := {
  replies : list (outcome (string * list ToolCall));
  tasks_source : outcome string;
  calendar_source : outcome string;
  token : option string;
  issues_source : outcome (list GhIssue * list GhPull);
  tool_log : list ToolCall
}.

Definition is_ai (m : Message) : bool :=
  match m with AIMessage _ _ => true | _ => false end.

(** The n-th call of the model gets the n-th scripted reply; after the
    script the model answers without proposing anything. *)
Definition llm (ms : list Message) (w : world) : outcome (string * list ToolCall) :=
  nth (List.length (List.filter is_ai ms)) (replies w) (Ok ("Done.", [])).

Definition prompt (now : datetime) : string :=
  "You are DevFlow AI. Current Time: " ++ isoformat now.

Definition tool_runner (tc : ToolCall) (w : world) : string * world :=
  ("ran " ++ name tc,
   {| replies := replies w; tasks_source := tasks_source w;
      calendar_source := calendar_source w; token := token w;
      issues_source := issues_source w; tool_log := tool_log w ++ [tc] |}).

Definition world_of (script : list (outcome (string * list ToolCall)))
    (tasks calendar : outcome string) : world :=
  {| replies := script; tasks_source := tasks; calendar_source := calendar;
     token := Some "ghp_sample";
     issues_source :=
       Ok ([ {| gi_number := 456; gi_title := "Database timeout";
                gi_repo := "myapp/backend"; gi_labels := ["bug"; "Critical"] |} ],
           [ {| gp_number := 234; gp_title := "Auth refactor"; gp_repo := "myapp/backend" |} ]);
     tool_log := [] |}.

(** Wednesday 15 January 2025, 09:00 and 16:00. *)
Definition morning_9 : datetime := make 2025 1 15 9 0.
Definition afternoon_4 : datetime := make 2025 1 15 16 0.

(** A 20-hour event, an event without a duration, a task. *)
Definition overlong_event : ToolCall :=
  {| name := "create_calendar_event";
     tc_args := {[ "summary" := VStr "Offsite"; "start_time" := VStr "at 3pm";
                   "duration_hours" := VInt 20 ]};
     tc_id := "call_1" |}.

Definition standup_event : ToolCall :=
  {| name := "create_calendar_event";
     tc_args := {[ "summary" := VStr "Standup"; "start_time" := VStr "at 3pm" ]};
     tc_id := "call_2" |}.

Definition review_task : ToolCall :=
  {| name := "create_task";
     tc_args := {[ "title" := VStr "Review the API documentation" ]};
     tc_id := "call_3" |}.

Definition tasks_text : string :=
  "## Pending Tasks" ++ String "010" "- **Fix authentication bug** (Est: 3h)"
  ++ String "010" "- **Update test coverage** (Est: 1.5h)".

Definition calendar_text : string :=
  "📅 Events for today" ++ String "010" "   Team Standup (0.5h)"
  ++ String "010" "   Code Review Session (1.5h)".

End Sample.

(** ** What the Python runtime and the outside world provide

    [float_of_str] is [float(s)] on a string ([None] for [ValueError]) and
    [py_str] is [str(x)]; the theorems hold whatever they compute.  The
    language model, the tools and the three read-only sources are the
    external collaborators; [World] is the state of the services they
    talk to. *)

Section Agent.

Variable float_of_str : string -> option pyfloat.
Variable py_str : pyval -> string.

Definition type_name (v : pyval) : string :=
  match v with
  | VNone => "NoneType"
  | VBool _ => "bool"
  | VInt _ => "int"
  | VFloat _ => "float"
  | VStr _ => "str"
  | VList _ => "list"
  | VDict _ => "dict"
  end.

(** An integer converts to a double unless it rounds to 2^1024 or beyond. *)
Definition int_too_large (z : Z) : bool := 2 ^ 1024 - 2 ^ 970 <=? Z.abs z.

(** [float(x)] *)
Definition py_float (v : pyval) : outcome pyfloat :=
  match v with
  | VNone | VList _ | VDict _ =>
      Raise (PyExn TypeError
        ("float() argument must be a string or a real number, not '" ++ type_name v ++ "'"))
  | VBool b => Ok (FFin (if b then 1 else 0)%Q)
  | VInt z =>
      if int_too_large z
      then Raise (PyExn OverflowError "int too large to convert to float")
      else Ok (FFin (inject_Z z))
  | VFloat f => Ok f
  | VStr s =>
      match float_of_str s with
      | Some f => Ok f
      | None => Raise (PyExn ValueError ("could not convert string to float: " ++ py_str v))
      end
  end.

(** [args.get(k)] and [args.get(k, default)] *)
Definition get (args : gmap string pyval) (k : string) : pyval :=
  default VNone (args !! k).

Definition get_or (args : gmap string pyval) (k : string) (d : pyval) : pyval :=
  default d (args !! k).

(** [parse_natural_time(x)] on an arbitrary argument value: only a
    string has [.lower()]. *)
Definition parse_natural_time_arg (v : pyval) (now : datetime) : outcome string :=
  match v with
  | VStr s => parse_natural_time s now
  | _ => Raise (PyExn AttributeError
           ("'" ++ type_name v ++ "' object has no attribute 'lower'"))
  end.

Definition is_value_or_type_error (e : exn) : bool :=
  match exn_class e with
  | ValueError | TypeError => true
  | _ => false
  end.

Definition priorities : list string := ["low"; "medium"; "high"; "critical"].

(** [v in priorities] *)
Definition in_priorities (v : pyval) : bool :=
  match v with
  | VStr s => existsb (String.eqb s) priorities
  | _ => false
  end.

(** The outcome of a validation: the pair the function returns and the
    argument dict as the function leaves it (it is edited in place). *)
Record Validation := {
  is_valid : bool;
  error_msg : string;
  final_args : gmap string pyval
}.

Definition create_task_rules (args : gmap string pyval) : outcome Validation :=
  if negb (truthy (get args "title"))
  then Ok {| is_valid := false; error_msg := "Task title is required"; final_args := args |}
  else if negb (in_priorities (get_or args "priority" (VStr "medium")))
  then Ok {| is_valid := false;
             error_msg := "Priority must be low, medium, high, or critical";
             final_args := args |}
  else
    match args !! "estimated_hours" with
    | Some v =>
        match py_float v with
        | Ok f => Ok {| is_valid := true; error_msg := "";
                        final_args := <["estimated_hours" := VFloat f]> args |}
        | Raise e =>
            if is_value_or_type_error e
            then Ok {| is_valid := false;
                       error_msg := "Estimated hours must be a valid number";
                       final_args := args |}
            else Raise e
        end
    | None => Ok {| is_valid := true; error_msg := ""; final_args := args |}
    end.

Definition create_calendar_event_rules (args : gmap string pyval) (now : datetime)
  : outcome Validation :=
  if negb (truthy (get args "summary"))
  then Ok {| is_valid := false; error_msg := "Event title is required"; final_args := args |}
  else
    let start_time := get_or args "start_time" (VStr "") in
    match parse_natural_time_arg start_time now with
    | Raise e =>
        Ok {| is_valid := false;
              error_msg := "Could not parse time '" ++ py_str start_time ++ "': " ++ exn_msg e;
              final_args := args |}
    | Ok parsed_time =>
        let args := <["start_time" := VStr parsed_time]> args in
        let duration := get_or args "duration_hours" (VInt 1) in
        match py_float duration with
        | Raise e =>
            if is_value_or_type_error e
            then Ok {| is_valid := false;
                       error_msg := "Duration must be a valid number";
                       final_args := args |}
            else Raise e
        | Ok duration =>
            let args := <["duration_hours" := VFloat duration]> args in
            if flt duration (FFin 0.25) || fgt duration (FFin 12)
            then Ok {| is_valid := false;
                       error_msg := "Duration must be between 15 minutes and 12 hours";
                       final_args := args |}
            else Ok {| is_valid := true; error_msg := ""; final_args := args |}
        end
    end.

(** The two [if tool_name == ...] blocks test different names, so at most
    one of them runs; any other name falls through to [return True, ""]. *)
Definition validate_tool_call (tool_name : string) (args : gmap string pyval)
    (now : datetime) : outcome Validation :=
  if String.eqb tool_name "create_calendar_event" then create_calendar_event_rules args now
  else if String.eqb tool_name "create_task" then create_task_rules args
  else Ok {| is_valid := true; error_msg := ""; final_args := args |}.

(** ** The model node and the routing edge *)

Variable World : Type.
Variable llm_invoke : list Message -> World -> outcome (string * list ToolCall).
Variable system_prompt : datetime -> string.
Variable run_tool : ToolCall -> World -> string * World.

(** The loop body of [call_model]: validate each proposed call in order,
    keep the valid ones in [validated_tool_calls] and record every one in
    [tool_calls]. *)
Fixpoint validate_batch (proposed : list ToolCall) (now : datetime)
  : outcome (list ToolCall * list ActionRecord) :=
  match proposed with
  | [] => Ok ([], [])
  | tc :: rest =>
      v ← validate_tool_call (name tc) (tc_args tc) now;
      '(validated_tool_calls, tool_calls) ← validate_batch rest now;
      if is_valid v
      then Ok (tc :: validated_tool_calls,
               {| tool := name tc; args := final_args v; status := "valid";
                  error := None |} :: tool_calls)
      else Ok (validated_tool_calls,
               {| tool := name tc; args := final_args v; status := "invalid";
                  error := Some (error_msg v) |} :: tool_calls)
  end.

(** What [call_model] leaves in [response.tool_calls]: the assignment is
    guarded by [if validated_tool_calls:]. *)
Definition response_tool_calls (proposed validated_tool_calls : list ToolCall)
  : list ToolCall :=
  if nonempty validated_tool_calls then validated_tool_calls else proposed.

(** [call_model]: the state update it returns, already merged into the
    state (messages are appended, [tool_calls] is replaced). *)
Definition call_model (state : AgentState) (now : datetime) (w : World)
  : outcome AgentState :=
  let full_messages := SystemMessage (system_prompt now) :: messages state in
  '(text, proposed) ← llm_invoke full_messages w;
  '(validated_tool_calls, tool_calls) ← validate_batch proposed now;
  let response := AIMessage text (response_tool_calls proposed validated_tool_calls) in
  Ok (with_tool_calls (with_messages state (messages state ++ [response]))
                      (st_tool_calls state ++ tool_calls)).

Inductive route := tools | end_.

Definition should_continue (state : AgentState) : route :=
  match last (messages state) with
  | Some last_message =>
      match tool_calls_attr last_message with
      | Some (_ :: _) => tools
      | _ => end_
      end
  | None => end_
  end.

(** The batch the tool node receives: the calls of the last message. *)
Definition batch_for_tools (state : AgentState) : list ToolCall :=
  match last (messages state) with
  | Some last_message => default [] (tool_calls_attr last_message)
  | None => []
  end.

(** The tool node: run every call of the batch in order, one observation
    message per call. *)
Fixpoint run_batch (batch : list ToolCall) (w : World) : list Message * World :=
  match batch with
  | [] => ([], w)
  | tc :: rest =>
      let '(out, w1) := run_tool tc w in
      let '(ms, w2) := run_batch rest w1 in
      (ToolMessage out (tc_id tc) :: ms, w2)
  end.

Definition tools_node (state : AgentState) (w : World) : AgentState * World :=
  let '(observations, w') := run_batch (batch_for_tools state) w in
  (with_messages state (messages state ++ observations), w').

(** [agent_graph.invoke]: agent, then tools and agent again while the
    edge says so.  Each node run takes one step of the graph's step budget;
    the graph raises when the budget is used up before the end. *)
Fixpoint agent_graph_invoke (steps : nat) (state : AgentState) (now : datetime)
    (w : World) : outcome AgentState * World :=
  match steps with
  | O => (Raise (PyExn RuntimeError "Recursion limit reached without hitting a stop condition"), w)
  | S steps' =>
      match call_model state now w with
      | Raise e => (Raise e, w)
      | Ok state' =>
          match should_continue state' with
          | end_ => (Ok state', w)
          | tools =>
              match steps' with
              | O => (Raise (PyExn RuntimeError
                        "Recursion limit reached without hitting a stop condition"), w)
              | S steps'' =>
                  let '(state'', w') := tools_node state' w in
                  agent_graph_invoke steps'' state'' now w'
              end
          end
      end
  end.

(** ** Float arithmetic used by the aggregator *)

Definition fadd (x y : pyfloat) : pyfloat :=
  match x, y with
  | FNan, _ | _, FNan => FNan
  | FFin a, FFin b => FFin (a + b)
  | FInf n, FFin _ | FFin _, FInf n => FInf n
  | FInf n1, FInf n2 => if Bool.eqb n1 n2 then FInf n1 else FNan
  end.

(** [x / d] and [x * d] for a positive finite constant [d]. *)
Definition fdiv_pos (x : pyfloat) (d : Q) : pyfloat :=
  match x with FFin a => FFin (a / d) | _ => x end.

Definition fmul_pos (x : pyfloat) (d : Q) : pyfloat :=
  match x with FFin a => FFin (a * d) | _ => x end.

(** Nearest integer, ties to the even one. *)
Definition round_half_even (q : Q) : Z :=
  let f := Qfloor q in
  match Qcompare (q - inject_Z f) (1 # 2) with
  | Lt => f
  | Gt => f + 1
  | Eq => if Z.even f then f else f + 1
  end.

(** [round(x, 1)] *)
Definition round1 (x : pyfloat) : pyfloat :=
  match x with
  | FFin q => FFin (Qred (inject_Z (round_half_even (q * 10)) / 10))
  | _ => x
  end.

(** [f"{x:.1f}"] *)
Definition fmt1 (x : pyfloat) : string :=
  match x with
  | FFin q =>
      let n := round_half_even (q * 10) in
      (if n <? 0 then "-" else "")
      ++ PyStr.str_of_nonneg (Z.abs n / 10) ++ "."
      ++ PyStr.str_of_nonneg (Z.abs n mod 10)
  | FInf neg => if neg then "-inf" else "inf"
  | FNan => "nan"
  end.

(** ** The GitHub workload *)

Variable github_token : World -> option string.
Variable github_search : World -> outcome (list GhIssue * list GhPull).

Definition has_label (wanted : list string) (labels : list string) : bool :=
  existsb (fun l => existsb (String.eqb (PyStr.lower l)) wanted) labels.

Definition issue_priority (labels : list string) : string :=
  if has_label ["critical"; "urgent"; "p0"] labels then "critical"
  else if has_label ["high"; "important"; "p1"] labels then "high"
  else if has_label ["low"; "p3"] labels then "low"
  else "medium".

Definition priority_hours (priority : string) : Q :=
  if String.eqb priority "critical" then 4
  else if String.eqb priority "high" then 3
  else if String.eqb priority "medium" then 2
  else 1.

Definition github_failure (msg : string) : GithubData :=
  {| total_issues := 0; total_prs := 0; assigned_issues := []; my_prs := [];
     estimated_hours := 0; gh_error := Some msg |}.

Definition finite_part (x : pyfloat) : Q :=
  match x with FFin q => q | _ => 0 end.

Definition get_github_workload (w : World) : GithubData :=
  match github_token w with
  | None | Some "" => github_failure "GitHub token not configured"
  | Some _ =>
      match github_search w with
      | Raise e => github_failure (exn_msg e)
      | Ok (issues, prs) =>
          let assigned_issues :=
            map (fun i => (i, issue_priority (gi_labels i))) (take 50 issues) in
          let my_prs := take 50 prs in
          let estimated_hours :=
            (fold_left (fun acc ip => acc + priority_hours (snd ip)) assigned_issues 0
             + inject_Z (Z.of_nat (List.length my_prs)) * 0.5)%Q in
          {| total_issues := Z.of_nat (List.length assigned_issues);
             total_prs := Z.of_nat (List.length my_prs);
             assigned_issues := assigned_issues;
             my_prs := my_prs;
             estimated_hours := finite_part (round1 (FFin estimated_hours));
             gh_error := None |}
      end
  end.

(** ** The effort aggregator *)

(** [list_tasks.invoke({"status": "pending"})] and
    [get_calendar_events.invoke({"date": "today"})].  The bodies of the two
    tools catch every exception and answer with an error text
    ([list_tasks_tool] and [get_calendar_events_tool] below), so a failing
    service shows as [Ok] of that text; [Raise] is a failure of the
    invocation itself, outside the tool's body. *)
Variable list_tasks : World -> outcome string.
Variable get_calendar_events : World -> outcome string.

Definition is_digit_or_dot (c : ascii) : bool := PyStr.is_digit c || Ascii.eqb c ".".

(** A match of [Est:\s*([\d.]+)h] anchored at the head of [s]: group 1. *)
Definition match_est_here (s : string) : option string :=
  if PyStr.starts_with "Est:" s then
    let '(g, r) := PyStr.span is_digit_or_dot (PyStr.lstrip (PyStr.drop 4 s)) in
    if negb (String.eqb g "") && PyStr.starts_with "h" r then Some g else None
  else None.

Fixpoint search_est (s : string) : option string :=
  match match_est_here s with
  | Some g => Some g
  | None =>
      match s with
      | EmptyString => None
      | String _ s' => search_est s'
      end
  end.

(** A match of the calendar pattern anchored at the head of [s]: an
    opening parenthesis, one or more digits, an optional dot, any more
    digits (all of this after the parenthesis is group 1), then [h]. *)
Definition match_paren_here (s : string) : option string :=
  match s with
  | String "(" r =>
      let '(d1, r1) := PyStr.span PyStr.is_digit r in
      if String.eqb d1 "" then None
      else
        let '(g, r2) :=
          match r1 with
          | String "." r1' =>
              let '(d2, r2) := PyStr.span PyStr.is_digit r1' in
              (d1 ++ "." ++ d2, r2)
          | _ => (d1, r1)
          end in
        if PyStr.starts_with "h" r2 then Some g else None
  | _ => None
  end.

Fixpoint search_paren (s : string) : option string :=
  match match_paren_here s with
  | Some g => Some g
  | None =>
      match s with
      | EmptyString => None
      | String _ s' => search_paren s'
      end
  end.

(** One round of either [for line in ...] loop: the running sum and count
    move only when the line has the marker, the pattern matches and
    [float] accepts the group (the inner [try] swallows its failure). *)
Definition add_line (marker : string -> bool) (search : string -> option string)
    (acc : pyfloat * Z) (line : string) : pyfloat * Z :=
  if marker line then
    match search line with
    | Some g =>
        match float_of_str g with
        | Some h => (fadd (fst acc) h, snd acc + 1)
        | None => acc
        end
    | None => acc
    end
  else acc.

Definition sum_lines (marker : string -> bool) (search : string -> option string)
    (text : string) : pyfloat * Z :=
  fold_left (add_line marker search) (PyStr.split_on "010" text) (FFin 0, 0).

Definition pending_of (tasks_result : string) : pyfloat * Z :=
  sum_lines (PyStr.contains "Est:") search_est tasks_result.

Definition scheduled_of (calendar_result : string) : pyfloat * Z :=
  sum_lines (fun line => PyStr.contains "(" line && PyStr.contains "h)" line)
            search_paren calendar_result.

(** Lines 299-310: the tier and its description. *)
Definition classify_effort (total_hours : pyfloat) : string * string :=
  if flt total_hours (FFin 4)
  then ("low", "Light workload - good opportunity for deep work or learning")
  else if flt total_hours (FFin 8)
  then ("medium", "Balanced workload - maintain steady pace")
  else if flt total_hours (FFin 12)
  then ("high", "Heavy workload - prioritize and take breaks")
  else ("overloaded", "Overloaded schedule - consider rescheduling or delegating").

Definition standard_day : Q := 8.

(** Line 312. *)
Definition utilization (total_hours : pyfloat) : pyfloat :=
  fmul_pos (fdiv_pos total_hours standard_day) 100.

Definition recommendations_for (effort_level : string) : list string :=
  if String.eqb effort_level "low" then
    [ "Good time to tackle complex tasks";
      "Consider scheduling focus time";
      "Review backlog for new tasks" ]
  else if String.eqb effort_level "medium" then
    [ "Maintain current pace";
      "Schedule regular breaks";
      "Monitor task completion" ]
  else if String.eqb effort_level "high" then
    [ "Prioritize high-impact tasks";
      "Defer low-priority items";
      "Block focus time, minimize meetings";
      "Take breaks every 90 minutes" ]
  else
    [ "⚠️ Reschedule non-urgent tasks";
      "⚠️ Consider delegating work";
      "⚠️ Communicate workload to team";
      "⚠️ Focus only on critical items" ].

(** The body of the [try] block. *)
Definition effort_body (w : World) (include_github : bool) : outcome Snapshot :=
  tasks_result ← list_tasks w;
  let '(pending_hours, task_count) := pending_of tasks_result in
  calendar_result ← get_calendar_events w;
  let '(scheduled_hours, event_count) := scheduled_of calendar_result in
  let github_data := if include_github then Some (get_github_workload w) else None in
  let github_hours := FFin (from_option estimated_hours 0%Q github_data) in
  let github_issues := from_option total_issues 0 github_data in
  let github_prs := from_option total_prs 0 github_data in
  let total_hours := fadd (fadd pending_hours scheduled_hours) github_hours in
  let '(effort_level, effort_description) := classify_effort total_hours in
  let utilization := utilization total_hours in
  let analysis :=
    {| an_summary := effort_description;
       an_utilization := fmt1 utilization ++ "%";
       an_breakdown :=
         [ ("scheduled_events",
            PyStr.str_of_int event_count ++ " events (" ++ fmt1 scheduled_hours ++ "h)");
           ("pending_tasks",
            PyStr.str_of_int task_count ++ " tasks (" ++ fmt1 pending_hours ++ "h)");
           ("github_work",
            PyStr.str_of_int github_issues ++ " issues + " ++ PyStr.str_of_int github_prs
            ++ " PRs (" ++ fmt1 github_hours ++ "h)");
           ("total_workload", fmt1 total_hours ++ "h") ];
       an_recommendations := recommendations_for effort_level |} in
  Ok {| effort_level := effort_level;
        total_hours := round1 total_hours;
        scheduled_hours := round1 scheduled_hours;
        pending_hours := round1 pending_hours;
        github_hours := round1 github_hours;
        utilization_percent := round1 utilization;
        analysis := analysis;
        github_data := github_data |}.

(** The [except Exception as e] branch. *)
Definition effort_fallback (e : exn) : Snapshot :=
  {| effort_level := "unknown";
     total_hours := FFin 0;
     scheduled_hours := FFin 0;
     pending_hours := FFin 0;
     github_hours := FFin 0;
     utilization_percent := FFin 0;
     analysis :=
       {| an_summary := "Could not calculate effort: " ++ exn_msg e;
          an_utilization := "N/A";
          an_breakdown := [];
          an_recommendations := [] |};
     github_data := None |}.

Definition calculate_schedule_effort (w : World) (include_github : bool) : Snapshot :=
  match effort_body w include_github with
  | Ok snapshot => snapshot
  | Raise e => effort_fallback e
  end.

(** ** The effort report *)

Definition nl : string := String "010" EmptyString.

Definition effort_emoji : list (string * string) :=
  [ ("low", "🟢"); ("medium", "🟡"); ("high", "🟠"); ("overloaded", "🔴");
    ("unknown", "⚪") ].

Definition format_effort_report (effort_data : Snapshot) : string :=
  let level := effort_level effort_data in
  let emoji := default "⚪" (dict_get level effort_emoji) in
  let report := nl ++ "## 📊 Workload Analysis" ++ nl ++ nl in
  let report := report ++ emoji ++ " **Effort Level**: " ++ PyStr.upper level ++ nl ++ nl in
  let analysis := analysis effort_data in
  let report := report ++ "**Summary**: " ++ an_summary analysis ++ nl ++ nl in
  let report := report ++ "**Utilization**: " ++ an_utilization analysis ++ nl ++ nl in
  let report :=
    if nonempty (an_breakdown analysis)
    then fold_left
           (fun report kv =>
              report ++ "- **" ++ PyStr.title (PyStr.replace_char "_" " " (fst kv))
              ++ "**: " ++ snd kv ++ nl)
           (an_breakdown analysis) (report ++ "### Breakdown" ++ nl ++ nl)
    else report in
  if nonempty (an_recommendations analysis)
  then fold_left (fun report rec => report ++ "- " ++ rec ++ nl)
         (an_recommendations analysis) (report ++ nl ++ "### Recommendations" ++ nl ++ nl)
  else report.

(** ** The daily summary *)

Definition get_daily_work_summary (w : World) : DailySummary :=
  let '(tasks_pending, tasks_data) :=
    match list_tasks w with
    | Ok task_data => (Z.of_nat (PyStr.count "**" task_data) / 2, Some task_data)
    | Raise _ => (0, None)
    end in
  let '(events_today, events_data) :=
    match get_calendar_events w with
    | Ok events => (Z.of_nat (PyStr.count "🕐" events), Some events)
    | Raise _ => (0, None)
    end in
  let github_data := get_github_workload w in
  {| events_today := events_today;
     tasks_pending := tasks_pending;
     github_issues := total_issues github_data;
     github_prs := total_prs github_data;
     ds_github_data := github_data;
     tasks_data := tasks_data;
     events_data := events_data;
     ds_summary :=
       "Today you have " ++ PyStr.str_of_int events_today ++ " calendar events, "
       ++ PyStr.str_of_int tasks_pending ++ " pending tasks, "
       ++ PyStr.str_of_int (total_issues github_data) ++ " assigned GitHub issues, and "
       ++ PyStr.str_of_int (total_prs github_data) ++ " open pull requests." |}.

(** ** The entry point *)

Definition explicit_keywords : list string :=
  [ "how am i doing"; "how busy am i"; "workload"; "effort level";
    "analyze my schedule"; "am i overloaded"; "show my workload";
    "check my effort"; "how loaded am i"; "schedule analysis" ].

Definition should_include_effort_analysis (user_input : string) : bool :=
  any_in explicit_keywords (PyStr.lower user_input).

Definition planning_keywords : list string :=
  [ "plan my day"; "what do i have today"; "daily summary"; "today's work";
    "show my schedule" ].

(** [ms[-1].content += extra] *)
Fixpoint append_to_last (ms : list Message) (extra : string) : list Message :=
  match ms with
  | [] => []
  | [m] => [set_content m (content_of m ++ extra)]
  | m :: ms' => m :: append_to_last ms' extra
  end.

(** What follows [agent_graph.invoke] inside the [try] block. *)
Definition enrich (user_input : string) (include_analysis : bool)
    (result : AgentState) (w : World) : outcome AgentState :=
  let is_planning_request := any_in planning_keywords (PyStr.lower user_input) in
  if include_analysis || is_planning_request then
    let summary := get_daily_work_summary w in
    let result := with_summary result summary in
    match last (messages result) with
    | None => Raise (PyExn IndexError "list index out of range")
    | Some last_message =>
        let response_content := content_of last_message in
        let classification := classify_output response_content (st_tool_calls result) in
        let result := with_classification result classification in
        if should_include_effort_analysis user_input || is_planning_request then
          let effort_data := calculate_schedule_effort w true in
          let result := with_effort result effort_data in
          let effort_report := format_effort_report effort_data in
          Ok (with_messages result
                (append_to_last (messages result) (nl ++ effort_report)))
        else Ok result
    end
  else Ok result.

(** The [except Exception as e] branch of [run_agent]. *)
Definition on_error (state : AgentState) (include_analysis : bool) (e : exn) : AgentState :=
  let error_message := "❌ **Error**: " ++ exn_msg e in
  let state := with_messages state (messages state ++ [SystemMessage error_message]) in
  if include_analysis then with_classification state "error" else state.

(** [run_agent] on no state or on a state whose "messages" is a list: the
    append of line 956 succeeds.  [run_agent_entry] below adds the other
    states a caller can pass. *)
Definition run_agent (steps : nat) (user_input : string) (state : option AgentState)
    (include_analysis : bool) (now : datetime) (w : World)
  : outcome AgentState * World :=
  let state := default empty_state state in
  let state := with_messages state (messages state ++ [HumanMessage user_input]) in
  match agent_graph_invoke steps state now w with
  | (Ok result, w') =>
      match enrich user_input include_analysis result w' with
      | Ok result => (Ok result, w')
      | Raise e => (Ok (on_error state include_analysis e), w')
      end
  | (Raise e, w') => (Ok (on_error state include_analysis e), w')
  end.

(** The [state] argument as a caller can pass it.  The type hint is not
    enforced and the chat endpoint passes a client's JSON dict on, so the
    entry "messages" may be missing, or hold a value without [append] (of
    the type named); [Listed] is a dict whose "messages" is a list, the
    one of [sd_state]. *)
Inductive messages_entry :=
  | Absent
  | Unappendable (type : string)
  | Listed.

Record StateDict := {
  sd_messages : messages_entry;
  sd_state : AgentState
}.

(** [run_agent] from its first line.  [state["messages"].append(...)] is
    outside the [try]: what it raises reaches the caller, and nothing has
    been done by then. *)
Definition run_agent_entry (steps : nat) (user_input : string) (state : option StateDict)
    (include_analysis : bool) (now : datetime) (w : World)
  : outcome AgentState * World :=
  match state with
  | None => run_agent steps user_input None include_analysis now w
  | Some d =>
      match sd_messages d with
      | Absent => (Raise (PyExn KeyError "'messages'"), w)
      | Unappendable type =>
          (Raise (PyExn AttributeError
                    ("'" ++ type ++ "' object has no attribute 'append'")), w)
      | Listed => run_agent steps user_input (Some (sd_state d)) include_analysis now w
      end
  end.


(** ** The serving boundary ([api_server.py]) *)

(** The single-pass classifier of the chat endpoint. *)
Definition classify_response (text : string) : string :=
  let t := PyStr.lower text in
  if any_in ["error"; "failed"; "unable"; "exception"] t then "error"
  else if any_in ["warning"; "caution"; "be careful"] t then "warning"
  else if any_in ["done"; "created"; "added"; "scheduled"; "success"; "completed"] t
  then "success"
  else "info".

Record ChatResponse := {
  response : string;
  chat_classification : string;
  chat_state : AgentState
}.

(** What a route answers: its value, or the [HTTPException] with status
    500 and the exception's text as detail. *)
Inductive http (A : Type) :=
  | Http200 (a : A)
  | Http500 (detail : string).
#[global] Arguments Http200 {A} a.
#[global] Arguments Http500 {A} detail.

(** The observability sink; its failures are swallowed by the caller. *)
Variable track_agent_call :
  string -> string -> list ActionRecord -> World -> outcome unit * World.

(** [POST /chat] *)
Definition chat (steps : nat) (message : string) (state : option StateDict)
    (now : datetime) (w : World) : http ChatResponse * World :=
  match run_agent_entry steps message state true now w with
  | (Raise e, w1) => (Http500 (exn_msg e), w1)
  | (Ok result, w1) =>
      match last (messages result) with
      | None => (Http500 "list index out of range", w1)
      | Some last_message =>
          let response_content := content_of last_message in
          let classification := classify_response response_content in
          let '(_, w2) :=
            track_agent_call message response_content (st_tool_calls result) w1 in
          (Http200 {| response := response_content;
                      chat_classification := classification;
                      chat_state := result |}, w2)
      end
  end.

(** [GET /workload]: the aggregator with its default [include_github]. *)
Definition get_workload (w : World) : http Snapshot :=
  Http200 (calculate_schedule_effort w true).

(** ** The calendar tool ([tools/google_calendar.py]) *)

(** The [try] block of [get_calendar_events]: the calls of the calendar
    service and the formatting of the events it returns. *)
Variable calendar_block : World -> outcome string.

(** [get_calendar_events]: whatever the block raises comes back as a
    text, so the tool itself does not raise. *)
Definition get_calendar_events_tool (w : World) : string :=
  match calendar_block w with
  | Ok text => text
  | Raise e => "❌ Error fetching calendar events: " ++ exn_msg e
  end.

(** ** The task tools ([tools/google_tasks.py]) *)

(** An item of the task service, with the keys the tools read. *)
Record TaskItem := {
  item_title : option string;
  item_status : option string;
  item_notes : option string;
  item_due : option string
}.

(** [service.tasks().list(...).execute().get('items', [])], with or
    without the completed tasks, and [parser.parse(due).strftime('%b %d,
    %Y')]. *)
Variable fetch_tasks : bool -> World -> outcome (list TaskItem).
Variable due_text : string -> outcome string.

Definition priority_emoji : list (string * string) :=
  [ ("low", "🟢"); ("medium", "🟡"); ("high", "🟠"); ("critical", "🔴") ].

(** The title and the notes [create_task] stores for a task. *)
Definition task_body_title (title priority : string) : string :=
  default "⚪" (dict_get priority priority_emoji) ++ " " ++ title.

Definition task_body_notes (description priority : string) (estimated_hours : pyfloat)
  : string :=
  description ++ nl ++ nl ++ "---" ++ nl ++ "Priority: " ++ priority ++ nl
  ++ "Estimated: " ++ py_str (VFloat estimated_hours) ++ "h".

Definition is_completed (task : TaskItem) : bool :=
  match item_status task with
  | Some s => String.eqb s "completed"
  | None => false
  end.

(** [result += f"{line}\n"] *)
Definition emit (result line : string) : string := result ++ line ++ nl.

(** The loop over the lines of the notes. *)
Definition add_notes (result notes : string) : string :=
  fold_left
    (fun result line =>
       if PyStr.contains "Priority:" line || PyStr.contains "Estimated:" line
       then emit result ("   " ++ PyStr.strip line)
       else result)
    (PyStr.split_on "010" notes) result.

(** One round of the loop over the tasks. *)
Definition add_task (result : string) (task : TaskItem) : outcome string :=
  let title := default "Untitled" (item_title task) in
  let status_emoji := if is_completed task then "✅" else "⏳" in
  let result := emit result (status_emoji ++ " " ++ title) in
  let notes := default "" (item_notes task) in
  let result := if String.eqb notes "" then result else add_notes result notes in
  result ← match item_due task with
           | Some due =>
               if String.eqb due "" then Ok result
               else d ← due_text due; Ok (emit result ("   📅 Due: " ++ d))
           | None => Ok result
           end;
  Ok (emit result "").

Fixpoint add_tasks (result : string) (tasks : list TaskItem) : outcome string :=
  match tasks with
  | [] => Ok result
  | task :: rest => result ← add_task result task; add_tasks result rest
  end.

Definition select_tasks (status : string) (tasks : list TaskItem) : list TaskItem :=
  if String.eqb status "pending" then List.filter (fun t => negb (is_completed t)) tasks
  else if String.eqb status "completed" then List.filter is_completed tasks
  else tasks.

(** The [try] block of [list_tasks]. *)
Definition list_tasks_body (status : string) (w : World) : outcome string :=
  tasks ← fetch_tasks (String.eqb status "completed") w;
  if nonempty tasks then
    let tasks := select_tasks status tasks in
    let header := "📋 Tasks (" ++ PyStr.str_of_int (Z.of_nat (List.length tasks)) ++ "):" in
    result ← add_tasks (emit (emit "" header) "") tasks;
    Ok (PyStr.strip result)
  else Ok "📝 No tasks found.".

(** [list_tasks]: the text of the tool, an error text when anything in
    the block raised. *)
Definition list_tasks_tool (status : string) (w : World) : string :=
  match list_tasks_body status w with
  | Ok text => text
  | Raise e => "❌ Error listing tasks: " ++ exn_msg e
  end.

(** ** Definitions used to state the properties *)

Definition seconds_of_day (dt : datetime) : Z :=
  hour dt * 3600 + minute dt * 60 + second dt.

Definition mapping_keys : list string :=
  [ "now"; "in an hour"; "in 2 hours"; "after lunch"; "lunch"; "morning";
    "afternoon"; "evening"; "tonight"; "tomorrow"; "tomorrow morning";
    "tomorrow afternoon"; "next week" ].

(** The 12-hour conversion as the specification words it: "pm" adds 12
    unless the hour is already 12, and "am" at hour 12 becomes 0. *)
Definition spec_hour (h : Z) (p : option period) : Z :=
  match p with
  | Some PM => if h =? 12 then h else h + 12
  | Some AM => if h =? 12 then 0 else h
  | None => h
  end.


Definition at_hour_value (g : at_groups) : Z := PyStr.int_of_digits (at_hour g).

Definition at_minute_value (g : at_groups) : Z :=
  match at_minute g with
  | Some m => PyStr.int_of_digits m
  | None => 0
  end.

(** The datetime on day [o] at [h]:[m]:00. *)
Definition on_day (o h m : Z) : datetime :=
  {| ordinal := o; hour := h; minute := m; second := 0; microsecond := 0 |}.

Definition unit_seconds (u : unit_of_time) : Z :=
  match u with Hour => 3600 | Minute => 60 end.

(** A numeric argument and its value: a finite float, an integer, or a
    string that [float] reads as a finite number. *)
Inductive is_number : pyval -> Q -> Prop :=
  | number_float (q : Q) : is_number (VFloat (FFin q)) q
  | number_int (z : Z) : is_number (VInt z) (inject_Z z)
  | number_str (s : string) (q : Q) :
      float_of_str s = Some (FFin q) -> is_number (VStr s) q.

(** Whether the validator accepts a proposed call. *)
Definition accepts (now : datetime) (tc : ToolCall) : bool :=
  match validate_tool_call (name tc) (tc_args tc) now with
  | Ok v => is_valid v
  | Raise _ => false
  end.

Definition status_for (now : datetime) (tc : ToolCall) : string :=
  if accepts now tc then "valid" else "invalid".

Definition documented_tiers : list string := ["low"; "medium"; "high"; "overloaded"].




(** The text of the last message, [result["messages"][-1].content]. *)
Definition last_content (st : AgentState) : string :=
  match last (messages st) with
  | Some m => content_of m
  | None => ""
  end.

(** The state [run_agent] starts from when its first statement succeeds:
    the default state for no state, the caller's state when its
    "messages" is a list, and none otherwise. *)
Definition listed_state (state : option StateDict) : option AgentState :=
  match state with
  | None => Some empty_state
  | Some d =>
      match sd_messages d with
      | Listed => Some (sd_state d)
      | _ => None
      end
  end.

(** An action record that failed validation. *)
Definition is_invalid (r : ActionRecord) : bool := String.eqb (status r) "invalid".

(** Every character of [s] satisfies [p]. *)
Fixpoint all_of (p : ascii -> bool) (s : string) : bool :=
  match s with
  | EmptyString => true
  | String c s' => p c && all_of p s'
  end.

(** The word of a unit in the "in N unit" pattern. *)
Definition unit_word (u : unit_of_time) : string :=
  match u with Hour => "hour" | Minute => "minute" end.

(** Seconds from the start of day 0 to [dt], microseconds aside. *)
Definition seconds_since (dt : datetime) : Z := ordinal dt * 86400 + seconds_of_day dt.

(** No character of [s] is [c]. *)
Fixpoint lacks_char (c : ascii) (s : string) : bool :=
  match s with
  | EmptyString => true
  | String x s' => negb (Ascii.eqb c x) && lacks_char c s'
  end.

Definition newline : ascii := "010"%char.

(** A text made of whole lines, none of which holds [p]. *)
Definition clean (p result : string) : Prop :=
  exists r, result = r ++ nl /\ PyStr.contains p r = false.

(** [c] is no character of the fixed parts of a task listing. *)
Definition undecorated (c : ascii) : bool :=
  lacks_char c "📋 Tasks (0123456789):" && lacks_char c "✅ ⏳ "
  && lacks_char c "   📅 Due: " && lacks_char c "📝 No tasks found.".

(** A task as [create_task] stores it, for a title and a description that
    do not hold the marker "Est:" themselves; the text of a float has no
    capital E. *)
Definition made_by_create_task (item : TaskItem) : Prop :=
  exists title priority description estimated_hours,
    item_title item = Some (task_body_title title priority)
    /\ item_notes item = Some (task_body_notes description priority estimated_hours)
    /\ In priority priorities
    /\ PyStr.contains "Est:" title = false
    /\ PyStr.contains "Est:" description = false
    /\ lacks_char "E" (py_str (VFloat estimated_hours)) = true.

(** Neither the title nor the notes of a task holds [p]. *)
Definition task_lacks (p : string) (task : TaskItem) : Prop :=
  PyStr.contains p (default "Untitled" (item_title task)) = false
  /\ PyStr.contains p (default "" (item_notes task)) = false.

(** * Properties of the classifier and the resolver *)

(** ** The response classifier *)

Lemma any_in_count (patterns : list string) (text : string) :
  any_in patterns text = (1 <=? count_in patterns text)%nat.
Proof.
  unfold any_in, count_in.
  induction patterns as [|p ps IH]; simpl; [reflexivity|].
  destruct (PyStr.contains p text); simpl; [reflexivity|exact IH].
Qed.

Lemma nonempty_with_status (s : string) (records : list ActionRecord) :
  nonempty records && nonempty (with_status s records)
  = existsb (fun r => String.eqb (status r) s) records.
Proof.
  unfold with_status.
  induction records as [|r rs IH]; simpl; [reflexivity|].
  destruct (String.eqb (status r) s); simpl; [reflexivity|].
  destruct rs; [reflexivity|exact IH].
Qed.

Lemma warning_patterns_distinct : remove_dups warning_patterns = warning_patterns.
Proof. vm_compute. reflexivity. Qed.

Lemma two_warning_matches (text : string) :
  any_in warning_patterns text && (2 <=? count_in warning_patterns text)%nat
  = (2 <=? distinct_matches warning_patterns text)%nat.
Proof.
  unfold distinct_matches. rewrite warning_patterns_distinct.
  fold (count_in warning_patterns text). rewrite any_in_count.
  destruct (count_in warning_patterns text) as [|[|n]]; reflexivity.
Qed.

(** C5. The detailed classifier is the ordered cascade of the
    specification: error keyword, then an invalid action record, then at
    least two distinct warning keywords, then a success keyword, then a
    valid action record, and "info" when no rule matches; the first rule
    that matches decides.  With no action records the four sample texts
    are tagged success, error, warning and info. *)
Theorem classify_output_is_cascade :
  (forall (response : string) (records : list ActionRecord),
      classify_output response records = classifier_cascade response records)
  /\ classify_output "Task created successfully" [] = "success"
  /\ classify_output "Error: could not find repo" [] = "error"
  /\ classify_output "Several items are overdue and pending review" [] = "warning"
  /\ classify_output "Here is your schedule" [] = "info".
Proof.
  split; [|repeat split; vm_compute; reflexivity].
  intros response records.
  unfold classify_output, classifier_cascade, first_match.
  rewrite !nonempty_with_status, two_warning_matches.
  reflexivity.
Qed.

(** ** Datetime arithmetic *)

Lemma in_range_true (lo hi x : Z) : in_range lo hi x = true <-> lo <= x <= hi.
Proof. unfold in_range. rewrite andb_true_iff, !Z.leb_le. reflexivity. Qed.

Lemma in_range_false (lo hi x : Z) : in_range lo hi x = false <-> ~ (lo <= x <= hi).
Proof.
  rewrite <- in_range_true. destruct (in_range lo hi x); split; intros; congruence.
Qed.

Lemma replace_time_ok (dt : datetime) (h m : Z) :
  0 <= h <= 23 -> 0 <= m <= 59 ->
  replace_time dt h m
  = Ok {| ordinal := ordinal dt; hour := h; minute := m; second := 0; microsecond := 0 |}.
Proof.
  intros Hh Hm. unfold replace_time.
  rewrite (proj2 (in_range_true 0 23 h) Hh), (proj2 (in_range_true 0 59 m) Hm).
  reflexivity.
Qed.

Lemma replace_time_raises (dt : datetime) (h m : Z) (e : exn) :
  replace_time dt h m = Raise e ->
  exn_class e = ValueError /\ ~ (0 <= h <= 23 /\ 0 <= m <= 59).
Proof.
  unfold replace_time.
  destruct (in_range 0 23 h) eqn:Hh; simpl.
  - destruct (in_range 0 59 m) eqn:Hm; simpl; [discriminate|].
    intros [= <-]. split; [reflexivity|].
    apply in_range_false in Hm. intros [_ H]. exact (Hm H).
  - intros [= <-]. split; [reflexivity|].
    apply in_range_false in Hh. intros [H _]. exact (Hh H).
Qed.

Lemma seconds_of_day_bound (dt : datetime) :
  valid dt -> 0 <= seconds_of_day dt < 86400.
Proof. unfold valid, seconds_of_day. lia. Qed.

(** Adding at most a week to a datetime at least a week before the end
    of the calendar stays in range. *)
Lemma add_seconds_ok (dt : datetime) (secs : Z) :
  valid dt -> ordinal dt + 7 <= MAXORDINAL -> 0 <= secs <= 7 * 86400 ->
  exists dt', add_seconds dt secs = Ok dt' /\ 1 <= ordinal dt' <= MAXORDINAL.
Proof.
  intros Hv Hmax Hs. unfold add_seconds.
  pose proof (seconds_of_day_bound dt Hv) as Hb. unfold seconds_of_day in Hb.
  set (total := hour dt * 3600 + minute dt * 60 + second dt + secs) in *.
  assert (0 <= total / 86400 <= 7) as Hd.
  { split.
    - apply Z.div_pos; lia.
    - apply Z.lt_succ_r. apply Z.div_lt_upper_bound; lia. }
  destruct Hv as [Ho _].
  rewrite (proj2 (in_range_true 1 MAXORDINAL _)) by lia.
  eexists. split; [reflexivity|]. simpl. lia.
Qed.

(** The day after a datetime on the minute. *)
Lemma add_days_on_the_minute (o h m : Z) :
  0 <= h <= 23 -> 0 <= m <= 59 -> 1 <= o -> o + 1 <= MAXORDINAL ->
  add_days {| ordinal := o; hour := h; minute := m; second := 0; microsecond := 0 |} 1
  = Ok {| ordinal := o + 1; hour := h; minute := m; second := 0; microsecond := 0 |}.
Proof.
  intros Hh Hm Ho Hmax. unfold add_days, add_seconds.
  cbn [ordinal hour minute second microsecond].
  change (1 * 86400) with 86400.
  assert ((h * 3600 + m * 60 + 0 + 86400) / 86400 = 1) as ->
    by (symmetry; apply Z.div_unique with (r := h * 3600 + m * 60); lia).
  assert ((h * 3600 + m * 60 + 0 + 86400) mod 86400 = h * 3600 + m * 60) as ->
    by (symmetry; apply Z.mod_unique with (q := 1); lia).
  rewrite (proj2 (in_range_true 1 MAXORDINAL (o + 1))) by lia.
  assert ((h * 3600 + m * 60) / 3600 = h) as ->
    by (symmetry; apply Z.div_unique with (r := m * 60); lia).
  assert ((h * 3600 + m * 60) mod 3600 = m * 60) as ->
    by (symmetry; apply Z.mod_unique with (q := h); lia).
  assert (m * 60 / 60 = m) as -> by (apply Z.div_mul; lia).
  assert ((h * 3600 + m * 60) mod 60 = 0) as ->
    by (symmetry; apply Z.mod_unique with (q := h * 60 + m); lia).
  reflexivity.
Qed.

(** ** The natural-time resolver *)

Lemma time_mapping_ok (now : datetime) :
  valid now -> ordinal now + 7 <= MAXORDINAL ->
  exists table, time_mapping now = Ok table /\ map fst table = mapping_keys.
Proof.
  intros Hv Hmax. unfold time_mapping, add_hours, add_days.
  destruct (add_seconds_ok now (1 * 3600) Hv Hmax) as (d1 & -> & _); [lia|].
  destruct (add_seconds_ok now (2 * 3600) Hv Hmax) as (d2 & -> & _); [lia|].
  destruct (add_seconds_ok now (1 * 86400) Hv Hmax) as (d3 & -> & _); [lia|].
  destruct (add_seconds_ok now (7 * 86400) Hv Hmax) as (d4 & -> & _); [lia|].
  eexists. split; [reflexivity|reflexivity].
Qed.

Lemma dict_get_key {V} (k : string) (d : list (string * V)) (v : V) :
  dict_get k d = Some v -> In k (map fst d).
Proof.
  induction d as [|[k' v'] d IH]; simpl; [discriminate|].
  destruct (String.eqb k k') eqn:E.
  - apply String.eqb_eq in E. subst. auto.
  - auto.
Qed.

Lemma dict_get_not_key {V} (k : string) (d : list (string * V)) :
  ~ In k (map fst d) -> dict_get k d = None.
Proof.
  intros H. destruct (dict_get k d) eqn:E; [|reflexivity].
  exfalso. apply H. eapply dict_get_key. exact E.
Qed.

(** No key of the lookup table contains a match of the "at" pattern. *)
Lemma mapping_keys_no_at (k : string) : In k mapping_keys -> search_at k = None.
Proof.
  unfold mapping_keys. simpl.
  intros H. repeat (destruct H as [<-|H]; [reflexivity|]). destruct H.
Qed.

Lemma at_match_not_key (t : string) (g : at_groups) :
  search_at t = Some g -> ~ In t mapping_keys.
Proof. intros Hs Hin. rewrite (mapping_keys_no_at t Hin) in Hs. discriminate. Qed.

Lemma bind_ok {A B} (a : A) (k : A -> outcome B) : (Ok a ≫= k) = k a.
Proof. reflexivity. Qed.

Lemma bind_raise {A B} (e : exn) (k : A -> outcome B) : (Raise e ≫= k) = Raise e.
Proof. reflexivity. Qed.

Lemma replace_time_inv (dt t : datetime) (h m : Z) :
  replace_time dt h m = Ok t ->
  0 <= h <= 23 /\ 0 <= m <= 59 /\
  t = {| ordinal := ordinal dt; hour := h; minute := m; second := 0; microsecond := 0 |}.
Proof.
  unfold replace_time.
  destruct (in_range 0 23 h) eqn:Hh; simpl; [|discriminate].
  destruct (in_range 0 59 m) eqn:Hm; simpl; [|discriminate].
  apply in_range_true in Hh, Hm. intros [= <-]. auto.
Qed.


Lemma adjust_hour_spec (h : Z) (p : option period) :
  spec_hour h p <= 23 -> adjust_hour h p = spec_hour h p.
Proof.
  unfold adjust_hour, spec_hour. destruct p as [[|]|]; [reflexivity| |reflexivity].
  destruct (Z.eqb_spec h 12) as [->|Hne]; [reflexivity|].
  intros Hle. destruct (Z.ltb_spec h 12); [reflexivity|lia].
Qed.

Lemma parse_at_branch (s : string) (now : datetime) (g : at_groups) :
  valid now -> ordinal now + 7 <= MAXORDINAL ->
  search_at (PyStr.strip (PyStr.lower s)) = Some g ->
  parse_natural_time s now
  = (target_time ← replace_time now (adjust_hour (at_hour_value g) (at_period g))
                      (at_minute_value g);
     target_time ← (if dt_lt target_time now then add_days target_time 1
                    else Ok target_time);
     Ok (isoformat target_time)).
Proof.
  intros Hv Hmax Hs.
  destruct (time_mapping_ok now Hv Hmax) as (table & Ht & Hk).
  unfold parse_natural_time. rewrite Ht, bind_ok.
  rewrite dict_get_not_key by (rewrite Hk; eapply at_match_not_key; exact Hs).
  rewrite Hs. reflexivity.
Qed.




(** * Properties that involve the collaborators *)

(** ** The validator *)

Lemma small_int_converts (z : Z) : -12 <= z <= 12 -> int_too_large z = false.
Proof.
  intros Hz. unfold int_too_large. apply Z.leb_gt.
  assert (12 < 2 ^ 1024 - 2 ^ 970) as Hbig by (vm_compute; reflexivity).
  lia.
Qed.

Lemma flt_finite (a b : Q) : flt (FFin a) (FFin b) = true <-> (a < b)%Q.
Proof.
  simpl. rewrite negb_true_iff. split.
  - intros H. apply Qnot_le_lt. intros Hle. apply Qle_bool_iff in Hle. congruence.
  - intros H. destruct (Qle_bool b a) eqn:E; [|reflexivity].
    apply Qle_bool_iff in E. exfalso. eapply Qlt_not_le; eassumption.
Qed.

Lemma flt_finite_false (a b : Q) : flt (FFin a) (FFin b) = false <-> (b <= a)%Q.
Proof.
  simpl. rewrite negb_false_iff. apply Qle_bool_iff.
Qed.

(** The event rules once the title is present and the start time has
    resolved: what is left is the duration check. *)
Lemma event_rules_after_start (args : gmap string pyval) (now : datetime) (iso : string) :
  truthy (get args "summary") = true ->
  parse_natural_time_arg (get_or args "start_time" (VStr "")) now = Ok iso ->
  validate_tool_call "create_calendar_event" args now
  = let args := <["start_time" := VStr iso]> args in
    match py_float (get_or args "duration_hours" (VInt 1)) with
    | Raise e =>
        if is_value_or_type_error e
        then Ok {| is_valid := false; error_msg := "Duration must be a valid number";
                   final_args := args |}
        else Raise e
    | Ok duration =>
        let args := <["duration_hours" := VFloat duration]> args in
        if flt duration (FFin 0.25) || fgt duration (FFin 12)
        then Ok {| is_valid := false;
                   error_msg := "Duration must be between 15 minutes and 12 hours";
                   final_args := args |}
        else Ok {| is_valid := true; error_msg := ""; final_args := args |}
    end.
Proof.
  intros Htitle Hparse.
  unfold validate_tool_call. simpl String.eqb. cbv iota.
  unfold create_calendar_event_rules. rewrite Htitle, Hparse. reflexivity.
Qed.

Lemma duration_lookup (args : gmap string pyval) (iso : string) (d : pyval) :
  get_or (<["start_time" := VStr iso]> args) "duration_hours" d
  = get_or args "duration_hours" d.
Proof. unfold get_or. rewrite lookup_insert_ne by discriminate. reflexivity. Qed.

Lemma number_converts (v : pyval) (d : Q) :
  is_number v d -> (-12 <= d <= 12)%Q -> py_float v = Ok (FFin d).
Proof.
  intros [q|z|s q Hs] [Hlo Hhi]; simpl; [reflexivity| |rewrite Hs; reflexivity].
  rewrite small_int_converts; [reflexivity|].
  change (-12)%Q with (inject_Z (-12)) in Hlo. change 12%Q with (inject_Z 12) in Hhi.
  rewrite <- Zle_Qle in Hlo, Hhi. lia.
Qed.

Lemma large_number_converts (v : pyval) (d : Q) :
  is_number v d -> (d == 12.5)%Q -> exists q, py_float v = Ok (FFin q) /\ (12 < q)%Q.
Proof.
  intros [q|z|s q Hs] Hd.
  - exists q. split; [reflexivity|]. rewrite Hd. reflexivity.
  - exfalso. unfold Qeq in Hd. simpl in Hd. lia.
  - exists q. split; [simpl; rewrite Hs; reflexivity|]. rewrite Hd. reflexivity.
Qed.

(** C8. A "create event" action with a non-empty title, a start time
    that resolves and a numeric duration between 0.25 and 12 hours
    (bounds included) is valid; with duration 0.2 or 12.5 it is invalid. *)
Theorem validator_duration_bounds
    (args : gmap string pyval) (now : datetime) (iso : string) (v : pyval) (d : Q) :
  truthy (get args "summary") = true ->
  parse_natural_time_arg (get_or args "start_time" (VStr "")) now = Ok iso ->
  args !! "duration_hours" = Some v ->
  is_number v d ->
  ((0.25 <= d <= 12)%Q ->
   exists a, validate_tool_call "create_calendar_event" args now
             = Ok {| is_valid := true; error_msg := ""; final_args := a |})
  /\ ((d == 0.2 \/ d == 12.5)%Q ->
      exists msg a, validate_tool_call "create_calendar_event" args now
                    = Ok {| is_valid := false; error_msg := msg; final_args := a |}).
Proof.
  intros Htitle Hparse Hdur Hnum.
  rewrite (event_rules_after_start args now iso Htitle Hparse).
  cbv zeta. rewrite !duration_lookup. unfold get_or. rewrite Hdur. simpl default.
  split.
  - intros [Hlo Hhi].
    rewrite (number_converts v d Hnum).
    + assert (flt (FFin d) (FFin 0.25) = false) as -> by (apply flt_finite_false; exact Hlo).
      assert (fgt (FFin d) (FFin 12) = false) as ->
        by (unfold fgt; apply flt_finite_false; exact Hhi).
      simpl. eexists. reflexivity.
    + split; [|exact Hhi]. eapply Qle_trans; [|exact Hlo]. discriminate.
  - intros Hd.
    destruct Hd as [Hd|Hd].
    + rewrite (number_converts v d Hnum) by (rewrite Hd; split; discriminate).
      assert (flt (FFin d) (FFin 0.25) = true) as ->
        by (apply flt_finite; rewrite Hd; reflexivity).
      simpl. do 2 eexists. reflexivity.
    + destruct (large_number_converts v d Hnum Hd) as (q & -> & Hq).
      assert (fgt (FFin q) (FFin 12) = true) as ->
        by (unfold fgt; apply flt_finite; exact Hq).
      rewrite orb_true_r. do 2 eexists. reflexivity.
Qed.

(** C3, as the code has it.  When a "create event" action has no duration
    entry the validator takes 1 hour ([args.get("duration_hours", 1)]):
    the action is valid exactly when its title is non-empty and its start
    time resolves without raising, and the recorded arguments then carry
    the duration 1.0. *)
Theorem validator_defaults_missing_duration
    (args : gmap string pyval) (now : datetime) :
  args !! "duration_hours" = None ->
  exists v,
    validate_tool_call "create_calendar_event" args now = Ok v
    /\ is_valid v
       = truthy (get args "summary")
         && negb (raises (parse_natural_time_arg (get_or args "start_time" (VStr "")) now))
    /\ (is_valid v = true -> final_args v !! "duration_hours" = Some (VFloat (FFin 1))).
Proof.
  intros Hnone.
  destruct (truthy (get args "summary")) eqn:Htitle.
  - destruct (parse_natural_time_arg (get_or args "start_time" (VStr "")) now)
      as [iso|e] eqn:Hparse.
    + rewrite (event_rules_after_start args now iso Htitle Hparse).
      cbv zeta. rewrite duration_lookup. unfold get_or at 1. rewrite Hnone.
      eexists. split; [reflexivity|]. split; [reflexivity|].
      intros _. simpl. apply lookup_insert_eq.
    + unfold validate_tool_call. simpl String.eqb. cbv iota.
      unfold create_calendar_event_rules. rewrite Htitle, Hparse.
      eexists. split; [reflexivity|]. split; [reflexivity|]. discriminate.
  - unfold validate_tool_call. simpl String.eqb. cbv iota.
    unfold create_calendar_event_rules. rewrite Htitle.
    eexists. split; [reflexivity|]. split; [reflexivity|]. discriminate.
Qed.

(** ** The model node *)

Lemma validate_batch_result (proposed validated : list ToolCall)
    (records : list ActionRecord) (now : datetime) :
  validate_batch proposed now = Ok (validated, records) ->
  validated = List.filter (accepts now) proposed
  /\ map status records = map (status_for now) proposed
  /\ map tool records = map name proposed.
Proof.
  revert validated records.
  induction proposed as [|tc rest IH]; intros validated records H; simpl in H.
  - injection H as <- <-. auto.
  - unfold status_for, accepts. simpl.
    destruct (validate_tool_call (name tc) (tc_args tc) now) as [v|e] eqn:Hv;
      [|discriminate].
    rewrite bind_ok in H.
    destruct (validate_batch rest now) as [[vs rs]|e] eqn:Hrest; [|discriminate].
    rewrite bind_ok in H.
    destruct (IH vs rs eq_refl) as (Hvs & Hst & Htool).
    destruct (is_valid v); injection H as <- <-; simpl;
      unfold status_for, accepts in Hst; rewrite Hvs, Hst, Htool; auto.
Qed.

(** While at least one proposed call is valid, the message carries the
    valid calls only. *)
Lemma some_valid_batch_is_filtered (proposed : list ToolCall) (now : datetime) :
  List.filter (accepts now) proposed <> [] ->
  response_tool_calls proposed (List.filter (accepts now) proposed)
  = List.filter (accepts now) proposed.
Proof.
  unfold response_tool_calls. destruct (List.filter (accepts now) proposed); [congruence|].
  reflexivity.
Qed.

(** When no proposed call is valid, the guard leaves the message as the
    model produced it. *)
Lemma all_invalid_batch_is_kept (proposed : list ToolCall) (now : datetime) :
  List.filter (accepts now) proposed = [] ->
  response_tool_calls proposed (List.filter (accepts now) proposed) = proposed.
Proof. intros ->. reflexivity. Qed.

(** One run of the model node: the records carry the validator's verdict
    for every proposed call, and the batch the tool node will receive is
    the valid calls when there is one, the whole proposal otherwise. *)
Lemma batch_after_call_model (state state' : AgentState) (now : datetime) (w : World)
    (text : string) (proposed : list ToolCall) :
  llm_invoke (SystemMessage (system_prompt now) :: messages state) w = Ok (text, proposed) ->
  call_model state now w = Ok state' ->
  map status (st_tool_calls state')
  = (map status (st_tool_calls state) ++ map (status_for now) proposed)%list
  /\ batch_for_tools state'
     = (if nonempty (List.filter (accepts now) proposed)
        then List.filter (accepts now) proposed
        else proposed)
  /\ (proposed <> [] -> should_continue state' = tools).
Proof.
  intros Hllm Hcall. unfold call_model in Hcall. rewrite Hllm, bind_ok in Hcall.
  destruct (validate_batch proposed now) as [[validated records]|e] eqn:Hb;
    [|discriminate].
  rewrite bind_ok in Hcall. injection Hcall as <-.
  destruct (validate_batch_result proposed validated records now Hb) as (-> & Hst & _).
  unfold batch_for_tools, should_continue. cbn [messages st_tool_calls with_tool_calls
    with_messages].
  rewrite last_snoc, map_app, Hst. cbn [tool_calls_attr default].
  split; [reflexivity|]. split; [reflexivity|].
  intros Hne. unfold response_tool_calls.
  destruct (List.filter (accepts now) proposed); simpl.
  - destruct proposed; [congruence|reflexivity].
  - reflexivity.
Qed.

(** ** The effort aggregator *)

Lemma effort_body_raises (w : World) (include_github : bool) :
  raises (effort_body w include_github)
  = raises (list_tasks w) || raises (get_calendar_events w).
Proof.
  unfold effort_body.
  destruct (list_tasks w) as [tasks_result|e]; [|reflexivity].
  rewrite bind_ok. destruct (pending_of tasks_result) as [pending_hours task_count].
  destruct (get_calendar_events w) as [calendar_result|e]; [|reflexivity].
  rewrite bind_ok. destruct (scheduled_of calendar_result) as [scheduled_hours event_count].
  destruct (classify_effort _). reflexivity.
Qed.

(** When both text sources answer, the snapshot is built from the sum of
    the three contributions: its tier and utilization are those of the
    unrounded total, and every reported figure is rounded to one decimal. *)
Lemma effort_snapshot_on_success (w : World) (include_github : bool)
    (tasks_result calendar_result : string) :
  list_tasks w = Ok tasks_result ->
  get_calendar_events w = Ok calendar_result ->
  let github := if include_github then Some (get_github_workload w) else None in
  let pending := fst (pending_of tasks_result) in
  let scheduled := fst (scheduled_of calendar_result) in
  let total := fadd (fadd pending scheduled) (FFin (from_option estimated_hours 0%Q github)) in
  let snapshot := calculate_schedule_effort w include_github in
  effort_level snapshot = fst (classify_effort total)
  /\ total_hours snapshot = round1 total
  /\ utilization_percent snapshot = round1 (utilization total)
  /\ pending_hours snapshot = round1 pending
  /\ scheduled_hours snapshot = round1 scheduled
  /\ github_data snapshot = github
  /\ an_recommendations (analysis snapshot) = recommendations_for (effort_level snapshot).
Proof.
  intros Ht Hc. unfold calculate_schedule_effort, effort_body.
  rewrite Ht, bind_ok. destruct (pending_of tasks_result) as [pending_hours task_count].
  rewrite Hc, bind_ok. destruct (scheduled_of calendar_result) as [scheduled_hours event_count].
  cbn [fst]. destruct (classify_effort _) as [level description].
  cbv zeta. simpl. repeat split; reflexivity.
Qed.

Lemma effort_falls_back (w : World) (include_github : bool) :
  raises (effort_body w include_github) = true ->
  exists e, calculate_schedule_effort w include_github = effort_fallback e.
Proof.
  unfold calculate_schedule_effort.
  destruct (effort_body w include_github) as [s|e]; [discriminate|].
  intros _. exists e. reflexivity.
Qed.

(** C10. When an exception is raised during the aggregation, the result
    is the fallback snapshot: effort level "unknown", which is none of
    low, medium, high and overloaded (the report has an emoji for it), the
    five numeric fields 0, and no recommendations. *)
Theorem effort_failure_gives_unknown (w : World) (include_github : bool) :
  raises (effort_body w include_github) = true ->
  let snapshot := calculate_schedule_effort w include_github in
  effort_level snapshot = "unknown"
  /\ ~ In (effort_level snapshot) documented_tiers
  /\ dict_get (effort_level snapshot) effort_emoji = Some "⚪"
  /\ total_hours snapshot = FFin 0
  /\ scheduled_hours snapshot = FFin 0
  /\ pending_hours snapshot = FFin 0
  /\ github_hours snapshot = FFin 0
  /\ utilization_percent snapshot = FFin 0
  /\ an_recommendations (analysis snapshot) = [].
Proof.
  intros Hr. destruct (effort_falls_back w include_github Hr) as [e ->].
  cbv zeta. simpl. repeat split; try reflexivity.
  intros H. repeat (destruct H as [H|H]; [discriminate|]). destruct H.
Qed.






(** ** The entry point *)

(** A failure of the model's first call is a failure of the graph. *)
Lemma model_failure_fails_graph (steps : nat) (state : AgentState) (now : datetime)
    (w : World) (e : exn) :
  llm_invoke (SystemMessage (system_prompt now) :: messages state) w = Raise e ->
  fst (agent_graph_invoke (S steps) state now w) = Raise e.
Proof.
  intros H. simpl. unfold call_model. rewrite H, bind_raise. reflexivity.
Qed.

(** [run_agent] has a handler for every exception of its [try] block. *)
Lemma run_agent_never_raises
    (steps : nat) (user_input : string) (state : option AgentState)
    (include_analysis : bool) (now : datetime) (w : World) :
  raises (fst (run_agent steps user_input state include_analysis now w)) = false.
Proof.
  unfold run_agent.
  destruct (agent_graph_invoke steps _ now w) as [[result|e] w']; [|reflexivity].
  destruct (enrich user_input include_analysis result w'); reflexivity.
Qed.

(** C9, as the code has it.  When the graph invocation raises,
    [run_agent] returns normally: the state is the caller's with the user
    message and then a system message "❌ **Error**: ..." appended, and the
    classification is set to "error" when [include_analysis] is true; when
    it is false the classification is left as the caller passed it. *)
Theorem run_agent_survives_graph_failure
    (steps : nat) (user_input : string) (state : option AgentState)
    (include_analysis : bool) (now : datetime) (w : World) (e : exn) :
  let start := default empty_state state in
  fst (agent_graph_invoke steps
         (with_messages start (messages start ++ [HumanMessage user_input])) now w)
  = Raise e ->
  exists final,
    fst (run_agent steps user_input state include_analysis now w) = Ok final
    /\ messages final
       = (messages start
          ++ [HumanMessage user_input; SystemMessage ("❌ **Error**: " ++ exn_msg e)])%list
    /\ classification final
       = (if include_analysis then Some "error" else classification start)
    /\ st_tool_calls final = st_tool_calls start.
Proof.
  intros start H. unfold run_agent. fold start.
  destruct (agent_graph_invoke steps _ now w) as [[result|e'] w'] eqn:Hg;
    simpl in H; [discriminate|].
  injection H as ->.
  exists (on_error (with_messages start (messages start ++ [HumanMessage user_input]))
                   include_analysis e).
  split; [reflexivity|].
  unfold on_error. destruct include_analysis; simpl; rewrite <- app_assoc; auto.
Qed.

(** * Further properties of the loop and the entry point *)

Lemma call_model_appends (state state' : AgentState) (now : datetime) (w : World) :
  call_model state now w = Ok state' ->
  exists text calls records,
    messages state' = (messages state ++ [AIMessage text calls])%list
    /\ st_tool_calls state' = (st_tool_calls state ++ records)%list.
Proof.
  unfold call_model.
  destruct (llm_invoke _ w) as [[text proposed]|e]; [|discriminate].
  rewrite bind_ok.
  destruct (validate_batch proposed now) as [[validated records]|e]; [|discriminate].
  rewrite bind_ok. intros [= <-].
  exists text, (response_tool_calls proposed validated), records.
  split; reflexivity.
Qed.

Lemma tools_node_appends (state state' : AgentState) (w w' : World) :
  tools_node state w = (state', w') ->
  exists observations,
    messages state' = (messages state ++ observations)%list
    /\ st_tool_calls state' = st_tool_calls state.
Proof.
  unfold tools_node.
  destruct (run_batch (batch_for_tools state) w) as [observations w2].
  intros [= <- _]. exists observations. split; reflexivity.
Qed.

Lemma end_means_no_calls (state : AgentState) (ms : list Message) (text : string)
    (calls : list ToolCall) :
  messages state = (ms ++ [AIMessage text calls])%list ->
  should_continue state = end_ -> calls = [].
Proof.
  unfold should_continue. intros ->. rewrite last_snoc. simpl.
  destruct calls; [reflexivity|discriminate].
Qed.

Lemma graph_extends_history (steps : nat) (state result : AgentState)
    (now : datetime) (w w' : World) :
  agent_graph_invoke steps state now w = (Ok result, w') ->
  exists added text records,
    messages result = (messages state ++ added ++ [AIMessage text []])%list
    /\ st_tool_calls result = (st_tool_calls state ++ records)%list.
Proof.
  revert state w.
  induction steps as [steps IH] using lt_wf_ind.
  intros state w H.
  destruct steps as [|steps']; [discriminate|].
  simpl in H.
  destruct (call_model state now w) as [state1|e] eqn:Hcall; [|discriminate].
  destruct (call_model_appends state state1 now w Hcall) as (text & calls & records & Hm & Ht).
  destruct (should_continue state1) eqn:Hroute.
  - destruct steps' as [|steps'']; [discriminate|].
    destruct (tools_node state1 w) as [state2 w2] eqn:Htools.
    destruct (tools_node_appends state1 state2 w w2 Htools) as (observations & Hm2 & Ht2).
    destruct (IH steps'' ltac:(lia) state2 w2 H) as (added & text' & records' & Hm3 & Ht3).
    exists ([AIMessage text calls] ++ observations ++ added)%list, text',
      (records ++ records')%list.
    split.
    + rewrite Hm3, Hm2, Hm, <- !app_assoc. reflexivity.
    + rewrite Ht3, Ht2, Ht, <- app_assoc. reflexivity.
  - injection H as <- <-.
    assert (calls = []) as -> by (eapply end_means_no_calls; eassumption).
    exists [], text, records. split; [exact Hm|exact Ht].
Qed.

(** X1. A run of the graph that returns only adds to the history: the
    messages it was given are still there, in order, followed by what
    the turn added, and the turn ends on a model message without tool
    calls; the action records it was given are still there, in order,
    followed by the new ones. *)
Theorem graph_history_append_only (steps : nat) (state result : AgentState)
    (now : datetime) (w w' : World) :
  agent_graph_invoke steps state now w = (Ok result, w') ->
  exists added text records,
    messages result = (messages state ++ added ++ [AIMessage text []])%list
    /\ st_tool_calls result = (st_tool_calls state ++ records)%list.
Proof. exact (graph_extends_history steps state result now w w'). Qed.

(** X2. When the model's first reply proposes no action, the turn ends
    after that one model call: one message is added, no tool is run (the
    world is as it was) and no action record is added. *)
Theorem no_action_reply_ends_turn (steps : nat) (state : AgentState) (now : datetime)
    (w : World) (text : string) :
  llm_invoke (SystemMessage (system_prompt now) :: messages state) w = Ok (text, []) ->
  exists result,
    agent_graph_invoke (S steps) state now w = (Ok result, w)
    /\ messages result = (messages state ++ [AIMessage text []])%list
    /\ st_tool_calls result = st_tool_calls state.
Proof.
  intros H. cbn [agent_graph_invoke]. unfold call_model. rewrite H, bind_ok.
  cbn [validate_batch]. rewrite bind_ok.
  unfold should_continue. cbn [messages with_tool_calls with_messages].
  rewrite last_snoc. cbn [tool_calls_attr response_tool_calls nonempty].
  eexists. split; [reflexivity|]. split; [reflexivity|].
  simpl. apply app_nil_r.
Qed.

(** X3. When at least one proposed action is valid, the tool node gets
    exactly the valid ones, in the proposed order: every action it gets
    was accepted by the validator and no rejected action is among them. *)
Theorem valid_actions_reach_tools (state state' : AgentState) (now : datetime) (w : World)
    (text : string) (proposed : list ToolCall) :
  llm_invoke (SystemMessage (system_prompt now) :: messages state) w = Ok (text, proposed) ->
  call_model state now w = Ok state' ->
  List.filter (accepts now) proposed <> [] ->
  batch_for_tools state' = List.filter (accepts now) proposed
  /\ (forall tc, In tc (batch_for_tools state') -> In tc proposed /\ accepts now tc = true)
  /\ should_continue state' = tools.
Proof.
  intros Hllm Hcall Hsome.
  destruct (batch_after_call_model state state' now w text proposed Hllm Hcall)
    as (_ & Hbatch & Hroute).
  assert (batch_for_tools state' = List.filter (accepts now) proposed) as Hb.
  { rewrite Hbatch. destruct (List.filter (accepts now) proposed); [congruence|reflexivity]. }
  split; [exact Hb|]. split.
  - intros tc Hin. rewrite Hb in Hin. apply filter_In in Hin. exact Hin.
  - apply Hroute. intros ->. apply Hsome. reflexivity.
Qed.

Lemma append_to_last_snoc (ms : list Message) (m : Message) (extra : string) :
  append_to_last (ms ++ [m]) extra = (ms ++ [set_content m (content_of m ++ extra)])%list.
Proof.
  induction ms as [|a ms IH]; [reflexivity|].
  change ((a :: ms) ++ [m])%list with (a :: (ms ++ [m]))%list.
  simpl. rewrite IH. destruct (ms ++ [m])%list eqn:E; [|reflexivity].
  destruct ms; discriminate.
Qed.

Lemma summary_github_data (w : World) :
  ds_github_data (get_daily_work_summary w) = get_github_workload w.
Proof.
  unfold get_daily_work_summary.
  destruct (list_tasks w); destruct (get_calendar_events w); reflexivity.
Qed.

Lemma run_agent_after_graph (steps : nat) (user_input : string) (state : option AgentState)
    (include_analysis : bool) (now : datetime) (w w' : World) (result : AgentState) :
  let start := default empty_state state in
  agent_graph_invoke steps
    (with_messages start (messages start ++ [HumanMessage user_input])) now w
  = (Ok result, w') ->
  let planning := any_in planning_keywords (PyStr.lower user_input) in
  let effort := should_include_effort_analysis user_input || planning in
  let snapshot := calculate_schedule_effort w' true in
  exists final,
    run_agent steps user_input state include_analysis now w = (Ok final, w')
    /\ if include_analysis || planning
       then daily_summary final = Some (get_daily_work_summary w')
            /\ st_github_data final = Some (get_github_workload w')
            /\ classification final
               = Some (classify_output (last_content result) (st_tool_calls result))
            /\ effort_analysis final = (if effort then Some snapshot else effort_analysis result)
            /\ messages final
               = (if effort
                  then append_to_last (messages result) (nl ++ format_effort_report snapshot)
                  else messages result)
       else final = result.
Proof.
  intros start Hg planning effort snapshot.
  destruct (graph_extends_history _ _ _ _ _ _ Hg) as (added & text & records & Hm & _).
  assert (last (messages result) = Some (AIMessage text [])) as Hlast
    by (rewrite Hm, !app_assoc; apply last_snoc).
  unfold run_agent. fold start. rewrite Hg. unfold enrich.
  fold planning. fold effort. fold snapshot.
  destruct (include_analysis || planning).
  - cbn [messages with_summary]. unfold last_content.
    rewrite Hlast.
    destruct effort.
    + eexists. split; [reflexivity|]. simpl.
      repeat split; try reflexivity. f_equal. apply summary_github_data.
    + eexists. split; [reflexivity|]. simpl.
      repeat split; try reflexivity. f_equal. apply summary_github_data.
  - exists result. split; reflexivity.
Qed.

(** X4. What [run_agent] adds after a run of the graph that returned.  With
    [include_analysis] false and no planning phrase in the utterance the
    graph's state is returned as it is.  Otherwise the daily summary, the
    GitHub data and the classification of the last message (against the
    whole record history) are set; the effort snapshot is computed, and
    its report appended to the last message, exactly when the utterance
    has an effort phrase or a planning phrase. *)
Theorem enrichment_gate (steps : nat) (user_input : string) (state : option AgentState)
    (include_analysis : bool) (now : datetime) (w w' : World) (result : AgentState) :
  let start := default empty_state state in
  agent_graph_invoke steps
    (with_messages start (messages start ++ [HumanMessage user_input])) now w
  = (Ok result, w') ->
  let planning := any_in planning_keywords (PyStr.lower user_input) in
  let effort := should_include_effort_analysis user_input || planning in
  let snapshot := calculate_schedule_effort w' true in
  exists final,
    run_agent steps user_input state include_analysis now w = (Ok final, w')
    /\ if include_analysis || planning
       then daily_summary final = Some (get_daily_work_summary w')
            /\ st_github_data final = Some (get_github_workload w')
            /\ classification final
               = Some (classify_output (last_content result) (st_tool_calls result))
            /\ effort_analysis final = (if effort then Some snapshot else effort_analysis result)
            /\ messages final
               = (if effort
                  then append_to_last (messages result) (nl ++ format_effort_report snapshot)
                  else messages result)
       else final = result.
Proof.
  exact (run_agent_after_graph steps user_input state include_analysis now w w' result).
Qed.

Lemma run_agent_extends_history (steps : nat) (user_input : string)
    (state : option AgentState) (include_analysis : bool) (now : datetime) (w : World) :
  let start := default empty_state state in
  exists final added,
    fst (run_agent steps user_input state include_analysis now w) = Ok final
    /\ added <> []
    /\ messages final = (messages start ++ HumanMessage user_input :: added)%list.
Proof.
  intros start.
  assert (forall e, exists final added,
             Ok (on_error (with_messages start (messages start ++ [HumanMessage user_input]))
                          include_analysis e) = Ok final
             /\ added <> []
             /\ messages final = (messages start ++ HumanMessage user_input :: added)%list)
    as Herr.
  { intros e. eexists. exists [SystemMessage ("❌ **Error**: " ++ exn_msg e)].
    split; [reflexivity|]. split; [discriminate|].
    unfold on_error. destruct include_analysis; simpl; rewrite <- app_assoc; reflexivity. }
  destruct (agent_graph_invoke steps
              (with_messages start (messages start ++ [HumanMessage user_input])) now w)
    as [[result|e] w'] eqn:Hg.
  - destruct (graph_extends_history _ _ _ _ _ _ Hg) as (added & text & records & Hm & _).
    cbn [messages with_messages] in Hm.
    destruct (run_agent_after_graph steps user_input state include_analysis now w w'
                result Hg) as (final & Hrun & Hcase).
    fold start in Hrun. rewrite Hrun. cbn [fst].
    destruct (include_analysis
              || any_in planning_keywords (PyStr.lower user_input)).
    + destruct Hcase as (_ & _ & _ & _ & Hfinal).
      destruct (should_include_effort_analysis user_input
                || any_in planning_keywords (PyStr.lower user_input)).
      * exists final. eexists. split; [reflexivity|].
        rewrite Hfinal, Hm, !app_assoc, append_to_last_snoc, <- !app_assoc.
        split; [|reflexivity]. destruct added; discriminate.
      * exists final, (added ++ [AIMessage text []])%list. split; [reflexivity|].
        rewrite Hfinal, Hm, <- !app_assoc.
        split; [destruct added; discriminate|reflexivity].
    + subst final. exists result, (added ++ [AIMessage text []])%list.
      split; [reflexivity|]. rewrite Hm, <- !app_assoc.
      split; [destruct added; discriminate|reflexivity].
  - unfold run_agent. fold start. rewrite Hg. apply Herr.
Qed.

(** X5. [run_agent] raises only on its first statement, the append to
    the caller's message list: [KeyError] when the state has no
    "messages", [AttributeError] when that entry is no list, and nothing
    has been done by then.  On no state, or on a state whose "messages"
    is a list, it never raises, whatever happens in the turn: it returns
    the caller's messages, then the user's message, then at least one
    more message, so the conversation is never shortened or rewritten. *)
Theorem run_agent_keeps_history (steps : nat) (user_input : string)
    (state : option StateDict) (include_analysis : bool) (now : datetime) (w : World) :
  match listed_state state with
  | Some start =>
      exists final added,
        fst (run_agent_entry steps user_input state include_analysis now w) = Ok final
        /\ added <> []
        /\ messages final = (messages start ++ HumanMessage user_input :: added)%list
  | None =>
      exists e,
        run_agent_entry steps user_input state include_analysis now w = (Raise e, w)
        /\ exn_class e = match option_map sd_messages state with
                         | Some Absent => KeyError
                         | _ => AttributeError
                         end
  end.
Proof.
  destruct state as [d|]; [destruct d as [[|type|] st]|]; cbn [listed_state sd_messages sd_state].
  - eexists. split; reflexivity.
  - eexists. split; reflexivity.
  - exact (run_agent_extends_history steps user_input (Some st) include_analysis now w).
  - exact (run_agent_extends_history steps user_input None include_analysis now w).
Qed.

Lemma invalid_record_is_error (response : string) (records : list ActionRecord) :
  existsb is_invalid records = true -> classify_output response records = "error".
Proof.
  intros H. unfold classify_output.
  destruct (any_in error_patterns (PyStr.lower response)); [reflexivity|].
  rewrite nonempty_with_status. unfold is_invalid in H. rewrite H. reflexivity.
Qed.

(** X6. The classification looks at the whole record history, so one
    invalid action record in the state the caller passes makes every
    analysed turn "error", whatever the model answers and whether or not
    the turn itself fails. *)
Theorem invalid_record_is_sticky (steps : nat) (user_input : string) (state : AgentState)
    (now : datetime) (w : World) :
  existsb is_invalid (st_tool_calls state) = true ->
  exists final,
    fst (run_agent steps user_input (Some state) true now w) = Ok final
    /\ classification final = Some "error".
Proof.
  intros Hinv.
  destruct (agent_graph_invoke steps
              (with_messages state (messages state ++ [HumanMessage user_input])) now w)
    as [[result|e] w'] eqn:Hg.
  - destruct (graph_extends_history _ _ _ _ _ _ Hg) as (added & text & records & _ & Ht).
    cbn [st_tool_calls with_messages] in Ht.
    destruct (run_agent_after_graph steps user_input (Some state) true now w w' result Hg)
      as (final & Hrun & Hcase).
    rewrite Hrun. exists final. split; [reflexivity|].
    cbn [orb] in Hcase. destruct Hcase as (_ & _ & Hc & _).
    rewrite Hc. f_equal. apply invalid_record_is_error.
    rewrite Ht, existsb_app, Hinv. reflexivity.
  - unfold run_agent. change (default empty_state (Some state)) with state.
    rewrite Hg. eexists. split; reflexivity.
Qed.

(** * Further properties of the validator *)

(** X7. The validator edits nothing but the three arguments it
    normalises: whatever the tool and the outcome, every other key of the
    argument dict is left as the model sent it; and a tool other than
    "create_calendar_event" and "create_task" is accepted with its
    arguments untouched. *)
Theorem validator_edits_three_keys_only (tool_name : string) (args : gmap string pyval)
    (now : datetime) (v : Validation) :
  validate_tool_call tool_name args now = Ok v ->
  (forall k : string,
      k <> "start_time" -> k <> "duration_hours" -> k <> "estimated_hours" ->
      final_args v !! k = args !! k)
  /\ (tool_name <> "create_calendar_event" -> tool_name <> "create_task" ->
      is_valid v = true /\ final_args v = args).
Proof.
  intros H. unfold validate_tool_call in H.
  destruct (String.eqb_spec tool_name "create_calendar_event") as [->|Hne1].
  - split; [|congruence].
    intros k Hk1 Hk2 Hk3. unfold create_calendar_event_rules in H.
    destruct (truthy (get args "summary")); cbn [negb] in H;
      [|injection H as <-; reflexivity].
    destruct (parse_natural_time_arg _ now) as [iso|e];
      [|injection H as <-; reflexivity].
    destruct (py_float _) as [duration|e].
    + destruct (flt duration (FFin 0.25) || fgt duration (FFin 12));
        injection H as <-; cbn [final_args];
        rewrite !lookup_insert_ne by congruence; reflexivity.
    + destruct (is_value_or_type_error e); [|discriminate].
      injection H as <-. cbn [final_args].
      rewrite lookup_insert_ne by congruence. reflexivity.
  - destruct (String.eqb_spec tool_name "create_task") as [->|Hne2].
    + split; [|congruence].
      intros k Hk1 Hk2 Hk3. unfold create_task_rules in H.
      destruct (truthy (get args "title")); cbn [negb] in H;
        [|injection H as <-; reflexivity].
      destruct (in_priorities _); cbn [negb] in H; [|injection H as <-; reflexivity].
      destruct (args !! "estimated_hours") as [x|]; [|injection H as <-; reflexivity].
      destruct (py_float x) as [f|e].
      * injection H as <-. cbn [final_args].
        rewrite lookup_insert_ne by congruence. reflexivity.
      * destruct (is_value_or_type_error e); [|discriminate].
        injection H as <-. reflexivity.
    + injection H as <-. split; [reflexivity|]. intros _ _. split; reflexivity.
Qed.

(** X8. A task is accepted exactly when its title is non-empty and its
    priority, "medium" when absent, is one of low, medium, high and
    critical.  The default priority is not written into the arguments,
    and the estimated hours, when they convert to a float, are accepted
    whatever their value (no range is checked) and recorded as a float. *)
Theorem task_rules (args : gmap string pyval) (now : datetime) :
  let ok := truthy (get args "title")
            && in_priorities (get_or args "priority" (VStr "medium")) in
  (args !! "estimated_hours" = None ->
   exists msg, validate_tool_call "create_task" args now
               = Ok {| is_valid := ok; error_msg := msg; final_args := args |})
  /\ (forall x f, args !! "estimated_hours" = Some x -> py_float x = Ok f ->
      exists msg, validate_tool_call "create_task" args now
                  = Ok {| is_valid := ok; error_msg := msg;
                          final_args := if ok then <["estimated_hours" := VFloat f]> args
                                        else args |}).
Proof.
  intros ok. unfold validate_tool_call. simpl String.eqb. cbv iota.
  unfold create_task_rules. subst ok. split.
  - intros Hnone. rewrite Hnone.
    destruct (truthy (get args "title")); cbn [negb andb]; [|eexists; reflexivity].
    destruct (in_priorities _); cbn [negb]; eexists; reflexivity.
  - intros x f Hx Hf. rewrite Hx, Hf.
    destruct (truthy (get args "title")); cbn [negb andb]; [|eexists; reflexivity].
    destruct (in_priorities _); cbn [negb]; eexists; reflexivity.
Qed.

(** X9. An event whose title is missing, empty or otherwise false is
    rejected with the reason "Event title is required" before anything
    else is looked at: the arguments are untouched and nothing is raised,
    even for a start time or a duration that would make the later checks
    fail or raise. *)
Theorem untitled_event_rejected_first (args : gmap string pyval) (now : datetime) :
  truthy (get args "summary") = false ->
  validate_tool_call "create_calendar_event" args now
  = Ok {| is_valid := false; error_msg := "Event title is required"; final_args := args |}.
Proof.
  intros H. unfold validate_tool_call. simpl String.eqb. cbv iota.
  unfold create_calendar_event_rules. rewrite H. reflexivity.
Qed.

(** X10. The range check is two comparisons, and both are false on a
    NaN: an event whose duration string [float] reads as NaN is
    accepted, with NaN recorded as its duration.  An infinite duration
    is rejected. *)
Theorem nan_duration_is_accepted (args : gmap string pyval) (now : datetime)
    (iso s : string) :
  truthy (get args "summary") = true ->
  parse_natural_time_arg (get_or args "start_time" (VStr "")) now = Ok iso ->
  args !! "duration_hours" = Some (VStr s) ->
  (float_of_str s = Some FNan ->
   validate_tool_call "create_calendar_event" args now
   = Ok {| is_valid := true; error_msg := "";
           final_args := <["duration_hours" := VFloat FNan]>
                           (<["start_time" := VStr iso]> args) |})
  /\ (forall negative, float_of_str s = Some (FInf negative) ->
      exists msg a, validate_tool_call "create_calendar_event" args now
                    = Ok {| is_valid := false; error_msg := msg; final_args := a |}).
Proof.
  intros Htitle Hparse Hd.
  rewrite (event_rules_after_start args now iso Htitle Hparse).
  cbv zeta. rewrite !duration_lookup. unfold get_or. rewrite Hd. simpl default. cbn [py_float].
  split.
  - intros ->. reflexivity.
  - intros negative ->. destruct negative; do 2 eexists; reflexivity.
Qed.

Lemma overflow_is_not_caught (e : exn) :
  exn_class e = OverflowError -> is_value_or_type_error e = false.
Proof. unfold is_value_or_type_error. intros ->. reflexivity. Qed.

Lemma huge_duration_raises (args : gmap string pyval) (now : datetime) (iso : string)
    (z : Z) :
  truthy (get args "summary") = true ->
  parse_natural_time_arg (get_or args "start_time" (VStr "")) now = Ok iso ->
  args !! "duration_hours" = Some (VInt z) ->
  int_too_large z = true ->
  validate_tool_call "create_calendar_event" args now
  = Raise (PyExn OverflowError "int too large to convert to float").
Proof.
  intros Htitle Hparse Hd Hz.
  rewrite (event_rules_after_start args now iso Htitle Hparse).
  cbv zeta. rewrite !duration_lookup. unfold get_or. rewrite Hd. simpl default. cbn [py_float].
  rewrite Hz. reflexivity.
Qed.

(** X11. An integer duration too large for a float is not a validation
    failure: [float] raises [OverflowError], which the validator does
    not catch.  When the model's reply starts with such an event the
    whole turn is aborted: no tool is run, no record is kept, and
    [run_agent] returns the conversation with the error message. *)
Theorem huge_duration_aborts_turn (steps : nat) (user_input : string)
    (state : option AgentState) (include_analysis : bool) (now : datetime) (w : World)
    (text iso : string) (tc : ToolCall) (rest : list ToolCall) (z : Z) :
  let start := default empty_state state in
  llm_invoke (SystemMessage (system_prompt now)
              :: (messages start ++ [HumanMessage user_input])%list) w
  = Ok (text, tc :: rest) ->
  name tc = "create_calendar_event" ->
  truthy (get (tc_args tc) "summary") = true ->
  parse_natural_time_arg (get_or (tc_args tc) "start_time" (VStr "")) now = Ok iso ->
  tc_args tc !! "duration_hours" = Some (VInt z) ->
  int_too_large z = true ->
  exists final,
    run_agent (S steps) user_input state include_analysis now w = (Ok final, w)
    /\ messages final
       = (messages start
          ++ [HumanMessage user_input;
              SystemMessage "❌ **Error**: int too large to convert to float"])%list
    /\ st_tool_calls final = st_tool_calls start.
Proof.
  intros start Hllm Hname Htitle Hparse Hd Hz.
  unfold run_agent. fold start. cbn [agent_graph_invoke]. unfold call_model.
  cbn [messages with_messages]. rewrite Hllm, bind_ok.
  cbn [validate_batch]. rewrite Hname.
  rewrite (huge_duration_raises (tc_args tc) now iso z Htitle Hparse Hd Hz).
  rewrite !bind_raise.
  eexists. split; [reflexivity|].
  unfold on_error. destruct include_analysis; simpl; rewrite <- app_assoc; auto.
Qed.

(** * Further properties of the resolver *)

Lemma add_days_exact (dt : datetime) (d : Z) :
  valid dt -> 0 <= d -> ordinal dt + d <= MAXORDINAL ->
  add_days dt d
  = Ok {| ordinal := ordinal dt + d; hour := hour dt; minute := minute dt;
          second := second dt; microsecond := microsecond dt |}.
Proof.
  intros (Ho & Hh & Hm & Hs & _) Hd Hmax. unfold add_days, add_seconds.
  set (tod := hour dt * 3600 + minute dt * 60 + second dt).
  assert (0 <= tod < 86400) as Htod by (unfold tod; lia).
  assert ((tod + d * 86400) / 86400 = d) as ->
    by (symmetry; apply Z.div_unique with (r := tod); lia).
  assert ((tod + d * 86400) mod 86400 = tod) as ->
    by (symmetry; apply Z.mod_unique with (q := d); lia).
  rewrite (proj2 (in_range_true 1 MAXORDINAL (ordinal dt + d))) by lia.
  assert (tod / 3600 = hour dt) as ->
    by (symmetry; apply Z.div_unique with (r := minute dt * 60 + second dt);
        unfold tod; lia).
  assert (tod mod 3600 = minute dt * 60 + second dt) as ->
    by (symmetry; apply Z.mod_unique with (q := hour dt); unfold tod; lia).
  assert ((minute dt * 60 + second dt) / 60 = minute dt) as ->
    by (symmetry; apply Z.div_unique with (r := second dt); lia).
  assert (tod mod 60 = second dt) as ->
    by (symmetry; apply Z.mod_unique with (q := hour dt * 60 + minute dt);
        unfold tod; lia).
  reflexivity.
Qed.

(** The lookup table, entry by entry. *)
Lemma time_mapping_value (now : datetime) :
  valid now -> ordinal now + 7 <= MAXORDINAL ->
  exists in_an_hour in_2_hours,
    time_mapping now
    = Ok [ ("now", now);
           ("in an hour", in_an_hour);
           ("in 2 hours", in_2_hours);
           ("after lunch", on_day (ordinal now) 13 0);
           ("lunch", on_day (ordinal now) 12 0);
           ("morning", on_day (ordinal now) 9 0);
           ("afternoon", on_day (ordinal now) 14 0);
           ("evening", on_day (ordinal now) 18 0);
           ("tonight", on_day (ordinal now) 19 0);
           ("tomorrow", on_day (ordinal now + 1) 9 0);
           ("tomorrow morning", on_day (ordinal now + 1) 9 0);
           ("tomorrow afternoon", on_day (ordinal now + 1) 14 0);
           ("next week", on_day (ordinal now + 7) 9 0) ].
Proof.
  intros Hv Hmax. unfold time_mapping, add_hours.
  destruct (add_seconds_ok now (1 * 3600) Hv Hmax) as (d1 & -> & _); [lia|].
  destruct (add_seconds_ok now (2 * 3600) Hv Hmax) as (d2 & -> & _); [lia|].
  rewrite (add_days_exact now 1 Hv) by lia.
  rewrite (add_days_exact now 7 Hv) by lia.
  exists d1, d2. reflexivity.
Qed.

(** X12. "tomorrow" and "tomorrow morning" are 09:00 on the next day,
    "tomorrow afternoon" is 14:00 on the next day and "next week" is 09:00
    seven days on, whatever the time of day of the clock, and whatever
    the letter case and the surrounding blanks of the phrase. *)
Theorem relative_day_phrases (s : string) (now : datetime) :
  valid now -> ordinal now + 7 <= MAXORDINAL ->
  let t := PyStr.strip (PyStr.lower s) in
  (t = "tomorrow" \/ t = "tomorrow morning" ->
   parse_natural_time s now = Ok (isoformat (on_day (ordinal now + 1) 9 0)))
  /\ (t = "tomorrow afternoon" ->
      parse_natural_time s now = Ok (isoformat (on_day (ordinal now + 1) 14 0)))
  /\ (t = "next week" ->
      parse_natural_time s now = Ok (isoformat (on_day (ordinal now + 7) 9 0))).
Proof.
  intros Hv Hmax t.
  destruct (time_mapping_value now Hv Hmax) as (d1 & d2 & Ht).
  unfold parse_natural_time. fold t. rewrite Ht, bind_ok.
  split; [|split].
  - intros [-> | ->]; reflexivity.
  - intros ->. reflexivity.
  - intros ->. reflexivity.
Qed.

Lemma same_day_earlier_hour (o h m : Z) (now : datetime) :
  ordinal now = o -> h < hour now -> dt_lt (on_day o h m) now = true.
Proof.
  intros <- Hh. unfold dt_lt, key, on_day, lex_lt.
  cbn [ordinal hour minute second microsecond].
  rewrite Z.ltb_irrefl, Z.eqb_refl. cbn [orb andb].
  rewrite (proj2 (Z.ltb_lt h (hour now)) Hh). reflexivity.
Qed.

(** X13. The phrases of the lookup table are never rolled forward.  From
    10:00 on, "morning" resolves to 09:00 of the same day, which is
    already past, while "at 9am" resolves to 09:00 of the next day. *)
Theorem table_phrases_do_not_roll_forward (now : datetime) :
  valid now -> ordinal now + 7 <= MAXORDINAL -> 10 <= hour now ->
  parse_natural_time "morning" now = Ok (isoformat (on_day (ordinal now) 9 0))
  /\ dt_lt (on_day (ordinal now) 9 0) now = true
  /\ parse_natural_time "at 9am" now = Ok (isoformat (on_day (ordinal now + 1) 9 0)).
Proof.
  intros Hv Hmax Hh.
  assert (dt_lt (on_day (ordinal now) 9 0) now = true) as Hpast
    by (apply same_day_earlier_hour; [reflexivity|lia]).
  split; [|split; [exact Hpast|]].
  - destruct (time_mapping_value now Hv Hmax) as (d1 & d2 & Ht).
    unfold parse_natural_time. rewrite Ht, bind_ok. reflexivity.
  - rewrite (parse_at_branch "at 9am" now
               {| at_hour := "9"; at_minute := None; at_period := Some AM |} Hv Hmax eq_refl).
    set (g := {| at_hour := "9"; at_minute := None; at_period := Some AM |}).
    replace (adjust_hour (at_hour_value g) (at_period g)) with 9 by reflexivity.
    replace (at_minute_value g) with 0 by reflexivity.
    rewrite replace_time_ok by lia. rewrite bind_ok.
    fold (on_day (ordinal now) 9 0). rewrite Hpast.
    unfold on_day at 1. rewrite add_days_on_the_minute; try lia.
    + reflexivity.
    + destruct Hv as [Ho _]. lia.
Qed.

Lemma match_at_here_digit (d : ascii) (b : string) :
  PyStr.is_digit d = true -> exists g, match_at_here ("at " ++ String d b) = Some g.
Proof.
  intros Hd. unfold match_at_here.
  change (PyStr.starts_with "at " ("at " ++ String d b)) with true. cbv iota.
  change (PyStr.drop 3 ("at " ++ String d b)) with (String d b). cbv iota.
  rewrite Hd.
  destruct (match b with
            | String c2 r2 =>
                if PyStr.is_digit c2 then (String d (String c2 ""), r2)
                else (String d "", b)
            | EmptyString => (String d "", b)
            end) as [g1 r2].
  destruct (match r2 with
            | String colon (String d1 (String d2 r3)) =>
                if Ascii.eqb colon ":" && PyStr.is_digit d1 && PyStr.is_digit d2
                then (Some (String d1 (String d2 "")), r3)
                else (None, r2)
            | _ => (None, r2)
            end) as [g2 r3].
  eexists. reflexivity.
Qed.

Lemma search_at_here (s : string) (g : at_groups) :
  match_at_here s = Some g -> search_at s = Some g.
Proof. intros H. destruct s; cbn [search_at]; rewrite H; reflexivity. Qed.

Lemma search_at_finds_digit (a b : string) (d : ascii) :
  PyStr.is_digit d = true -> exists g, search_at (a ++ "at " ++ String d b) = Some g.
Proof.
  intros Hd. induction a as [|c a IH].
  - destruct (match_at_here_digit d b Hd) as [g Hg].
    exists g. apply search_at_here. exact Hg.
  - destruct IH as [g Hg].
    change (String c a ++ "at " ++ String d b) with (String c (a ++ "at " ++ String d b)).
    cbn [search_at].
    destruct (match_at_here (String c (a ++ "at " ++ String d b))) as [g'|].
    + exists g'. reflexivity.
    + exists g. exact Hg.
Qed.

(** X14. When the phrase has "at " followed by a digit anywhere in it,
    the "at" pattern decides alone: a result is always a time of day on
    the day of the clock or on the next day, chosen by whether that time
    is already past.  Words such as "tomorrow" or "in 2 hours" in the same
    phrase are ignored. *)
Theorem at_time_ignores_other_words (s a b r : string) (d : ascii) (now : datetime) :
  valid now -> ordinal now + 7 <= MAXORDINAL ->
  PyStr.strip (PyStr.lower s) = a ++ "at " ++ String d b ->
  PyStr.is_digit d = true ->
  parse_natural_time s now = Ok r ->
  exists h m,
    0 <= h <= 23 /\ 0 <= m <= 59
    /\ r = isoformat (if dt_lt (on_day (ordinal now) h m) now
                      then on_day (ordinal now + 1) h m
                      else on_day (ordinal now) h m).
Proof.
  intros Hv Hmax Ht Hd Hr.
  destruct (search_at_finds_digit a b d Hd) as [g Hg]. rewrite <- Ht in Hg.
  rewrite (parse_at_branch s now g Hv Hmax Hg) in Hr.
  destruct (replace_time now _ _) as [target|e] eqn:Hrep; [|discriminate].
  rewrite bind_ok in Hr.
  apply replace_time_inv in Hrep as (Hh & Hm & ->).
  exists (adjust_hour (at_hour_value g) (at_period g)), (at_minute_value g).
  split; [exact Hh|]. split; [exact Hm|].
  fold (on_day (ordinal now) (adjust_hour (at_hour_value g) (at_period g))
               (at_minute_value g)) in Hr.
  destruct (dt_lt _ now).
  - unfold on_day at 1 in Hr. rewrite add_days_on_the_minute in Hr; try assumption.
    + injection Hr as <-. reflexivity.
    + destruct Hv as [Ho _]. lia.
    + lia.
  - injection Hr as <-. reflexivity.
Qed.

(** * Further properties of the GitHub workload *)

(** The hours of a priority as an integer. *)
Definition priority_points (priority : string) : Z :=
  if String.eqb priority "critical" then 4
  else if String.eqb priority "high" then 3
  else if String.eqb priority "medium" then 2
  else 1.

Definition issue_points (issues : list GhIssue) : Z :=
  fold_right (fun i acc => priority_points (issue_priority (gi_labels i)) + acc) 0 issues.

Lemma priority_hours_points (priority : string) :
  priority_hours priority = inject_Z (priority_points priority).
Proof.
  unfold priority_hours, priority_points.
  repeat (destruct (String.eqb priority _); [reflexivity|]). reflexivity.
Qed.

Lemma priority_points_range (priority : string) : 1 <= priority_points priority <= 4.
Proof.
  unfold priority_points.
  repeat (destruct (String.eqb priority _); [lia|]). lia.
Qed.

Lemma issue_points_range (issues : list GhIssue) :
  Z.of_nat (List.length issues) <= issue_points issues <= 4 * Z.of_nat (List.length issues).
Proof.
  induction issues as [|i issues IH]; [simpl; lia|].
  cbn [issue_points fold_right List.length].
  fold (issue_points issues).
  pose proof (priority_points_range (issue_priority (gi_labels i))). lia.
Qed.

Lemma issue_hours_sum (issues : list GhIssue) (acc : Q) :
  (fold_left (fun acc ip => acc + priority_hours (snd ip))
     (map (fun i => (i, issue_priority (gi_labels i))) issues) acc
   == acc + inject_Z (issue_points issues))%Q.
Proof.
  revert acc. induction issues as [|i issues IH]; intros acc.
  - simpl. unfold inject_Z. rewrite Qplus_0_r. reflexivity.
  - cbn [map fold_left issue_points fold_right snd]. fold (issue_points issues).
    rewrite IH, priority_hours_points, inject_Z_plus, Qplus_assoc. reflexivity.
Qed.

Lemma round_half_even_integer (q : Q) (z : Z) :
  (q == inject_Z z)%Q -> round_half_even q = z.
Proof.
  intros Hq. unfold round_half_even.
  assert (Qfloor q = z) as -> by (rewrite Hq; apply Qfloor_Z).
  assert (q - inject_Z z < 1 # 2)%Q as Hlt
    by (unfold Qminus; rewrite Hq, Qplus_opp_r; reflexivity).
  rewrite (proj1 (Qlt_alt _ _) Hlt). reflexivity.
Qed.

(** Rounding to one decimal leaves a multiple of one half as it is. *)
Lemma round1_half_integer (q : Q) (k : Z) :
  (q == inject_Z k / 2)%Q -> (finite_part (round1 (FFin q)) == q)%Q.
Proof.
  intros Hq. cbn [round1 finite_part].
  rewrite Qred_correct.
  rewrite (round_half_even_integer (q * 10) (5 * k)).
  - rewrite Hq. unfold Qeq, Qdiv, Qmult, Qinv, inject_Z. simpl. lia.
  - rewrite Hq. unfold Qeq, Qdiv, Qmult, Qinv, inject_Z. simpl. lia.
Qed.

Lemma length_take_min {A} (n : nat) (l : list A) :
  List.length (take n l) = Nat.min n (List.length l).
Proof. apply length_take. Qed.

(** X15. With a token and a search that answers, the workload counts at
    most 50 issues and 50 pull requests; the estimate is the sum of 4, 3,
    2 or 1 hours per counted issue plus half an hour per counted pull
    request, with nothing lost to the rounding, so it lies between 1 and
    4 hours per issue plus the pull requests' half hours and never
    exceeds 225.  Without a token, or when the search raises, every
    figure is 0 and the reason is kept. *)
Theorem github_workload_estimate (w : World) :
  (forall token issues prs,
      github_token w = Some token -> token <> "" ->
      github_search w = Ok (issues, prs) ->
      let g := get_github_workload w in
      let n := issue_points (take 50 issues) in
      total_issues g = Z.of_nat (Nat.min 50 (List.length issues))
      /\ total_prs g = Z.of_nat (Nat.min 50 (List.length prs))
      /\ gh_error g = None
      /\ (estimated_hours g == inject_Z n + inject_Z (total_prs g) * (1 # 2))%Q
      /\ total_issues g <= n <= 4 * total_issues g
      /\ (estimated_hours g <= 225)%Q)
  /\ (github_token w = None \/ github_token w = Some "" ->
      get_github_workload w = github_failure "GitHub token not configured")
  /\ (forall token e,
         github_token w = Some token -> token <> "" -> github_search w = Raise e ->
         get_github_workload w = github_failure (exn_msg e)).
Proof.
  split; [|split].
  - intros token issues prs Htok Hne Hs g n.
    assert (g = let assigned :=
                  map (fun i => (i, issue_priority (gi_labels i))) (take 50 issues) in
                let pulls := take 50 prs in
                {| total_issues := Z.of_nat (List.length assigned);
                   total_prs := Z.of_nat (List.length pulls);
                   assigned_issues := assigned;
                   my_prs := pulls;
                   estimated_hours :=
                     finite_part
                       (round1
                          (FFin (fold_left (fun acc ip => acc + priority_hours (snd ip))
                                   assigned 0
                                 + inject_Z (Z.of_nat (List.length pulls)) * 0.5)%Q));
                   gh_error := None |}) as Hg.
    { subst g. unfold get_github_workload. rewrite Htok, Hs.
      destruct token as [|c token]; [congruence|reflexivity]. }
    cbv zeta in Hg.
    assert (total_issues g = Z.of_nat (Nat.min 50 (List.length issues))) as Hti
      by (rewrite Hg; cbn [total_issues]; rewrite length_map, length_take_min; reflexivity).
    assert (total_prs g = Z.of_nat (Nat.min 50 (List.length prs))) as Htp
      by (rewrite Hg; cbn [total_prs]; rewrite length_take_min; reflexivity).
    assert (total_issues g <= n <= 4 * total_issues g) as Hn.
    { rewrite Hti, <- length_take_min. apply issue_points_range. }
    assert (estimated_hours g == inject_Z n + inject_Z (total_prs g) * (1 # 2))%Q as He.
    { rewrite Htp. rewrite Hg. cbn [estimated_hours].
      rewrite (round1_half_integer _ (2 * n + Z.of_nat (List.length (take 50 prs)))).
      - rewrite issue_hours_sum, Qplus_0_l, length_take_min. fold n.
        apply Qplus_comp; [reflexivity|]. apply Qmult_comp; reflexivity.
      - rewrite issue_hours_sum, Qplus_0_l. fold n.
        unfold Qeq, Qdiv, Qmult, Qinv, Qplus, inject_Z. simpl. lia. }
    split; [exact Hti|]. split; [exact Htp|]. split; [rewrite Hg; reflexivity|].
    split; [exact He|]. split; [exact Hn|].
    rewrite He.
    assert (n <= 200 /\ total_prs g <= 50) as [Hn200 Hp50] by (rewrite Hti in Hn; lia).
    unfold Qle, Qmult, Qplus, inject_Z. simpl. lia.
  - unfold get_github_workload. intros [-> | ->]; reflexivity.
  - intros token e Htok Hne Hs. unfold get_github_workload. rewrite Htok, Hs.
    destruct token; [congruence|reflexivity].
Qed.

Lemma has_label_found (wanted labels : list string) (l : string) :
  In l labels -> In (PyStr.lower l) wanted -> has_label wanted labels = true.
Proof.
  intros Hl Hw. unfold has_label. apply existsb_exists. exists l. split; [exact Hl|].
  apply existsb_exists. exists (PyStr.lower l). split; [exact Hw|]. apply String.eqb_refl.
Qed.

Lemma has_label_none (wanted labels : list string) :
  (forall l, In l labels -> ~ In (PyStr.lower l) wanted) -> has_label wanted labels = false.
Proof.
  intros H. unfold has_label. apply not_true_is_false. intros Ht.
  apply existsb_exists in Ht as (l & Hl & Hw).
  apply existsb_exists in Hw as (x & Hx & Heq).
  apply String.eqb_eq in Heq. subst x. exact (H l Hl Hx).
Qed.

(** X16. The priority of an issue comes from its labels, letter case
    aside: a "critical", "urgent" or "p0" label makes it critical whatever
    the other labels are, and an issue without any of the eight
    recognised labels is medium. *)
Theorem issue_priority_by_label (labels : list string) :
  (forall l, In l labels -> In (PyStr.lower l) ["critical"; "urgent"; "p0"] ->
             issue_priority labels = "critical")
  /\ ((forall l, In l labels ->
         ~ In (PyStr.lower l)
             ["critical"; "urgent"; "p0"; "high"; "important"; "p1"; "low"; "p3"]) ->
      issue_priority labels = "medium").
Proof.
  split.
  - intros l Hl Hw. unfold issue_priority.
    rewrite (has_label_found _ labels l Hl Hw). reflexivity.
  - intros H. unfold issue_priority.
    rewrite !has_label_none; [reflexivity| | |];
      intros l Hl Hw; apply (H l Hl); simpl in *;
      repeat (destruct Hw as [Hw|Hw]; [auto 10|]); destruct Hw.
Qed.

(** * Properties of the serving boundary *)

Lemma lower_app (a b : string) : PyStr.lower (a ++ b) = PyStr.lower a ++ PyStr.lower b.
Proof. induction a as [|c a IH]; [reflexivity|]. simpl. rewrite IH. reflexivity. Qed.

Lemma starts_with_app (p a b : string) :
  PyStr.starts_with p a = true -> PyStr.starts_with p (a ++ b) = true.
Proof.
  revert a. induction p as [|c p IH]; intros a H; [reflexivity|].
  destruct a as [|x a]; [discriminate|].
  simpl in *. apply andb_true_iff in H as [Hc Hp].
  rewrite Hc, (IH a Hp). reflexivity.
Qed.

Lemma contains_app_l (p a b : string) :
  PyStr.contains p a = true -> PyStr.contains p (a ++ b) = true.
Proof.
  induction a as [|x a IH]; intros H.
  - simpl in H. rewrite orb_false_r in H.
    destruct p; [destruct b; reflexivity|discriminate].
  - change (String x a ++ b) with (String x (a ++ b)).
    cbn [PyStr.contains] in *. apply orb_true_iff in H as [H|H].
    + change (String x (a ++ b)) with (String x a ++ b).
      rewrite (starts_with_app p (String x a) b H). reflexivity.
    + rewrite (IH H). apply orb_true_r.
Qed.

Lemma contains_app_r (p a b : string) :
  PyStr.contains p b = true -> PyStr.contains p (a ++ b) = true.
Proof.
  intros H. induction a as [|x a IH]; [exact H|].
  change (String x a ++ b) with (String x (a ++ b)).
  cbn [PyStr.contains]. rewrite IH. apply orb_true_r.
Qed.

Lemma error_text_is_error (msg : string) :
  classify_response ("❌ **Error**: " ++ msg) = "error".
Proof.
  unfold classify_response. rewrite lower_app.
  assert (any_in ["error"; "failed"; "unable"; "exception"]
            (PyStr.lower "❌ **Error**: " ++ PyStr.lower msg) = true) as ->.
  { unfold any_in. cbn [existsb].
    rewrite (contains_app_l "error" (PyStr.lower "❌ **Error**: ") (PyStr.lower msg))
      by reflexivity.
    reflexivity. }
  reflexivity.
Qed.

Lemma chat_after_append (steps : nat) (message : string) (state : option StateDict)
    (start : AgentState) (now : datetime) (w : World) :
  listed_state state = Some start ->
  (exists r, fst (chat steps message state now w) = Http200 r)
  /\ (forall e,
         fst (agent_graph_invoke steps
                (with_messages start (messages start ++ [HumanMessage message])) now w)
         = Raise e ->
         exists r,
           fst (chat steps message state now w) = Http200 r
           /\ response r = "❌ **Error**: " ++ exn_msg e
           /\ chat_classification r = "error"
           /\ classification (chat_state r) = Some "error").
Proof.
  intros Hstart.
  assert (exists typed : option AgentState,
             default empty_state typed = start
             /\ run_agent_entry steps message state true now w
                = run_agent steps message typed true now w) as (typed & Hdef & Hentry).
  { destruct state as [d|]; cbn [listed_state] in Hstart.
    - destruct d as [[|type|] st]; cbn [sd_messages sd_state] in Hstart;
        try discriminate Hstart.
      injection Hstart as <-. exists (Some st). split; reflexivity.
    - injection Hstart as <-. exists None. split; reflexivity. }
  subst start. split.
  - destruct (run_agent_extends_history steps message typed true now w)
      as (final & added & Hrun & Hne & Hm).
    unfold chat. rewrite Hentry.
    destruct (run_agent steps message typed true now w) as [r w1].
    cbn [fst] in Hrun. subst r.
    assert (exists m, last (messages final) = Some m) as [m Hlast].
    { rewrite Hm.
      destruct (exists_last Hne) as (l & x & ->).
      exists x. change (HumanMessage message :: l ++ [x])%list
        with ((HumanMessage message :: l) ++ [x])%list.
      rewrite app_assoc. apply last_snoc. }
    rewrite Hlast.
    destruct (track_agent_call message (content_of m) (st_tool_calls final) w1) as [o w2].
    eexists. reflexivity.
  - intros e Hg.
    destruct (agent_graph_invoke steps
                (with_messages (default empty_state typed)
                   (messages (default empty_state typed) ++ [HumanMessage message])) now w)
      as [[result|e'] w1] eqn:E; cbn [fst] in Hg; [discriminate|].
    injection Hg as ->.
    unfold chat. rewrite Hentry. unfold run_agent. rewrite E.
    unfold on_error. cbn [messages with_classification with_messages].
    rewrite last_snoc. cbn [content_of].
    destruct (track_agent_call _ _ _ w1) as [o w2].
    eexists. split; [reflexivity|]. cbn [response chat_classification chat_state].
    split; [reflexivity|]. split; [apply error_text_is_error|reflexivity].
Qed.

(** X17. The chat endpoint answers 500 when the client's state has no
    "messages" list: [run_agent] raises on its first statement, the detail
    is the text of the exception ("'messages'" for a missing key) and
    nothing else has happened.  On no state, or on a state whose
    "messages" is a list, the body always reaches its return: [run_agent]
    has caught whatever the turn raised, its state has a last message,
    and a failure of the observability sink is swallowed.  When the graph
    invocation raises, the answer is the error text "❌ **Error**: ..."
    with classification "error", in the response and in the returned
    state. *)
Theorem chat_reports_model_failure (steps : nat) (message : string)
    (state : option StateDict) (now : datetime) (w : World) :
  match listed_state state with
  | Some start =>
      (exists r, fst (chat steps message state now w) = Http200 r)
      /\ (forall e,
             fst (agent_graph_invoke steps
                    (with_messages start (messages start ++ [HumanMessage message])) now w)
             = Raise e ->
             exists r,
               fst (chat steps message state now w) = Http200 r
               /\ response r = "❌ **Error**: " ++ exn_msg e
               /\ chat_classification r = "error"
               /\ classification (chat_state r) = Some "error")
  | None =>
      exists detail,
        chat steps message state now w = (Http500 detail, w)
        /\ (option_map sd_messages state = Some Absent -> detail = "'messages'")
  end.
Proof.
  destruct (listed_state state) as [start|] eqn:Hstart.
  - exact (chat_after_append steps message state start now w Hstart).
  - destruct state as [d|]; [|discriminate Hstart].
    destruct d as [[|type|] st]; cbn [listed_state sd_messages sd_state] in Hstart;
      try discriminate Hstart.
    + eexists. split; [reflexivity|]. intros _. reflexivity.
    + eexists. split; [reflexivity|]. intros H. discriminate H.
Qed.

(** X18. The two classifiers agree on most errors: a text that the chat
    endpoint's classifier tags "error" is tagged "error" by the detailed
    classifier too, whatever the action records, unless the text has the
    word "unable" (the detailed classifier only knows "unable to"). *)
Theorem simple_error_is_detailed_error (text : string) (records : list ActionRecord) :
  classify_response text = "error" ->
  classify_output text records = "error"
  \/ PyStr.contains "unable" (PyStr.lower text) = true.
Proof.
  unfold classify_response. cbv zeta.
  destruct (any_in ["error"; "failed"; "unable"; "exception"] (PyStr.lower text)) eqn:E.
  - intros _. unfold any_in in E. cbn [existsb] in E.
    destruct (PyStr.contains "unable" (PyStr.lower text)) eqn:Hu; [right; reflexivity|].
    left. unfold classify_output.
    assert (any_in error_patterns (PyStr.lower text) = true) as ->; [|reflexivity].
    unfold any_in, error_patterns. cbn [existsb].
    destruct (PyStr.contains "error" (PyStr.lower text)); [reflexivity|].
    destruct (PyStr.contains "failed" (PyStr.lower text)); [reflexivity|].
    destruct (PyStr.contains "exception" (PyStr.lower text));
      [rewrite !orb_true_r; reflexivity|cbn in E; discriminate E].
  - destruct (any_in ["warning"; "caution"; "be careful"] (PyStr.lower text));
      [intros H; discriminate H|].
    destruct (any_in ["done"; "created"; "added"; "scheduled"; "success"; "completed"]
                (PyStr.lower text)); intros H; discriminate H.
Qed.

(** * Substrings of composed texts *)

Lemma contains_empty (p : string) : PyStr.contains p "" = true -> p = "".
Proof. destruct p; [reflexivity|discriminate]. Qed.

Lemma contains_cons (p : string) (x : ascii) (s : string) :
  PyStr.contains p s = true -> PyStr.contains p (String x s) = true.
Proof. intros H. cbn [PyStr.contains]. rewrite H. apply orb_true_r. Qed.

(** An occurrence cannot start inside a prefix that lacks the first
    character of the pattern. *)
Lemma contains_after_prefix (c : ascii) (p pre s : string) :
  lacks_char c pre = true ->
  PyStr.contains (String c p) (pre ++ s) = PyStr.contains (String c p) s.
Proof.
  induction pre as [|x pre IH]; intros H; [reflexivity|].
  cbn [lacks_char] in H. apply andb_true_iff in H as [Hx Hpre].
  change (String x pre ++ s) with (String x (pre ++ s)).
  cbn [PyStr.contains PyStr.starts_with].
  apply negb_true_iff in Hx. rewrite Hx, (IH Hpre). reflexivity.
Qed.

Lemma starts_with_before_newline (p a b : string) :
  lacks_char newline p = true ->
  PyStr.starts_with p (a ++ String newline b) = PyStr.starts_with p a.
Proof.
  revert a. induction p as [|c p IH]; intros a H; [reflexivity|].
  cbn [lacks_char] in H. apply andb_true_iff in H as [Hc Hp].
  destruct a as [|x a].
  - change ("" ++ String newline b) with (String newline b). cbn [PyStr.starts_with].
    rewrite Ascii.eqb_sym. apply negb_true_iff in Hc. rewrite Hc. reflexivity.
  - change (String x a ++ String newline b) with (String x (a ++ String newline b)).
    cbn [PyStr.starts_with]. rewrite (IH a Hp). reflexivity.
Qed.

(** A pattern without a newline occurs in two texts joined by a newline
    exactly when it occurs in one of them. *)
Lemma contains_across_newline (p a b : string) :
  lacks_char newline p = true ->
  PyStr.contains p (a ++ String newline b) = PyStr.contains p a || PyStr.contains p b.
Proof.
  intros Hp. induction a as [|x a IH].
  - change ("" ++ String newline b) with (String newline b). cbn [PyStr.contains].
    destruct p as [|c p]; [reflexivity|].
    cbn [lacks_char] in Hp. apply andb_true_iff in Hp as [Hc _].
    apply negb_true_iff in Hc. cbn [PyStr.starts_with].
    rewrite Ascii.eqb_sym, Hc. reflexivity.
  - change (String x a ++ String newline b) with (String x (a ++ String newline b)).
    cbn [PyStr.contains].
    change (String x (a ++ String newline b)) with (String x a ++ String newline b).
    rewrite (starts_with_before_newline p (String x a) b Hp), IH.
    rewrite orb_assoc. reflexivity.
Qed.

Lemma contains_before_newline (p a : string) :
  lacks_char newline p = true -> p <> "" ->
  PyStr.contains p (a ++ String newline "") = PyStr.contains p a.
Proof.
  intros Hp Hne. rewrite contains_across_newline by exact Hp.
  destruct p; [congruence|]. cbn. apply orb_false_r.
Qed.

Lemma lstrip_contains (p s : string) :
  PyStr.contains p (PyStr.lstrip s) = true -> PyStr.contains p s = true.
Proof.
  induction s as [|x s IH]; [auto|].
  cbn [PyStr.lstrip]. destruct (PyStr.is_space x); [|auto].
  intros H. apply contains_cons. apply IH. exact H.
Qed.

Lemma rstrip_is_prefix (s : string) : exists r, s = PyStr.rstrip s ++ r.
Proof.
  induction s as [|x s [r IH]]; [exists ""; reflexivity|].
  cbn [PyStr.rstrip]. destruct (PyStr.rstrip s) as [|y t] eqn:E.
  - destruct (PyStr.is_space x).
    + exists (String x s). reflexivity.
    + exists r. cbn. rewrite IH at 1. reflexivity.
  - exists r. cbn. rewrite IH at 1. reflexivity.
Qed.

Lemma strip_contains (p s : string) :
  PyStr.contains p (PyStr.strip s) = true -> PyStr.contains p s = true.
Proof.
  unfold PyStr.strip. intros H. apply lstrip_contains.
  destruct (rstrip_is_prefix (PyStr.lstrip s)) as [r Hr].
  rewrite Hr. apply contains_app_l. exact H.
Qed.

Lemma strip_lacks (p s : string) :
  PyStr.contains p s = false -> PyStr.contains p (PyStr.strip s) = false.
Proof.
  intros H. apply not_true_is_false. intros Ht.
  rewrite (strip_contains p s Ht) in H. discriminate.
Qed.

Lemma split_on_nonempty (sep : ascii) (s : string) : PyStr.split_on sep s <> [].
Proof.
  destruct s as [|c s]; [discriminate|].
  cbn [PyStr.split_on]. destruct (Ascii.eqb c sep); [discriminate|].
  destruct (PyStr.split_on sep s); discriminate.
Qed.

Lemma first_line_is_prefix (sep : ascii) (s first : string) (others : list string) :
  PyStr.split_on sep s = first :: others -> exists r, s = first ++ r.
Proof.
  revert first others. induction s as [|c s IH]; intros first others H.
  - injection H as <- _. exists "". reflexivity.
  - cbn [PyStr.split_on] in H. destruct (Ascii.eqb c sep).
    + injection H as <- _. exists (String c s). reflexivity.
    + destruct (PyStr.split_on sep s) as [|w ws] eqn:E.
      * injection H as <- _. exists s. reflexivity.
      * injection H as <- _. destruct (IH w ws eq_refl) as [r ->].
        exists r. reflexivity.
Qed.

(** Every line of a text is a piece of it. *)
Lemma line_contains (p s line : string) :
  In line (PyStr.split_on newline s) ->
  PyStr.contains p line = true -> PyStr.contains p s = true.
Proof.
  revert line. induction s as [|c s IH]; intros line Hin Hp.
  - cbn in Hin. destruct Hin as [<-|[]]. exact Hp.
  - cbn [PyStr.split_on] in Hin. destruct (Ascii.eqb c newline).
    + destruct Hin as [<-|Hin].
      * apply contains_empty in Hp. subst p. reflexivity.
      * apply contains_cons. eapply IH; eassumption.
    + destruct (PyStr.split_on newline s) as [|w ws] eqn:E.
      * exfalso. eapply split_on_nonempty. exact E.
      * destruct Hin as [<-|Hin].
        -- destruct (first_line_is_prefix newline s w ws E) as [r ->].
           change (String c (w ++ r)) with (String c w ++ r).
           apply contains_app_l. exact Hp.
        -- apply contains_cons. apply (IH line); [right; exact Hin|exact Hp].
Qed.

Lemma lines_lack (p s : string) :
  PyStr.contains p s = false ->
  forall line, In line (PyStr.split_on newline s) -> PyStr.contains p line = false.
Proof.
  intros H line Hin. apply not_true_is_false. intros Ht.
  rewrite (line_contains p s line Hin Ht) in H. discriminate.
Qed.

Lemma count_from_absent (p s : string) (skip : nat) :
  PyStr.contains p s = false -> PyStr.count_from p skip s = O.
Proof.
  revert skip. induction s as [|c s IH]; intros skip H; [reflexivity|].
  cbn [PyStr.contains] in H. apply orb_false_iff in H as [Hs Hc].
  cbn [PyStr.count_from]. destruct skip; [rewrite Hs|]; apply IH; exact Hc.
Qed.

Lemma digits_fuel_chars (c : ascii) (fuel : nat) (n : Z) (acc : string) :
  PyStr.is_digit c = false -> lacks_char c acc = true ->
  lacks_char c (PyStr.digits_fuel fuel n acc) = true.
Proof.
  intros Hc. revert n acc. induction fuel as [|fuel IH]; intros n acc Hacc; [exact Hacc|].
  cbn [PyStr.digits_fuel].
  assert (lacks_char c (String (PyStr.digit_char (n mod 10)) acc) = true) as Hacc'.
  { cbn [lacks_char]. rewrite Hacc, andb_true_r. apply negb_true_iff.
    apply not_true_is_false. intros Heq. apply Ascii.eqb_eq in Heq. subst c.
    assert (0 <= n mod 10 < 10) as Hr by (apply Z.mod_pos_bound; lia).
    assert (PyStr.is_digit (PyStr.digit_char (n mod 10)) = true) as Hd.
    { unfold PyStr.digit_char.
      assert (n mod 10 = 0 \/ n mod 10 = 1 \/ n mod 10 = 2 \/ n mod 10 = 3 \/ n mod 10 = 4
              \/ n mod 10 = 5 \/ n mod 10 = 6 \/ n mod 10 = 7 \/ n mod 10 = 8
              \/ n mod 10 = 9) as Hcases by lia.
      repeat (destruct Hcases as [->|Hcases]; [reflexivity|]). rewrite Hcases. reflexivity. }
    congruence. }
  destruct (n <? 10); [exact Hacc'|apply IH; exact Hacc'].
Qed.

Lemma str_of_nonneg_chars (c : ascii) (n : Z) :
  PyStr.is_digit c = false -> lacks_char c (PyStr.str_of_nonneg n) = true.
Proof. intros Hc. apply digits_fuel_chars; [exact Hc|reflexivity]. Qed.

Lemma lacks_char_contains (c : ascii) (p s : string) :
  lacks_char c s = true -> PyStr.contains (String c p) s = false.
Proof.
  induction s as [|x s IH]; intros H; [reflexivity|].
  cbn [lacks_char] in H. apply andb_true_iff in H as [Hx Hs].
  cbn [PyStr.contains PyStr.starts_with]. apply negb_true_iff in Hx.
  rewrite Hx, (IH Hs). reflexivity.
Qed.

(** * The task listing and its two readers *)

Lemma append_cons (x : ascii) (a b : string) : String x a ++ b = String x (a ++ b).
Proof. reflexivity. Qed.

Lemma append_nil (b : string) : "" ++ b = b.
Proof. reflexivity. Qed.

Lemma str_app_assoc (a b c : string) : (a ++ b) ++ c = a ++ (b ++ c).
Proof.
  induction a as [|x a IH]; [reflexivity|].
  rewrite !append_cons. f_equal. exact IH.
Qed.

Lemma lacks_char_app (c : ascii) (a b : string) :
  lacks_char c (a ++ b) = lacks_char c a && lacks_char c b.
Proof.
  induction a as [|x a IH]; [reflexivity|].
  rewrite append_cons. cbn [lacks_char]. rewrite IH. now rewrite andb_assoc.
Qed.

Lemma emit_clean (p result line : string) :
  lacks_char newline p = true ->
  clean p result -> PyStr.contains p line = false -> clean p (emit result line).
Proof.
  intros Hp [r [-> Hr]] Hline. exists (r ++ String newline line). split.
  - unfold emit, nl. rewrite !str_app_assoc. reflexivity.
  - rewrite contains_across_newline by exact Hp. now rewrite Hr, Hline.
Qed.

Lemma clean_contains (p result : string) :
  lacks_char newline p = true -> p <> "" ->
  clean p result -> PyStr.contains p result = false.
Proof.
  intros Hp Hne [r [-> Hr]]. unfold nl.
  etransitivity; [exact (contains_before_newline p r Hp Hne) | exact Hr].
Qed.

Lemma add_notes_clean (c : ascii) (p' result notes : string) :
  lacks_char newline (String c p') = true ->
  undecorated c = true ->
  PyStr.contains (String c p') notes = false ->
  clean (String c p') result -> clean (String c p') (add_notes result notes).
Proof.
  intros Hp Hc Hnotes. unfold add_notes.
  pose proof (lines_lack _ _ Hnotes) as Hlines.
  change "010"%char with newline.
  revert result. induction (PyStr.split_on newline notes) as [|line lines IH]; intros result Hr.
  - exact Hr.
  - cbn [fold_left]. apply IH.
    + intros l Hl. apply Hlines. now right.
    + destruct (_ || _); [|exact Hr].
      apply emit_clean; [exact Hp | exact Hr |].
      rewrite (contains_after_prefix c p' "   ").
      * apply strip_lacks, Hlines. now left.
      * unfold undecorated in Hc. destruct c as [[] [] [] [] [] [] [] []]; first [discriminate Hc | reflexivity].
Qed.

Lemma undecorated_parts (c : ascii) :
  undecorated c = true ->
  PyStr.is_digit c = false
  /\ lacks_char c "📋 Tasks (" = true /\ lacks_char c "):" = true
  /\ lacks_char c "✅ " = true /\ lacks_char c "⏳ " = true
  /\ lacks_char c "   📅 Due: " = true /\ lacks_char c "📝 No tasks found." = true.
Proof.
  intros Hc. unfold undecorated in Hc.
  destruct c as [[] [] [] [] [] [] [] []];
    first [discriminate Hc | repeat split; reflexivity].
Qed.

Lemma add_task_clean (c : ascii) (p' result result' : string) (task : TaskItem) :
  lacks_char newline (String c p') = true ->
  undecorated c = true ->
  (forall due d, due_text due = Ok d -> PyStr.contains (String c p') d = false) ->
  PyStr.contains (String c p') (default "Untitled" (item_title task)) = false ->
  PyStr.contains (String c p') (default "" (item_notes task)) = false ->
  clean (String c p') result ->
  add_task result task = Ok result' -> clean (String c p') result'.
Proof.
  intros Hp Hc Hdue Htitle Hnotes Hr.
  destruct (undecorated_parts c Hc) as (_ & _ & _ & Hdone & Hwait & Hd & _).
  unfold add_task.
  set (r1 := emit result _).
  assert (H1 : clean (String c p') r1).
  { apply emit_clean; [exact Hp | exact Hr |].
    destruct (is_completed task).
    - etransitivity; [exact (contains_after_prefix c p' "✅ " _ Hdone) | exact Htitle].
    - etransitivity; [exact (contains_after_prefix c p' "⏳ " _ Hwait) | exact Htitle]. }
  set (r2 := if String.eqb _ "" then r1 else _).
  assert (H2 : clean (String c p') r2).
  { unfold r2. destruct (String.eqb _ ""); [exact H1|].
    now apply add_notes_clean. }
  clearbody r2. clear r1 H1.
  assert (Hlast : forall r3, clean (String c p') r3 -> clean (String c p') (emit r3 "")).
  { intros r3 H3. apply emit_clean; [exact Hp | exact H3 |].
    apply lacks_char_contains. reflexivity. }
  destruct (item_due task) as [due|].
  - destruct (String.eqb due "").
    + rewrite bind_ok. intros E. injection E as <-. now apply Hlast.
    + destruct (due_text due) as [d|e] eqn:Ed.
      * rewrite !bind_ok. intros E. injection E as <-. apply Hlast.
        apply emit_clean; [exact Hp | exact H2 |].
        rewrite (contains_after_prefix c p' "   📅 Due: " d Hd).
        exact (Hdue due d Ed).
      * rewrite bind_raise. intros E. discriminate E.
  - rewrite bind_ok. intros E. injection E as <-. now apply Hlast.
Qed.

Lemma add_tasks_clean (c : ascii) (p' : string) (tasks : list TaskItem) :
  lacks_char newline (String c p') = true ->
  undecorated c = true ->
  (forall due d, due_text due = Ok d -> PyStr.contains (String c p') d = false) ->
  Forall (task_lacks (String c p')) tasks ->
  forall result result',
    clean (String c p') result ->
    add_tasks result tasks = Ok result' -> clean (String c p') result'.
Proof.
  intros Hp Hc Hdue Hall. induction Hall as [|task tasks [Ht Hn] _ IH]; intros result result' Hr.
  - cbn [add_tasks]. intros E. injection E as <-. exact Hr.
  - cbn [add_tasks]. destruct (add_task result task) as [r1|e] eqn:E1.
    + rewrite bind_ok. apply IH.
      exact (add_task_clean c p' result r1 task Hp Hc Hdue Ht Hn Hr E1).
    + rewrite bind_raise. intros E. discriminate E.
Qed.

Lemma select_tasks_sublist (P : TaskItem -> Prop) (status : string) (tasks : list TaskItem) :
  Forall P tasks -> Forall P (select_tasks status tasks).
Proof.
  intros H. unfold select_tasks.
  destruct (String.eqb status "pending"); [|destruct (String.eqb status "completed")].
  - apply List.Forall_forall. intros t Ht. apply List.filter_In in Ht.
    exact (proj1 (List.Forall_forall _ _) H t (proj1 Ht)).
  - apply List.Forall_forall. intros t Ht. apply List.filter_In in Ht.
    exact (proj1 (List.Forall_forall _ _) H t (proj1 Ht)).
  - exact H.
Qed.

(** The listing holds a pattern only if a title, the notes or a due date
    brought it: the fixed parts of the listing do not. *)
Lemma listing_lacks (c : ascii) (p' status : string) (w : World)
    (items : list TaskItem) (text : string) :
  lacks_char newline (String c p') = true ->
  undecorated c = true ->
  (forall due d, due_text due = Ok d -> PyStr.contains (String c p') d = false) ->
  fetch_tasks (String.eqb status "completed") w = Ok items ->
  Forall (task_lacks (String c p')) items ->
  list_tasks_body status w = Ok text ->
  PyStr.contains (String c p') text = false.
Proof.
  intros Hp Hc Hdue Hfetch Hall.
  destruct (undecorated_parts c Hc) as (Hdigit & Hhead & Htail & _ & _ & _ & Hnone).
  unfold list_tasks_body. rewrite Hfetch, bind_ok.
  destruct (nonempty items).
  - destruct (add_tasks _ _) as [result|e] eqn:E.
    + rewrite bind_ok. intros E'. injection E' as <-.
      apply strip_lacks, clean_contains; [exact Hp | discriminate |].
      refine (add_tasks_clean c p' _ Hp Hc Hdue (select_tasks_sublist _ status items Hall) _ _ _ E).
      apply emit_clean; [exact Hp| |apply lacks_char_contains; reflexivity].
      eexists. split; [unfold emit; rewrite append_nil; reflexivity|].
      apply lacks_char_contains. rewrite !lacks_char_app, Hhead, Htail.
      unfold PyStr.str_of_int.
      destruct (Z.ltb_spec (Z.of_nat (List.length (select_tasks status items))) 0) as [Hneg|_];
        [lia|].
      now rewrite str_of_nonneg_chars.
    + rewrite bind_raise. intros E'. discriminate E'.
  - intros E. injection E as <-. now apply lacks_char_contains.
Qed.

(** Lines without the marker leave the running sum and count alone. *)
Lemma unmarked_lines_add_nothing (marker : string -> bool) (search : string -> option string)
    (lines : list string) (acc : pyfloat * Z) :
  (forall line, In line lines -> marker line = false) ->
  fold_left (add_line marker search) lines acc = acc.
Proof.
  induction lines as [|line lines IH]; intros Hall; [reflexivity|].
  cbn [fold_left]. unfold add_line at 2. rewrite (Hall line (or_introl eq_refl)).
  apply IH. intros l Hl. apply Hall. now right.
Qed.

Lemma pending_of_unmarked (text : string) :
  PyStr.contains "Est:" text = false -> pending_of text = (FFin 0, 0).
Proof.
  intros H. unfold pending_of, sum_lines. apply unmarked_lines_add_nothing.
  exact (lines_lack "Est:" text H).
Qed.

Lemma created_title_lacks (title priority : string) :
  PyStr.contains "Est:" title = false ->
  PyStr.contains "Est:" (task_body_title title priority) = false.
Proof.
  intros H. unfold task_body_title.
  assert (He : lacks_char "E" (default "⚪" (dict_get priority priority_emoji)) = true).
  { unfold priority_emoji. cbn [dict_get].
    repeat (destruct (String.eqb priority _); [reflexivity|]). reflexivity. }
  rewrite (contains_after_prefix "E" "st:" _ _ He).
  rewrite append_cons, append_nil. cbn [PyStr.contains PyStr.starts_with].
  exact H.
Qed.

Lemma created_notes_lacks (description priority : string) (estimated_hours : pyfloat) :
  In priority priorities ->
  PyStr.contains "Est:" description = false ->
  lacks_char "E" (py_str (VFloat estimated_hours)) = true ->
  PyStr.contains "Est:" (task_body_notes description priority estimated_hours) = false.
Proof.
  intros Hp Hd Hh.
  set (hours := py_str (VFloat estimated_hours)) in *.
  change (task_body_notes description priority estimated_hours)
    with (description ++ String newline ("" ++ String newline ("---" ++ String newline
            (("Priority: " ++ priority) ++ String newline ("Estimated: " ++ hours ++ "h"))))).
  assert (Hpr : PyStr.contains "Est:" ("Priority: " ++ priority) = false).
  { rewrite (contains_after_prefix "E" "st:" "Priority: " priority eq_refl).
    destruct Hp as [<-|[<-|[<-|[<-|[]]]]]; reflexivity. }
  assert (Hest : PyStr.contains "Est:" ("Estimated: " ++ hours ++ "h") = false).
  { change ("Estimated: " ++ hours ++ "h") with (String "E" ("stimated: " ++ hours ++ "h")).
    change (PyStr.contains "Est:" (String "E" ("stimated: " ++ hours ++ "h")))
      with (PyStr.contains "Est:" ("stimated: " ++ hours ++ "h")).
    rewrite (contains_after_prefix "E" "st:" "stimated: " _ eq_refl).
    apply lacks_char_contains. rewrite lacks_char_app, Hh. reflexivity. }
  rewrite !contains_across_newline by reflexivity.
  rewrite Hd, Hpr, Hest. reflexivity.
Qed.

Lemma created_task_lacks (task : TaskItem) :
  made_by_create_task task -> task_lacks "Est:" task.
Proof.
  intros (title & priority & description & hours & Ht & Hn & Hp & Htitle & Hd & Hh).
  unfold task_lacks. rewrite Ht, Hn. split.
  - now apply created_title_lacks.
  - now apply created_notes_lacks.
Qed.

(** X19. The estimates that [create_task] writes are not read back: when
    every pending task was stored by [create_task] (title and description
    free of "Est:") and the listing succeeds, the listing has no line with
    the marker "Est:", so the aggregator counts no task and no hour, and
    the snapshot reports 0 pending hours whatever the estimates were. *)
Theorem created_estimates_are_not_counted (w : World) (items : list TaskItem)
    (text : string) (include_github : bool) :
  fetch_tasks false w = Ok items ->
  Forall made_by_create_task items ->
  (forall due d, due_text due = Ok d -> PyStr.contains "Est:" d = false) ->
  list_tasks_body "pending" w = Ok text ->
  list_tasks w = Ok text ->
  pending_of text = (FFin 0, 0)
  /\ pending_hours (calculate_schedule_effort w include_github) = FFin 0.
Proof.
  intros Hfetch Hall Hdue Hbody Htool.
  assert (Hnone : pending_of text = (FFin 0, 0)).
  { apply pending_of_unmarked.
    refine (listing_lacks "E" "st:" "pending" w items text eq_refl eq_refl Hdue Hfetch _ Hbody).
    eapply Forall_impl; [exact Hall|]. exact created_task_lacks. }
  split; [exact Hnone|].
  destruct (get_calendar_events w) as [calendar_result|e] eqn:Hc.
  - destruct (effort_snapshot_on_success w include_github text calendar_result Htool Hc)
      as (_ & _ & _ & -> & _).
    rewrite Hnone. reflexivity.
  - destruct (effort_falls_back w include_github) as [e' ->]; [|reflexivity].
    rewrite effort_body_raises, Hc. apply orb_true_r.
Qed.

(** X20. The daily summary counts the pending tasks as half the number of
    "**" in the listing, and the listing puts none there: unless a title,
    the notes or a due date holds "**", a successful listing gives
    [tasks_pending = 0], however many tasks are listed. *)
Theorem daily_summary_counts_no_listed_task (w : World) (items : list TaskItem)
    (text : string) :
  fetch_tasks false w = Ok items ->
  Forall (task_lacks "**") items ->
  (forall due d, due_text due = Ok d -> PyStr.contains "**" d = false) ->
  list_tasks_body "pending" w = Ok text ->
  list_tasks w = Ok text ->
  tasks_pending (get_daily_work_summary w) = 0
  /\ tasks_data (get_daily_work_summary w) = Some text.
Proof.
  intros Hfetch Hall Hdue Hbody Htool.
  assert (Hnone : PyStr.contains "**" text = false).
  { exact (listing_lacks "*" "*" "pending" w items text eq_refl eq_refl Hdue Hfetch Hall Hbody). }
  unfold get_daily_work_summary. rewrite Htool.
  unfold PyStr.count. rewrite (count_from_absent "**" text O Hnone).
  destruct (get_calendar_events w); split; reflexivity.
Qed.

(** * The relative amounts of the resolver *)

Lemma span_run (p : ascii -> bool) (a b : string) :
  all_of p a = true ->
  match b with EmptyString => True | String c _ => p c = false end ->
  PyStr.span p (a ++ b) = (a, b).
Proof.
  intros Ha Hb. induction a as [|x a IH].
  - rewrite append_nil. destruct b as [|c b]; [reflexivity|].
    cbn [PyStr.span]. rewrite Hb. reflexivity.
  - cbn [all_of] in Ha. apply andb_prop in Ha. destruct Ha as [Hx Ha].
    rewrite append_cons. cbn [PyStr.span]. rewrite Hx, (IH Ha). reflexivity.
Qed.

Lemma lstrip_run (gap b : string) :
  all_of PyStr.is_space gap = true ->
  match b with EmptyString => True | String c _ => PyStr.is_space c = false end ->
  PyStr.lstrip (gap ++ b) = b.
Proof.
  intros Hg Hb. induction gap as [|x gap IH].
  - rewrite append_nil. destruct b as [|c b]; [reflexivity|].
    cbn [PyStr.lstrip]. rewrite Hb. reflexivity.
  - cbn [all_of] in Hg. apply andb_prop in Hg. destruct Hg as [Hx Hg].
    rewrite append_cons. cbn [PyStr.lstrip]. rewrite Hx. exact (IH Hg).
Qed.

Lemma space_is_no_digit (c : ascii) : PyStr.is_space c = true -> PyStr.is_digit c = false.
Proof. destruct c as [[] [] [] [] [] [] [] []]; intros H; first [discriminate H | reflexivity]. Qed.

Lemma digit_val_range (c : ascii) : PyStr.is_digit c = true -> 0 <= PyStr.digit_val c <= 9.
Proof.
  destruct c as [[] [] [] [] [] [] [] []]; intros H;
    first [discriminate H | vm_compute; split; discriminate].
Qed.

Lemma int_of_digits_acc_nonneg (s : string) (acc : Z) :
  all_of PyStr.is_digit s = true -> 0 <= acc -> 0 <= PyStr.int_of_digits_acc acc s.
Proof.
  revert acc. induction s as [|c s IH]; intros acc Hs Hacc; [exact Hacc|].
  cbn [all_of] in Hs. apply andb_prop in Hs. destruct Hs as [Hc Hs].
  cbn [PyStr.int_of_digits_acc]. apply IH; [exact Hs|].
  pose proof (digit_val_range c Hc). lia.
Qed.

(** The pattern "in N unit" at the head of a phrase: the amount is the
    whole run of digits, and blanks may separate it from the unit. *)
Lemma match_in_head (digits gap rest : string) (u : unit_of_time) :
  digits <> "" -> all_of PyStr.is_digit digits = true ->
  all_of PyStr.is_space gap = true ->
  search_in ("in " ++ digits ++ gap ++ unit_word u ++ rest) = Some (digits, u).
Proof.
  intros Hne Hd Hg.
  assert (Hhere : match_in_here ("in " ++ digits ++ gap ++ unit_word u ++ rest)
                  = Some (digits, u)).
  { unfold match_in_here.
    change (PyStr.starts_with "in " ("in " ++ digits ++ gap ++ unit_word u ++ rest))
      with true.
    change (PyStr.drop 3 ("in " ++ digits ++ gap ++ unit_word u ++ rest))
      with (digits ++ gap ++ unit_word u ++ rest).
    cbv iota.
    rewrite (span_run PyStr.is_digit digits (gap ++ unit_word u ++ rest) Hd).
    - destruct (String.eqb_spec digits "") as [E|_]; [contradiction|].
      rewrite (lstrip_run gap (unit_word u ++ rest) Hg).
      + destruct u; reflexivity.
      + destruct u; reflexivity.
    - destruct gap as [|x gap].
      + rewrite append_nil. destruct u; reflexivity.
      + rewrite append_cons. cbn [all_of] in Hg. apply andb_prop in Hg.
        apply space_is_no_digit. exact (proj1 Hg). }
  change ("in " ++ digits ++ gap ++ unit_word u ++ rest)
    with (String "i" ("n " ++ digits ++ gap ++ unit_word u ++ rest)) in *.
  cbn [search_in]. rewrite Hhere. reflexivity.
Qed.

(** [timedelta] addition is exact on the seconds, keeps the microseconds,
    and raises exactly when the day leaves the calendar. *)
Lemma add_seconds_exact (dt : datetime) (secs : Z) :
  valid dt -> 0 <= secs ->
  if seconds_since dt + secs <? (MAXORDINAL + 1) * 86400
  then exists dt', add_seconds dt secs = Ok dt' /\ valid dt'
                   /\ seconds_since dt' = seconds_since dt + secs
                   /\ microsecond dt' = microsecond dt
  else exists e, add_seconds dt secs = Raise e /\ exn_class e = OverflowError.
Proof.
  intros Hv Hs. pose proof (seconds_of_day_bound dt Hv) as Hb.
  unfold add_seconds, seconds_since. unfold seconds_of_day in *.
  set (total := hour dt * 3600 + minute dt * 60 + second dt + secs) in *.
  destruct Hv as (Ho & _ & _ & _ & Hus).
  replace (ordinal dt * 86400 + (hour dt * 3600 + minute dt * 60 + second dt) + secs)
    with (ordinal dt * 86400 + total) by (unfold total; lia).
  assert (0 <= total) as Ht by (unfold total; lia).
  clearbody total.
  pose proof (Z.div_mod total 86400 ltac:(lia)) as Hdm.
  pose proof (Z.mod_pos_bound total 86400 ltac:(lia)) as Hrest.
  assert (0 <= total / 86400) as Hq by (apply Z.div_pos; lia).
  set (q := total / 86400) in *. set (rest := total mod 86400) in *.
  unfold MAXORDINAL in *.
  destruct (Z.ltb_spec (ordinal dt * 86400 + total) ((3652059 + 1) * 86400)) as [Hin|Hout].
  - rewrite (proj2 (in_range_true 1 3652059 _)) by lia.
    eexists. split; [reflexivity|]. cbn [ordinal hour minute second microsecond].
    pose proof (Z.div_mod rest 3600 ltac:(lia)) as H1.
    pose proof (Z.mod_pos_bound rest 3600 ltac:(lia)) as H2.
    pose proof (Z.div_mod (rest mod 3600) 60 ltac:(lia)) as H3.
    pose proof (Z.mod_pos_bound (rest mod 3600) 60 ltac:(lia)) as H4.
    assert (rest mod 60 = (rest mod 3600) mod 60) as H5.
    { clear. Z.div_mod_to_equations. lia. }
    assert (0 <= rest / 3600 < 24) as H6.
    { split; [apply Z.div_pos; lia|apply Z.div_lt_upper_bound; lia]. }
    assert (0 <= rest mod 3600 / 60 < 60) as H7.
    { split; [apply Z.div_pos; lia|apply Z.div_lt_upper_bound; lia]. }
    unfold valid, MAXORDINAL. cbn [ordinal hour minute second microsecond].
    rewrite H5. repeat split; lia.
  - destruct (in_range 1 3652059 (ordinal dt + q)) eqn:Hr.
    + apply in_range_true in Hr. lia.
    + eexists. split; reflexivity.
Qed.

Lemma timedelta_ok (secs : Z) :
  0 <= secs -> secs / 86400 <= MAX_DELTA_DAYS -> timedelta secs = Ok secs.
Proof.
  intros Hs Hd. unfold timedelta.
  assert (0 <= secs / 86400) as Hq by (apply Z.div_pos; lia).
  unfold MAX_DELTA_DAYS in *.
  rewrite (proj2 (in_range_true (- 2 ^ 31) (2 ^ 31 - 1) _)) by lia.
  rewrite (proj2 (in_range_true (- 999999999) 999999999 _)) by lia.
  reflexivity.
Qed.

Lemma timedelta_inv (secs : Z) (r : outcome Z) :
  timedelta secs = r ->
  match r with
  | Ok x => x = secs
  | Raise e => exn_class e = OverflowError
  end.
Proof.
  intros <-. unfold timedelta.
  destruct (in_range (- 2 ^ 31) (2 ^ 31 - 1) _); [|reflexivity].
  destruct (in_range (- MAX_DELTA_DAYS) MAX_DELTA_DAYS _); reflexivity.
Qed.

(** [now + timedelta(...)] for a non-negative length: exact, or
    [OverflowError] when the moment is after the last day of year 9999. *)
Lemma shift_cases (now : datetime) (secs : Z) :
  valid now -> 0 <= secs ->
  if seconds_since now + secs <? (MAXORDINAL + 1) * 86400
  then exists dt, (timedelta secs ≫= add_seconds now) = Ok dt /\ valid dt
                  /\ seconds_since dt = seconds_since now + secs
                  /\ microsecond dt = microsecond now
  else exists e, (timedelta secs ≫= add_seconds now) = Raise e
                 /\ exn_class e = OverflowError.
Proof.
  intros Hv Hs. pose proof (add_seconds_exact now secs Hv Hs) as Hadd.
  pose proof (seconds_of_day_bound now Hv) as Hb.
  destruct (Z.ltb_spec (seconds_since now + secs) ((MAXORDINAL + 1) * 86400)) as [Hin|Hout].
  - rewrite timedelta_ok, bind_ok; [exact Hadd|exact Hs|].
    destruct Hv as (Ho & _). unfold seconds_since, MAXORDINAL, MAX_DELTA_DAYS in *.
    apply Z.lt_succ_r. apply Z.div_lt_upper_bound; lia.
  - pose proof (timedelta_inv secs _ eq_refl) as Hd.
    destruct (timedelta secs) as [x|e].
    + subst x. rewrite bind_ok. exact Hadd.
    + exists e. rewrite bind_raise. split; [reflexivity|exact Hd].
Qed.

Lemma span_all (p : ascii -> bool) (s a b : string) :
  PyStr.span p s = (a, b) -> all_of p a = true.
Proof.
  revert a b. induction s as [|c s IH]; intros a b H; cbn [PyStr.span] in H.
  - injection H as <- <-. reflexivity.
  - destruct (p c) eqn:Hc.
    + destruct (PyStr.span p s) as [a' b'] eqn:Hs. injection H as <- <-.
      cbn [all_of]. rewrite Hc. exact (IH a' b' eq_refl).
    + injection H as <- <-. reflexivity.
Qed.

(** The amount that the "in N unit" pattern reads is a non-empty run of
    digits. *)
Lemma search_in_digits (t digits : string) (u : unit_of_time) :
  search_in t = Some (digits, u) -> digits <> "" /\ all_of PyStr.is_digit digits = true.
Proof.
  assert (forall s, match_in_here s = Some (digits, u) ->
                    digits <> "" /\ all_of PyStr.is_digit digits = true) as Hhere.
  { intros s. unfold match_in_here.
    destruct (PyStr.starts_with "in " s); [|discriminate].
    destruct (PyStr.span PyStr.is_digit (PyStr.drop 3 s)) as [d r1] eqn:Hspan.
    destruct (String.eqb_spec d "") as [->|Hne]; [discriminate|].
    cbn [negb].
    destruct (PyStr.starts_with "hour" (PyStr.lstrip r1));
      [|destruct (PyStr.starts_with "minute" (PyStr.lstrip r1)); [|discriminate]];
      intros H; injection H as <- <-; (split; [exact Hne|exact (span_all _ _ _ _ Hspan)]). }
  induction t as [|c t IH]; cbn [search_in].
  - destruct (match_in_here "") as [g|] eqn:E; [|discriminate].
    intros H. injection H as ->. exact (Hhere _ E).
  - destruct (match_in_here (String c t)) as [g|] eqn:E; [|exact IH].
    intros H. injection H as ->. exact (Hhere _ E).
Qed.

Lemma parse_in_branch (s : string) (now : datetime) (digits : string) (u : unit_of_time) :
  valid now -> ordinal now + 7 <= MAXORDINAL ->
  ~ In (PyStr.strip (PyStr.lower s)) mapping_keys ->
  search_at (PyStr.strip (PyStr.lower s)) = None ->
  search_in (PyStr.strip (PyStr.lower s)) = Some (digits, u) ->
  parse_natural_time s now
  = (amount ← int_of_str digits;
     target_time ← timedelta (amount * unit_seconds u) ≫= add_seconds now;
     Ok (isoformat target_time)).
Proof.
  intros Hv Hmax Hkey Hat Hin. unfold parse_natural_time.
  destruct (time_mapping_ok now Hv Hmax) as (table & -> & Hk).
  rewrite bind_ok, dict_get_not_key by (rewrite Hk; exact Hkey).
  rewrite Hat, Hin. destruct (int_of_str digits) as [amount|e]; [|reflexivity].
  rewrite !bind_ok. destruct u; reflexivity.
Qed.

(** The "in N unit" branch: [ValueError] for an amount of more than 4300
    digits, [OverflowError] for a moment after year 9999, and the clock
    moved by exactly the amount otherwise. *)
Lemma parse_in_cases (s : string) (now : datetime) (digits : string) (u : unit_of_time) :
  valid now -> ordinal now + 7 <= MAXORDINAL ->
  ~ In (PyStr.strip (PyStr.lower s)) mapping_keys ->
  search_at (PyStr.strip (PyStr.lower s)) = None ->
  search_in (PyStr.strip (PyStr.lower s)) = Some (digits, u) ->
  let target := seconds_since now + PyStr.int_of_digits digits * unit_seconds u in
  if MAX_STR_DIGITS <? Z.of_nat (String.length digits)
  then exists e, parse_natural_time s now = Raise e /\ exn_class e = ValueError
  else if target <? (MAXORDINAL + 1) * 86400
  then exists dt, parse_natural_time s now = Ok (isoformat dt) /\ valid dt
                  /\ seconds_since dt = target /\ microsecond dt = microsecond now
  else exists e, parse_natural_time s now = Raise e /\ exn_class e = OverflowError.
Proof.
  intros Hv Hmax Hkey Hat Hin target.
  rewrite (parse_in_branch s now digits u Hv Hmax Hkey Hat Hin).
  destruct (search_in_digits _ _ _ Hin) as [_ Hd].
  unfold int_of_str.
  destruct (MAX_STR_DIGITS <? Z.of_nat (String.length digits)).
  - eexists. rewrite bind_raise. split; reflexivity.
  - rewrite bind_ok.
    assert (Hn : 0 <= PyStr.int_of_digits digits * unit_seconds u).
    { pose proof (int_of_digits_acc_nonneg digits 0 Hd (Z.le_refl 0)) as H.
      unfold PyStr.int_of_digits. destruct u; cbn [unit_seconds]; lia. }
    pose proof (shift_cases now _ Hv Hn) as Hshift. fold target in Hshift.
    destruct (target <? (MAXORDINAL + 1) * 86400).
    + destruct Hshift as (dt & -> & Hvalid & Hsec & Hus). exists dt.
      rewrite bind_ok. split; [reflexivity|]. split; [exact Hvalid|].
      split; [exact Hsec|exact Hus].
    + destruct Hshift as (e & -> & He). exists e. rewrite bind_raise.
      split; [reflexivity|exact He].
Qed.

(** X21. A phrase "in N hour(s)" or "in N minute(s)" that is no table
    phrase and has no "at" time resolves to the clock moved by exactly N
    hours or minutes, seconds and microseconds kept, when N is written
    with at most 4300 digits and the moment is not after the last day of
    year 9999.  An amount of more than 4300 digits, leading zeros
    included, raises [ValueError] (the limit of [int]); a moment after
    year 9999 raises [OverflowError]; nothing else is raised. *)
Theorem relative_amount_is_exact (s digits gap rest : string) (u : unit_of_time)
    (now : datetime) :
  valid now -> ordinal now + 7 <= MAXORDINAL ->
  let t := PyStr.strip (PyStr.lower s) in
  t = "in " ++ digits ++ gap ++ unit_word u ++ rest ->
  digits <> "" -> all_of PyStr.is_digit digits = true ->
  all_of PyStr.is_space gap = true ->
  ~ In t mapping_keys -> search_at t = None ->
  let target := seconds_since now + PyStr.int_of_digits digits * unit_seconds u in
  if MAX_STR_DIGITS <? Z.of_nat (String.length digits)
  then exists e, parse_natural_time s now = Raise e /\ exn_class e = ValueError
  else if target <? (MAXORDINAL + 1) * 86400
  then exists dt, parse_natural_time s now = Ok (isoformat dt) /\ valid dt
                  /\ seconds_since dt = target /\ microsecond dt = microsecond now
  else exists e, parse_natural_time s now = Raise e /\ exn_class e = OverflowError.
Proof.
  intros Hv Hmax t Ht Hne Hd Hg Hkey Hat.
  assert (search_in t = Some (digits, u)) as Hin.
  { rewrite Ht. exact (match_in_head digits gap rest u Hne Hd Hg). }
  exact (parse_in_cases s now digits u Hv Hmax Hkey Hat Hin).
Qed.

(** * The resolver on every phrase and clock *)







(** * The aggregator when the calendar service fails *)




End Agent.

(** * The definitions run on the sample collaborators *)

Import Sample.

Definition sample_validate : string -> gmap string pyval -> datetime -> outcome Validation :=
  validate_tool_call decimal_float show.

Definition sample_graph : nat -> AgentState -> datetime -> world -> outcome AgentState * world :=
  agent_graph_invoke decimal_float show world llm prompt tool_runner.

Definition sample_run_agent :
  nat -> string -> option AgentState -> bool -> datetime -> world
  -> outcome AgentState * world :=
  run_agent decimal_float show world llm prompt tool_runner
            token issues_source tasks_source calendar_source.

Definition sample_effort : world -> bool -> Snapshot :=
  calculate_schedule_effort decimal_float world token issues_source tasks_source
                            calendar_source.

Definition calendar_down : exn := PyExn RuntimeError "calendar service unavailable".
Definition model_down : exn := PyExn RuntimeError "connection refused".

(** The model proposes one 20-hour event; the calendar source is down. *)
Definition world_overlong : world :=
  world_of [Ok ("", [overlong_event])] (Ok tasks_text) (Raise calendar_down).

(** The model cannot be reached. *)
Definition world_model_down : world :=
  world_of [Raise model_down] (Ok tasks_text) (Ok calendar_text).

Definition timed_event_args : gmap string pyval :=
  {[ "summary" := VStr "Code review"; "start_time" := VStr "at 3pm";
     "duration_hours" := VFloat (FFin 1.5) ]}.

Definition statuses (r : outcome AgentState) : list string :=
  match r with
  | Ok st => map status (st_tool_calls st)
  | Raise _ => []
  end.

Example strings_run :
  PyStr.lower "At 3PM " = "at 3pm "
  /\ PyStr.strip "  at 3 pm  " = "at 3 pm"
  /\ PyStr.split_on "010" ("a" ++ nl ++ "b") = ["a"; "b"]
  /\ PyStr.count "**" "**a** and ****" = 4%nat
  /\ PyStr.pad0 2 7 = "07"
  /\ PyStr.str_of_int 2025 = "2025"
  /\ PyStr.title (PyStr.replace_char "_" " " "scheduled_events") = "Scheduled Events".
Proof. repeat split; reflexivity. Qed.

Example emoji_are_utf8 :
  String.length "❌" = 3%nat /\ String.length "⚠️" = 6%nat /\ String.length "✅" = 3%nat.
Proof. repeat split; reflexivity. Qed.

Example calendar_round_trip :
  ymd2ord 2025 1 15 = 739266
  /\ ord2ymd 739266 = (2025, 1, 15)
  /\ ord2ymd (ymd2ord 2024 2 29) = (2024, 2, 29)
  /\ ymd2ord 9999 12 31 = MAXORDINAL.
Proof. repeat split; reflexivity. Qed.

Example resolver_runs :
  parse_natural_time "at 3pm" morning_9 = Ok "2025-01-15T15:00:00"
  /\ parse_natural_time "at 3pm" afternoon_4 = Ok "2025-01-16T15:00:00"
  /\ parse_natural_time "Tomorrow" (make 2025 2 28 23 0) = Ok "2025-03-01T09:00:00"
  /\ parse_natural_time "in 90 minutes" (make 2025 1 15 23 0) = Ok "2025-01-16T00:30:00"
  /\ parse_natural_time "meet at 12:30 am" afternoon_4 = Ok "2025-01-16T00:30:00".
Proof. repeat split; vm_compute; reflexivity. Qed.

(** The first matching rule decides: an error keyword wins over a success
    keyword and over valid records, and one warning keyword is not enough. *)
Example classifier_order :
  classify_output "Task created, but the invite failed" [] = "error"
  /\ classify_output "Your review is pending" [] = "info"
  /\ classify_output "Invite is pending and overdue, but saved" [] = "warning"
  /\ classify_output "ok"
       [ {| tool := "create_task"; args := ∅; status := "valid"; error := None |};
         {| tool := "create_task"; args := ∅; status := "invalid";
            error := Some "Task title is required" |} ] = "error".
Proof. repeat split; vm_compute; reflexivity. Qed.

Example effort_runs :
  let snapshot := sample_effort (world_of [] (Ok tasks_text) (Ok calendar_text)) true in
  effort_level snapshot = "high"
  /\ pending_hours snapshot = FFin (9 # 2)
  /\ scheduled_hours snapshot = FFin 2
  /\ github_hours snapshot = FFin (9 # 2)
  /\ total_hours snapshot = FFin 11
  /\ an_utilization (analysis snapshot) = "137.5%".
Proof. repeat split; vm_compute; reflexivity. Qed.

(** A task without priority and hours passes with the default priority;
    an unknown priority or an empty title does not. *)
Example task_rules_run :
  accepts decimal_float show morning_9 review_task = true
  /\ accepts decimal_float show morning_9
       {| name := "create_task";
          tc_args := {[ "title" := VStr "Deploy"; "priority" := VStr "urgent" ]};
          tc_id := "call_4" |} = false
  /\ accepts decimal_float show morning_9
       {| name := "create_task"; tc_args := {[ "title" := VStr "" ]}; tc_id := "call_5" |}
     = false
  /\ accepts decimal_float show morning_9
       {| name := "list_tasks"; tc_args := ∅; tc_id := "call_6" |} = true.
Proof. repeat split; vm_compute; reflexivity. Qed.

(** ** Witnesses and counterexamples *)

(** C1: a batch whose only action is invalid is still run.  The model
    proposes one event of 20 hours; the validator rejects it and the
    record says "invalid", yet the message keeps the call, the edge routes
    to the tool node, and the tool is run. *)
Theorem all_invalid_batch_is_executed :
  let start := with_messages empty_state [HumanMessage "book something"] in
  let run := sample_graph 25 start morning_9 world_overlong in
  accepts decimal_float show morning_9 overlong_event = false
  /\ match call_model decimal_float show world llm prompt start morning_9 world_overlong with
     | Ok after_model =>
         should_continue after_model = tools
         /\ batch_for_tools after_model = [overlong_event]
     | Raise _ => False
     end
  /\ statuses (fst run) = ["invalid"]
  /\ tool_log (snd run) = [overlong_event].
Proof. vm_compute. repeat split; reflexivity. Qed.

(** The sibling path: with one valid action beside the invalid one, only
    the valid one is run. *)
Example mixed_batch_is_filtered :
  let start := with_messages empty_state [HumanMessage "book something"] in
  let w := world_of [Ok ("", [overlong_event; standup_event])] (Ok "") (Ok "") in
  let run := sample_graph 25 start morning_9 w in
  statuses (fst run) = ["invalid"; "valid"]
  /\ tool_log (snd run) = [standup_event].
Proof. vm_compute. repeat split; reflexivity. Qed.

(** The calendar tool over the sample calendar service, and its
    invocation. *)
Definition calendar_tool (w : world) : outcome string :=
  Ok (get_calendar_events_tool world calendar_source w).

Definition tool_effort : world -> bool -> Snapshot :=
  calculate_schedule_effort decimal_float world token issues_source tasks_source
                            calendar_tool.





(** A parenthesis without a figure before "h" is not counted. *)
Example error_text_without_figure :
  scheduled_hours
    (tool_effort (world_of [] (Ok "") (Raise (PyExn RuntimeError "quota (retry in 2h)")))
       false) = FFin 0.
Proof. vm_compute. reflexivity. Qed.


(** C3, as stated, fails: an event with a title and a start time but no
    duration entry is valid. *)
Lemma missing_duration_is_accepted :
  tc_args standup_event !! "duration_hours" = None
  /\ exists a, sample_validate "create_calendar_event" (tc_args standup_event) morning_9
               = Ok {| is_valid := true; error_msg := ""; final_args := a |}.
Proof. split; [reflexivity|]. eexists. vm_compute. reflexivity. Qed.

(** The same event through the theorem: valid, with duration 1.0 in the
    recorded arguments. *)
Lemma validator_defaults_missing_duration_witness :
  tc_args standup_event !! "duration_hours" = None
  /\ exists v,
       sample_validate "create_calendar_event" (tc_args standup_event) morning_9 = Ok v
       /\ is_valid v = true
       /\ final_args v !! "duration_hours" = Some (VFloat (FFin 1)).
Proof.
  split; [reflexivity|].
  destruct (validator_defaults_missing_duration decimal_float show
              (tc_args standup_event) morning_9 eq_refl) as (v & Hv & Hvalid & Hd).
  exists v. split; [exact Hv|].
  assert (is_valid v = true) as Ht by (rewrite Hvalid; vm_compute; reflexivity).
  split; [exact Ht|exact (Hd Ht)].
Defined.


(** The sample clock is a valid datetime far from the end of the calendar. *)
Lemma morning_9_valid : valid morning_9 /\ ordinal morning_9 + 7 <= MAXORDINAL.
Proof. unfold valid. vm_compute. repeat split; discriminate. Defined.





(** A titled event at 3pm lasting 1.5 hours, through the theorem. *)
Lemma validator_duration_bounds_witness :
  truthy (get timed_event_args "summary") = true
  /\ timed_event_args !! "duration_hours" = Some (VFloat (FFin 1.5))
  /\ (0.25 <= 1.5 <= 12)%Q
  /\ exists a, sample_validate "create_calendar_event" timed_event_args morning_9
               = Ok {| is_valid := true; error_msg := ""; final_args := a |}.
Proof.
  assert (truthy (get timed_event_args "summary") = true) as Ht by reflexivity.
  assert (timed_event_args !! "duration_hours" = Some (VFloat (FFin 1.5))) as Hd
    by reflexivity.
  assert (0.25 <= 1.5 <= 12)%Q as Hr by (split; discriminate).
  split; [exact Ht|]. split; [exact Hd|]. split; [exact Hr|].
  assert (parse_natural_time_arg (get_or timed_event_args "start_time" (VStr "")) morning_9
          = Ok "2025-01-15T15:00:00") as Hp by (vm_compute; reflexivity).
  exact (proj1 (validator_duration_bounds decimal_float show timed_event_args morning_9
                  "2025-01-15T15:00:00" (VFloat (FFin 1.5)) 1.5 Ht Hp Hd
                  (number_float decimal_float 1.5)) Hr).
Defined.



(** The six totals of the specification, as unrounded sums. *)
Example tier_examples :
  map (fun hours => effort_level
                      (sample_effort (world_of [] (Ok ("Est: " ++ hours ++ "h")) (Ok "")) false))
      ["3.99"; "4.0"; "7.99"; "8.0"; "11.99"; "12.0"]
  = ["low"; "medium"; "medium"; "high"; "high"; "overloaded"].
Proof. vm_compute. reflexivity. Qed.


(** The aggregation over the sample world with the calendar down raises,
    and the snapshot is the "unknown" one. *)
Lemma effort_failure_gives_unknown_witness :
  raises (effort_body decimal_float world token issues_source tasks_source
            calendar_source world_overlong true) = true
  /\ effort_level (sample_effort world_overlong true) = "unknown"
  /\ an_recommendations (analysis (sample_effort world_overlong true)) = [].
Proof.
  assert (raises (effort_body decimal_float world token issues_source tasks_source
                    calendar_source world_overlong true) = true) as Hr by reflexivity.
  split; [exact Hr|].
  destruct (effort_failure_gives_unknown decimal_float world token issues_source
              tasks_source calendar_source world_overlong true Hr)
    as (Hl & _ & _ & _ & _ & _ & _ & _ & Hrec).
  split; [exact Hl|exact Hrec].
Defined.

(** C9, as stated, fails: with [include_analysis] false and the model
    unreachable, the returned state has no classification. *)
Lemma no_classification_without_analysis :
  fst (sample_graph 25 (with_messages empty_state [HumanMessage "hello"]) morning_9
         world_model_down) = Raise model_down
  /\ exists final,
       fst (sample_run_agent 25 "hello" None false morning_9 world_model_down) = Ok final
       /\ classification final = None.
Proof. split; [reflexivity|]. eexists. split; vm_compute; reflexivity. Qed.

(** The same failure with [include_analysis] true, through the theorem. *)
Lemma run_agent_survives_graph_failure_witness :
  fst (sample_graph 25 (with_messages empty_state [HumanMessage "hello"]) morning_9
         world_model_down) = Raise model_down
  /\ exists final,
       fst (sample_run_agent 25 "hello" None true morning_9 world_model_down) = Ok final
       /\ messages final
          = [HumanMessage "hello"; SystemMessage "❌ **Error**: connection refused"]
       /\ classification final = Some "error".
Proof.
  assert (fst (sample_graph 25 (with_messages empty_state [HumanMessage "hello"])
                 morning_9 world_model_down) = Raise model_down) as Hg by reflexivity.
  split; [exact Hg|].
  destruct (run_agent_survives_graph_failure decimal_float show world llm prompt
              tool_runner token issues_source tasks_source calendar_source
              25 "hello" None true morning_9 world_model_down model_down Hg)
    as (final & Hf & Hm & Hc & _).
  exists final. split; [exact Hf|]. split; [exact Hm|exact Hc].
Defined.

(** ** Witnesses of the further properties *)

Definition ok_of {A : Type} (d : A) (r : outcome A) : A :=
  match r with
  | Ok a => a
  | Raise _ => d
  end.

(** The model proposes a task, then confirms it. *)
Definition world_task : world :=
  world_of [Ok ("", [review_task]); Ok ("Task created.", [])] (Ok tasks_text) (Ok calendar_text).

(** The model answers at once, proposing nothing. *)
Definition world_quiet : world := world_of [] (Ok tasks_text) (Ok calendar_text).

(** The model proposes a valid and an invalid event in one reply. *)
Definition world_mixed : world :=
  world_of [Ok ("", [overlong_event; standup_event])] (Ok tasks_text) (Ok calendar_text).

Definition asked (text : string) : AgentState :=
  with_messages empty_state [HumanMessage text].

Definition task_turn : outcome AgentState * world :=
  sample_graph 25 (asked "add a task") morning_9 world_task.

(** A turn that runs one tool keeps the user's message first and ends on
    the model's confirmation. *)
Lemma graph_history_append_only_witness :
  task_turn = (Ok (ok_of empty_state (fst task_turn)), snd task_turn)
  /\ exists added text records,
       messages (ok_of empty_state (fst task_turn))
       = ([HumanMessage "add a task"] ++ added ++ [AIMessage text []])%list
       /\ st_tool_calls (ok_of empty_state (fst task_turn)) = ([] ++ records)%list.
Proof.
  assert (task_turn = (Ok (ok_of empty_state (fst task_turn)), snd task_turn)) as H
    by (vm_compute; reflexivity).
  split; [exact H|].
  exact (graph_history_append_only decimal_float show world llm prompt tool_runner
           25 (asked "add a task") _ morning_9 world_task _ H).
Defined.

Lemma no_action_reply_ends_turn_witness :
  llm (SystemMessage (prompt morning_9) :: messages (asked "hello")) world_quiet
  = Ok ("Done.", [])
  /\ exists result,
       sample_graph 1 (asked "hello") morning_9 world_quiet = (Ok result, world_quiet)
       /\ messages result = [HumanMessage "hello"; AIMessage "Done." []]
       /\ st_tool_calls result = [].
Proof.
  split; [reflexivity|].
  exact (no_action_reply_ends_turn decimal_float show world llm prompt tool_runner
           0 (asked "hello") morning_9 world_quiet "Done." eq_refl).
Defined.

Definition mixed_reply : outcome AgentState :=
  call_model decimal_float show world llm prompt (asked "book something") morning_9 world_mixed.

(** Of a 20-hour event and a standup, only the standup reaches the tools. *)
Lemma valid_actions_reach_tools_witness :
  mixed_reply = Ok (ok_of empty_state mixed_reply)
  /\ List.filter (accepts decimal_float show morning_9) [overlong_event; standup_event] <> []
  /\ map name (batch_for_tools (ok_of empty_state mixed_reply)) = ["create_calendar_event"]
  /\ map tc_id (batch_for_tools (ok_of empty_state mixed_reply)) = ["call_2"]
  /\ should_continue (ok_of empty_state mixed_reply) = tools.
Proof.
  assert (mixed_reply = Ok (ok_of empty_state mixed_reply)) as H by (vm_compute; reflexivity).
  assert (List.filter (accepts decimal_float show morning_9) [overlong_event; standup_event]
          <> []) as Hne by (vm_compute; discriminate).
  split; [exact H|]. split; [exact Hne|].
  destruct (valid_actions_reach_tools decimal_float show world llm prompt
              (asked "book something") _ morning_9 world_mixed ""
              [overlong_event; standup_event] eq_refl H Hne) as (Hb & _ & Hroute).
  rewrite Hb. split; [vm_compute; reflexivity|]. split; [vm_compute; reflexivity|exact Hroute].
Defined.

Definition quiet_turn : outcome AgentState * world :=
  sample_graph 25 (asked "what is next?") morning_9 world_quiet.

(** Without analysis and without a planning phrase the state of the graph
    comes back as it is. *)
Lemma enrichment_gate_witness :
  quiet_turn = (Ok (ok_of empty_state (fst quiet_turn)), snd quiet_turn)
  /\ sample_run_agent 25 "what is next?" None false morning_9 world_quiet
     = (Ok (ok_of empty_state (fst quiet_turn)), snd quiet_turn).
Proof.
  assert (quiet_turn = (Ok (ok_of empty_state (fst quiet_turn)), snd quiet_turn)) as H
    by (vm_compute; reflexivity).
  split; [exact H|].
  destruct (enrichment_gate decimal_float show world llm prompt tool_runner token
              issues_source tasks_source calendar_source 25 "what is next?" None false
              morning_9 world_quiet _ _ H) as (final & Hrun & Hfinal).
  change (false || any_in planning_keywords (PyStr.lower "what is next?")) with false in Hfinal.
  rewrite <- Hfinal. exact Hrun.
Defined.

Definition rejected_once : AgentState :=
  with_tool_calls empty_state
    [ {| tool := "create_task"; args := ∅; status := "invalid";
         error := Some "Task title is required" |} ].

Lemma invalid_record_is_sticky_witness :
  existsb is_invalid (st_tool_calls rejected_once) = true
  /\ exists final,
       fst (sample_run_agent 25 "hello" (Some rejected_once) true morning_9 world_quiet)
       = Ok final
       /\ classification final = Some "error".
Proof.
  split; [reflexivity|].
  exact (invalid_record_is_sticky decimal_float show world llm prompt tool_runner token
           issues_source tasks_source calendar_source 25 "hello" rejected_once morning_9
           world_quiet eq_refl).
Defined.

Definition no_validation : Validation :=
  {| is_valid := false; error_msg := ""; final_args := ∅ |}.

Definition timed_event_checked : outcome Validation :=
  sample_validate "create_calendar_event" timed_event_args morning_9.

(** The title of a checked event is the one the model sent. *)
Lemma validator_edits_three_keys_only_witness :
  timed_event_checked = Ok (ok_of no_validation timed_event_checked)
  /\ final_args (ok_of no_validation timed_event_checked) !! "summary"
     = Some (VStr "Code review").
Proof.
  assert (timed_event_checked = Ok (ok_of no_validation timed_event_checked)) as H
    by (vm_compute; reflexivity).
  split; [exact H|].
  rewrite (proj1 (validator_edits_three_keys_only decimal_float show
                    "create_calendar_event" timed_event_args morning_9 _ H) "summary");
    [reflexivity|discriminate|discriminate|discriminate].
Defined.

(** A task with a title and no priority is accepted with its arguments as
    they were. *)
Lemma task_rules_witness :
  tc_args review_task !! "estimated_hours" = None
  /\ exists msg,
       sample_validate "create_task" (tc_args review_task) morning_9
       = Ok {| is_valid := true; error_msg := msg; final_args := tc_args review_task |}.
Proof.
  split; [reflexivity|].
  exact (proj1 (task_rules decimal_float show (tc_args review_task) morning_9) eq_refl).
Defined.

(** No title, a start time the resolver refuses, a duration that is no
    number: the missing title is what is reported. *)
Definition untitled_args : gmap string pyval :=
  {[ "start_time" := VStr "at 25"; "duration_hours" := VStr "long" ]}.

Lemma untitled_event_rejected_first_witness :
  truthy (get untitled_args "summary") = false
  /\ sample_validate "create_calendar_event" untitled_args morning_9
     = Ok {| is_valid := false; error_msg := "Event title is required";
             final_args := untitled_args |}.
Proof.
  split; [reflexivity|].
  exact (untitled_event_rejected_first decimal_float show untitled_args morning_9 eq_refl).
Defined.

(** [float] with the special values it reads besides decimals. *)
Definition special_float (s : string) : option pyfloat :=
  let t := PyStr.lower (PyStr.strip s) in
  if String.eqb t "nan" then Some FNan
  else if String.eqb t "inf" then Some (FInf false)
  else if String.eqb t "-inf" then Some (FInf true)
  else decimal_float s.

Definition nan_args : gmap string pyval :=
  {[ "summary" := VStr "Retro"; "start_time" := VStr "at 3pm";
     "duration_hours" := VStr "nan" ]}.

Lemma nan_duration_is_accepted_witness :
  truthy (get nan_args "summary") = true
  /\ parse_natural_time_arg (get_or nan_args "start_time" (VStr "")) morning_9
     = Ok "2025-01-15T15:00:00"
  /\ nan_args !! "duration_hours" = Some (VStr "nan")
  /\ special_float "nan" = Some FNan
  /\ validate_tool_call special_float show "create_calendar_event" nan_args morning_9
     = Ok {| is_valid := true; error_msg := "";
             final_args := <["duration_hours" := VFloat FNan]>
                             (<["start_time" := VStr "2025-01-15T15:00:00"]> nan_args) |}.
Proof.
  assert (parse_natural_time_arg (get_or nan_args "start_time" (VStr "")) morning_9
          = Ok "2025-01-15T15:00:00") as Hp by (vm_compute; reflexivity).
  split; [reflexivity|]. split; [exact Hp|]. split; [reflexivity|]. split; [reflexivity|].
  exact (proj1 (nan_duration_is_accepted special_float show nan_args morning_9
                  "2025-01-15T15:00:00" "nan" eq_refl Hp eq_refl) eq_refl).
Defined.

(** An event that is to last 2^1024 hours. *)
Definition endless_event : ToolCall :=
  {| name := "create_calendar_event";
     tc_args := {[ "summary" := VStr "Offsite"; "start_time" := VStr "at 3pm";
                   "duration_hours" := VInt (2 ^ 1024) ]};
     tc_id := "call_4" |}.

Definition world_endless : world :=
  world_of [Ok ("", [endless_event; review_task])] (Ok tasks_text) (Ok calendar_text).

Lemma huge_duration_aborts_turn_witness :
  int_too_large (2 ^ 1024) = true
  /\ exists final,
       sample_run_agent 25 "book the offsite" None false morning_9 world_endless
       = (Ok final, world_endless)
       /\ messages final
          = [HumanMessage "book the offsite";
             SystemMessage "❌ **Error**: int too large to convert to float"]
       /\ st_tool_calls final = [].
Proof.
  assert (int_too_large (2 ^ 1024) = true) as Hz by (vm_compute; reflexivity).
  assert (parse_natural_time_arg (get_or (tc_args endless_event) "start_time" (VStr ""))
            morning_9 = Ok "2025-01-15T15:00:00") as Hp by (vm_compute; reflexivity).
  split; [exact Hz|].
  exact (huge_duration_aborts_turn decimal_float show world llm prompt tool_runner token
           issues_source tasks_source calendar_source 24 "book the offsite" None false
           morning_9 world_endless "" "2025-01-15T15:00:00" endless_event [review_task]
           (2 ^ 1024) eq_refl eq_refl eq_refl Hp eq_refl Hz).
Defined.

Lemma afternoon_4_valid :
  valid afternoon_4 /\ ordinal afternoon_4 + 7 <= MAXORDINAL /\ 10 <= hour afternoon_4.
Proof. unfold valid. vm_compute. repeat split; discriminate. Defined.

Lemma relative_day_phrases_witness :
  valid afternoon_4 /\ ordinal afternoon_4 + 7 <= MAXORDINAL
  /\ PyStr.strip (PyStr.lower "  Tomorrow ") = "tomorrow"
  /\ parse_natural_time "  Tomorrow " afternoon_4 = Ok "2025-01-16T09:00:00".
Proof.
  destruct afternoon_4_valid as (Hv & Hmax & _).
  split; [exact Hv|]. split; [exact Hmax|]. split; [reflexivity|].
  rewrite (proj1 (relative_day_phrases "  Tomorrow " afternoon_4 Hv Hmax)
             (or_introl eq_refl)).
  vm_compute. reflexivity.
Defined.

(** At 16:00, "morning" is 09:00 of the same day and "at 9am" 09:00 of the
    next. *)
Lemma table_phrases_do_not_roll_forward_witness :
  valid afternoon_4 /\ ordinal afternoon_4 + 7 <= MAXORDINAL /\ 10 <= hour afternoon_4
  /\ parse_natural_time "morning" afternoon_4 = Ok "2025-01-15T09:00:00"
  /\ parse_natural_time "at 9am" afternoon_4 = Ok "2025-01-16T09:00:00".
Proof.
  destruct afternoon_4_valid as (Hv & Hmax & Hh).
  split; [exact Hv|]. split; [exact Hmax|]. split; [exact Hh|].
  destruct (table_phrases_do_not_roll_forward afternoon_4 Hv Hmax Hh) as (Hm & _ & Ha).
  rewrite Hm, Ha. split; vm_compute; reflexivity.
Defined.

(** "tomorrow at 3pm", asked at 09:00, is read as today at 15:00. *)
Lemma at_time_ignores_other_words_witness :
  valid morning_9 /\ ordinal morning_9 + 7 <= MAXORDINAL
  /\ PyStr.strip (PyStr.lower "Tomorrow at 3pm") = "tomorrow " ++ "at " ++ String "3" "pm"
  /\ PyStr.is_digit "3" = true
  /\ parse_natural_time "Tomorrow at 3pm" morning_9 = Ok "2025-01-15T15:00:00"
  /\ exists h m,
       0 <= h <= 23 /\ 0 <= m <= 59
       /\ "2025-01-15T15:00:00"
          = isoformat (if dt_lt (on_day (ordinal morning_9) h m) morning_9
                       then on_day (ordinal morning_9 + 1) h m
                       else on_day (ordinal morning_9) h m).
Proof.
  destruct morning_9_valid as [Hv Hmax].
  assert (parse_natural_time "Tomorrow at 3pm" morning_9 = Ok "2025-01-15T15:00:00") as Hp
    by (vm_compute; reflexivity).
  split; [exact Hv|]. split; [exact Hmax|]. split; [reflexivity|]. split; [reflexivity|].
  split; [exact Hp|].
  exact (at_time_ignores_other_words "Tomorrow at 3pm" "tomorrow " "pm"
           "2025-01-15T15:00:00" "3" morning_9 Hv Hmax eq_refl eq_refl Hp).
Defined.

(** One critical issue and one pull request: 4.5 hours. *)
Lemma github_workload_estimate_witness :
  token world_quiet = Some "ghp_sample" /\ "ghp_sample" <> ""
  /\ (exists issues prs, issues_source world_quiet = Ok (issues, prs))
  /\ total_issues (get_github_workload world token issues_source world_quiet) = 1
  /\ total_prs (get_github_workload world token issues_source world_quiet) = 1
  /\ (estimated_hours (get_github_workload world token issues_source world_quiet) <= 225)%Q.
Proof.
  assert ("ghp_sample" <> "") as Hne by discriminate.
  split; [reflexivity|]. split; [exact Hne|].
  split; [eexists; eexists; reflexivity|].
  destruct (proj1 (github_workload_estimate world token issues_source world_quiet)
              "ghp_sample" _ _ eq_refl Hne eq_refl) as (Hi & Hp & _ & _ & _ & Hmax).
  split; [exact Hi|]. split; [exact Hp|exact Hmax].
Defined.

Lemma issue_priority_by_label_witness :
  In "Critical" ["bug"; "Critical"]
  /\ In (PyStr.lower "Critical") ["critical"; "urgent"; "p0"]
  /\ issue_priority ["bug"; "Critical"] = "critical".
Proof.
  assert (In "Critical" ["bug"; "Critical"]) as Hl by (right; left; reflexivity).
  assert (In (PyStr.lower "Critical") ["critical"; "urgent"; "p0"]) as Hc
    by (left; reflexivity).
  split; [exact Hl|]. split; [exact Hc|].
  exact (proj1 (issue_priority_by_label ["bug"; "Critical"]) "Critical" Hl Hc).
Defined.

(** An observability sink that always fails. *)
Definition tracker (user_input response : string) (records : list ActionRecord) (w : world)
  : outcome unit * world :=
  (Raise (PyExn RuntimeError "langfuse unreachable"), w).

Definition sample_chat : nat -> string -> option StateDict -> datetime -> world
                         -> http ChatResponse * world :=
  chat decimal_float show world llm prompt tool_runner token issues_source tasks_source
       calendar_source tracker.

(** A client state without "messages" is answered 500; a state whose
    "messages" is a list, or no state, is answered 200. *)
Example chat_runs :
  sample_chat 25 "hello" (Some {| sd_messages := Absent; sd_state := empty_state |})
    morning_9 world_quiet = (Http500 "'messages'", world_quiet)
  /\ sample_chat 25 "hello"
       (Some {| sd_messages := Unappendable "NoneType"; sd_state := empty_state |})
       morning_9 world_quiet
     = (Http500 "'NoneType' object has no attribute 'append'", world_quiet)
  /\ fst (sample_chat 25 "hello" (Some {| sd_messages := Listed; sd_state := empty_state |})
            morning_9 world_quiet)
     = Http200 {| response := "Done."; chat_classification := "success";
                  chat_state :=
                    ok_of empty_state
                      (fst (sample_run_agent 25 "hello" None true morning_9 world_quiet)) |}.
Proof. repeat split; vm_compute; reflexivity. Qed.

Lemma chat_reports_model_failure_witness :
  fst (sample_graph 25 (asked "hello") morning_9 world_model_down) = Raise model_down
  /\ exists r,
       fst (sample_chat 25 "hello" None morning_9 world_model_down) = Http200 r
       /\ response r = "❌ **Error**: connection refused"
       /\ chat_classification r = "error"
       /\ classification (chat_state r) = Some "error".
Proof.
  assert (fst (sample_graph 25 (asked "hello") morning_9 world_model_down)
          = Raise model_down) as Hg by reflexivity.
  split; [exact Hg|].
  exact (proj2 (chat_reports_model_failure decimal_float show world llm prompt tool_runner
                  token issues_source tasks_source calendar_source tracker 25 "hello" None
                  morning_9 world_model_down) model_down Hg).
Defined.

Lemma simple_error_is_detailed_error_witness :
  classify_response "The request failed" = "error"
  /\ (classify_output "The request failed" [] = "error"
      \/ PyStr.contains "unable" (PyStr.lower "The request failed") = true).
Proof.
  split; [reflexivity|].
  exact (simple_error_is_detailed_error "The request failed" [] eq_refl).
Defined.

(** [str] with floats printed to one decimal. *)
Definition show_value (v : pyval) : string :=
  match v with
  | VFloat x => fmt1 x
  | _ => show v
  end.

(** Two pending tasks as [create_task] stores them, one with a due date. *)
Definition report_item : TaskItem :=
  {| item_title := Some (task_body_title "Write the report" "high");
     item_status := Some "needsAction";
     item_notes := Some (task_body_notes show_value "Quarterly numbers" "high" (FFin 2));
     item_due := Some "2025-01-20T00:00:00.000Z" |}.

Definition backlog_item : TaskItem :=
  {| item_title := Some (task_body_title "Tidy the backlog" "low");
     item_status := Some "needsAction";
     item_notes := Some (task_body_notes show_value "" "low" (FFin (1 # 2)));
     item_due := None |}.

Definition task_service (show_completed : bool) (w : world) : outcome (list TaskItem) :=
  Ok [report_item; backlog_item].

Definition due_on_20_january (due : string) : outcome string := Ok "Jan 20, 2025".

Definition sample_listing : string -> world -> outcome string :=
  list_tasks_body world task_service due_on_20_january.

Definition listed_tasks (w : world) : outcome string :=
  Ok (list_tasks_tool world task_service due_on_20_january "pending" w).

Definition listing_text : string :=
  "📋 Tasks (2):" ++ nl ++ nl
  ++ "⏳ 🟠 Write the report" ++ nl
  ++ "   Priority: high" ++ nl
  ++ "   Estimated: 2.0h" ++ nl
  ++ "   📅 Due: Jan 20, 2025" ++ nl ++ nl
  ++ "⏳ 🟢 Tidy the backlog" ++ nl
  ++ "   Priority: low" ++ nl
  ++ "   Estimated: 0.5h".

Example listing_runs :
  sample_listing "pending" world_quiet = Ok listing_text
  /\ sample_listing "completed" world_quiet = Ok "📋 Tasks (0):"
  /\ list_tasks_tool world (fun _ _ => Raise (PyExn RuntimeError "quota exceeded"))
       due_on_20_january "pending" world_quiet
     = "❌ Error listing tasks: quota exceeded"
  /\ list_tasks_tool world (fun _ _ => Ok []) due_on_20_january "all" world_quiet
     = "📝 No tasks found.".
Proof. repeat split; vm_compute; reflexivity. Qed.

Lemma sample_due_lacks (p : string) :
  PyStr.contains p "Jan 20, 2025" = false ->
  forall due d, due_on_20_january due = Ok d -> PyStr.contains p d = false.
Proof. intros H due d E. injection E as <-. exact H. Qed.

(** Two tasks estimated at 2 and 0.5 hours are listed, and the snapshot
    reports no pending hours. *)
Lemma created_estimates_are_not_counted_witness :
  task_service false world_quiet = Ok [report_item; backlog_item]
  /\ Forall (made_by_create_task show_value) [report_item; backlog_item]
  /\ sample_listing "pending" world_quiet = Ok listing_text
  /\ listed_tasks world_quiet = Ok listing_text
  /\ pending_of decimal_float listing_text = (FFin 0, 0)
  /\ pending_hours (calculate_schedule_effort decimal_float world token issues_source
                      listed_tasks calendar_source world_quiet true) = FFin 0.
Proof.
  assert (Forall (made_by_create_task show_value) [report_item; backlog_item]) as Hall.
  { constructor; [|constructor; [|constructor]].
    - exists "Write the report", "high", "Quarterly numbers", (FFin 2).
      repeat split; try reflexivity. right. right. left. reflexivity.
    - exists "Tidy the backlog", "low", "", (FFin (1 # 2)).
      repeat split; try reflexivity. left. reflexivity. }
  assert (sample_listing "pending" world_quiet = Ok listing_text) as Hbody
    by (vm_compute; reflexivity).
  assert (listed_tasks world_quiet = Ok listing_text) as Htool by (vm_compute; reflexivity).
  split; [reflexivity|]. split; [exact Hall|]. split; [exact Hbody|]. split; [exact Htool|].
  exact (created_estimates_are_not_counted decimal_float show_value world token
           issues_source listed_tasks calendar_source task_service due_on_20_january
           world_quiet [report_item; backlog_item] listing_text true eq_refl Hall
           (sample_due_lacks "Est:" eq_refl) Hbody Htool).
Defined.

(** The same two tasks: the daily summary counts none. *)
Lemma daily_summary_counts_no_listed_task_witness :
  task_service false world_quiet = Ok [report_item; backlog_item]
  /\ Forall (task_lacks "**") [report_item; backlog_item]
  /\ sample_listing "pending" world_quiet = Ok listing_text
  /\ listed_tasks world_quiet = Ok listing_text
  /\ tasks_pending (get_daily_work_summary world token issues_source listed_tasks
                      calendar_source world_quiet) = 0
  /\ tasks_data (get_daily_work_summary world token issues_source listed_tasks
                   calendar_source world_quiet) = Some listing_text.
Proof.
  assert (Forall (task_lacks "**") [report_item; backlog_item]) as Hall.
  { constructor; [|constructor; [|constructor]]; split; vm_compute; reflexivity. }
  assert (sample_listing "pending" world_quiet = Ok listing_text) as Hbody
    by (vm_compute; reflexivity).
  assert (listed_tasks world_quiet = Ok listing_text) as Htool by (vm_compute; reflexivity).
  split; [reflexivity|]. split; [exact Hall|]. split; [exact Hbody|]. split; [exact Htool|].
  exact (daily_summary_counts_no_listed_task world token issues_source listed_tasks
           calendar_source task_service due_on_20_january world_quiet
           [report_item; backlog_item] listing_text eq_refl Hall
           (sample_due_lacks "**" eq_refl) Hbody Htool).
Defined.

(** "In 90  minutes", asked at 16:00, is 17:30 of the same day. *)
Lemma relative_amount_is_exact_witness :
  valid afternoon_4 /\ ordinal afternoon_4 + 7 <= MAXORDINAL
  /\ PyStr.strip (PyStr.lower "In 90  minutes") = "in " ++ "90" ++ "  " ++ unit_word Minute ++ "s"
  /\ ~ In (PyStr.strip (PyStr.lower "In 90  minutes")) mapping_keys
  /\ search_at (PyStr.strip (PyStr.lower "In 90  minutes")) = None
  /\ parse_natural_time "In 90  minutes" afternoon_4 = Ok "2025-01-15T17:30:00"
  /\ exists dt,
       parse_natural_time "In 90  minutes" afternoon_4 = Ok (isoformat dt) /\ valid dt
       /\ seconds_since dt = seconds_since afternoon_4 + 90 * 60
       /\ microsecond dt = microsecond afternoon_4.
Proof.
  destruct afternoon_4_valid as (Hv & Hmax & _).
  assert ("90" <> "") as Hne by discriminate.
  assert (~ In (PyStr.strip (PyStr.lower "In 90  minutes")) mapping_keys) as Hkey.
  { intros H. vm_compute in H.
    repeat (destruct H as [H|H]; [discriminate H|]). exact H. }
  split; [exact Hv|]. split; [exact Hmax|]. split; [reflexivity|]. split; [exact Hkey|].
  split; [reflexivity|]. split; [vm_compute; reflexivity|].
  pose proof (relative_amount_is_exact "In 90  minutes" "90" "  " "s" Minute afternoon_4
                Hv Hmax eq_refl Hne eq_refl eq_refl Hkey eq_refl) as H.
  cbv zeta in H.
  change (MAX_STR_DIGITS <? Z.of_nat (String.length "90")) with false in H.
  destruct (seconds_since afternoon_4 + PyStr.int_of_digits "90" * unit_seconds Minute
            <? (MAXORDINAL + 1) * 86400) eqn:E; [exact H|].
  vm_compute in E. discriminate E.
Defined.

(** The limits of the amount: 4300 digits resolve or overflow, one more
    is refused, and so is a small amount padded with zeros. *)
Example relative_amount_limits :
  parse_natural_time ("in " ++ PyStr.zeros 4299 ++ "5 hours") afternoon_4
  = Ok "2025-01-15T21:00:00"
  /\ parse_natural_time ("in " ++ PyStr.zeros 4300 ++ "5 hours") afternoon_4
     = Raise (PyExn ValueError
                ("Exceeds the limit (4300 digits) for integer string conversion: "
                 ++ "value has 4301 digits; use sys.set_int_max_str_digits() "
                 ++ "to increase the limit"))
  /\ parse_natural_time "in 24000000000 hours" afternoon_4
     = Raise (PyExn OverflowError "days=1000000000; must have magnitude <= 999999999")
  /\ parse_natural_time "in 51539607552 hours" afternoon_4
     = Raise (PyExn OverflowError "Python int too large to convert to C int")
  /\ parse_natural_time "in 2400000000 hours" afternoon_4
     = Raise (PyExn OverflowError "date value out of range").
Proof. repeat split; vm_compute; reflexivity. Qed.
